(** * jx-admin: the user-administration server, embedded and verified

    The development follows the server side of the repository:
    - [shared/schema.ts]   the zod schemas of the request payloads,
    - [server/storage.ts]  [SupabaseStorage], the adapter over the hosted
                           database client,
    - [server/routes.ts]   the Express handlers.

    The hosted database and the engine's date parser are external; the
    code is embedded over an arbitrary [Platform] providing them, and a
    reference database [Pg] instantiates it where a statement depends on
    what the database answers. *)

From stdpp Require Import base option list gmap strings fin_maps sorting.
From Stdlib Require Import ZArith Lia Ascii.

Set Warnings "-register-all".

Open Scope string_scope.
Open Scope list_scope.
Open Scope Z_scope.

(** ** JavaScript values *)

(** A JS [number] as the code meets it: [parseInt] yields an integer or
    [NaN]; counts and page numbers are integers. *)
Inductive Number : Type :=
| NaN
| Int (z : Z).

(** Parsed JSON.  A top-level object (a request body, the settings record)
    is a finite map from property names to JSON values. *)
Inductive Json : Type :=
| JNull
| JBool (b : bool)
| JNum (n : Z)
| JStr (s : string)
| JArr (items : list Json)
| JObj (members : list (string * Json)).

Abbreviation JsObject := (gmap string Json).

(** [{ ...a, ...b }]: the properties of [a], overridden by those of [b]. *)
Definition spread (a b : JsObject) : JsObject := b ∪ a.

(** [typeof v === "boolean"] for a property that may be absent. *)
Definition typeof_boolean (v : option Json) : option bool :=
  match v with
  | Some (JBool b) => Some b
  | _ => None
  end.

(** Truthiness of an optional string ([undefined] and [""] are falsy). *)
Definition truthy (s : option string) : bool :=
  match s with
  | Some s => negb (String.eqb s "")
  | None => false
  end.

(** A value of the parsed query string ([req.query]): a string, an array
    (a parameter given more than once, or written with brackets) or a
    nested object. *)
Inductive QueryValue : Type :=
| QStr (s : string)
| QArr (items : list QueryValue)
| QObj.

(** Truthiness of an optional query value: the empty string is falsy,
    arrays and objects are truthy. *)
Definition given (v : option QueryValue) : bool :=
  match v with
  | Some (QStr s) => negb (String.eqb s "")
  | Some _ => true
  | None => false
  end.

(** [String(v)], the conversion [parseInt] applies to its argument: an
    array gives its items joined by commas. *)
Fixpoint String_of (v : QueryValue) : string :=
  match v with
  | QStr s => s
  | QArr items =>
      (fix join (l : list QueryValue) : string :=
         match l with
         | [] => ""
         | x :: l' =>
             match l' with
             | [] => String_of x
             | _ => String_of x +:+ "," +:+ join l'
             end
         end) items
  | QObj => "[object Object]"
  end.

Definition text_of (v : option QueryValue) : string :=
  match v with
  | Some q => String_of q
  | None => "undefined"
  end.

(** [n || d] on integers: zero is falsy. *)
Definition or_default (n d : Z) : Z := if decide (n = 0) then d else n.

(** [count || 0] on a nullable count. *)
Definition or_zero (count : option Z) : Z :=
  match count with
  | Some n => or_default n 0
  | None => 0
  end.

(** ** Dates

    A [Date] is a time value in milliseconds since the epoch, or invalid.
    The process runs at a fixed UTC offset, so that moving the local day of
    month by [k] moves the time value by [k] days.

    Strings in ISO format are represented by what they denote: the result
    of [toISOString()] by its time value, and its prefix before the ['T']
    (a [YYYY-MM-DD] date, for years of four digits) by the number of the
    day since the epoch.  [localeCompare] on two such dates is the order of
    their day numbers. *)

Definition msPerDay : Z := 86400000.

Inductive JsDate : Type :=
| InvalidDate
| Instant (ms : Z).

Abbreviation Timestamp := Z (only parsing).
Abbreviation DateString := Z (only parsing).

(** The range of valid time values: 100 000 000 days around the epoch. *)
Definition TimeClip (t : Z) : JsDate :=
  if decide (Z.abs t ≤ 8640000000000000) then Instant t else InvalidDate.

(** [d.setDate(d.getDate() - k)] *)
Definition setDate_back (d : JsDate) (k : Number) : JsDate :=
  match d, k with
  | Instant t, Int k => TimeClip (t - k * msPerDay)
  | _, _ => InvalidDate
  end.

(** [iso.split('T')[0]] on the ISO string of time value [t]. *)
Definition date_part (t : Timestamp) : DateString := t `div` msPerDay.

(** First and last day of the years 0000 to 9999. *)
Definition first_day : DateString := -719528.
Definition last_day : DateString := 2932896.

(** ** Exceptions and outcomes *)

Record ZodIssue : Type := {
  path : string;
  problem : string
}.

Inductive Exn : Type :=
| Error (message : string)
| ZodError (issues : list ZodIssue)
| RangeError (message : string)
| TypeError (message : string).

Inductive Outcome (A : Type) : Type :=
| Returned (a : A)
| Thrown (e : Exn).
Arguments Returned {A} a.
Arguments Thrown {A} e.

(** [d.toISOString()]: throws on an invalid date. *)
Definition toISOString (d : JsDate) : Outcome Timestamp :=
  match d with
  | Instant t => Returned t
  | InvalidDate => Thrown (RangeError "Invalid time value")
  end.

(** ** The user entity ([users] in shared/schema.ts, table "users2") *)

Record User : Type := {
  id : string;
  name : string;
  phone : string;
  passcode_hash : string;
  imei : string;
  is_vip : option bool;
  created_at : option Timestamp;
  expired_at : option Timestamp;
  last_login : option Timestamp;
  current_device : option string;
  is_banned : option bool
}.

(** The value found at [expired_at] of an update object. *)
Inductive ExpiredAt : Type :=
| ENull
| EDate (d : JsDate)
| EText (s : string)
| EIso (t : Timestamp).

(** An update object at run time: every property may be absent ([None]).
    [banUser] and its siblings build one with a single property. *)
Record UpdateUser : Type := {
  u_name : option string;
  u_phone : option string;
  u_imei : option string;
  u_is_vip : option bool;
  u_is_banned : option bool;
  u_expired_at : option ExpiredAt
}.

Definition set_expired_at (e : ExpiredAt) (u : UpdateUser) : UpdateUser :=
  {| u_name := u_name u; u_phone := u_phone u; u_imei := u_imei u;
     u_is_vip := u_is_vip u; u_is_banned := u_is_banned u;
     u_expired_at := Some e |}.

(** ** The database client

    A query is what the builder calls of supabase-js accumulate; awaiting
    it sends it.  The answer has the three fields the code destructures. *)

Inductive Condition : Type :=
| ilike (column pattern : string)
| eq_bool (column : string) (b : bool)
| eq_text (column value : string)
| gte (column : string) (value : Timestamp).

Inductive Action : Type :=
| select (columns : string) (count_exact head : bool)
| update (userData : UpdateUser).

Record Query : Type := {
  from : string;
  action : Action;
  conditions : list Condition;
  order : option (string * bool);
  range : option (Z * Z);
  single : bool
}.

Definition table (name : string) (a : Action) : Query :=
  {| from := name; action := a; conditions := []; order := None;
     range := None; single := false |}.

Definition where_ (c : Condition) (q : Query) : Query :=
  {| from := from q; action := action q; conditions := conditions q ++ [c];
     order := order q; range := range q; single := single q |}.

Definition order_by (column : string) (ascending : bool) (q : Query) : Query :=
  {| from := from q; action := action q; conditions := conditions q;
     order := Some (column, ascending); range := range q; single := single q |}.

Definition in_range (lo hi : Z) (q : Query) : Query :=
  {| from := from q; action := action q; conditions := conditions q;
     order := order q; range := Some (lo, hi); single := single q |}.

Definition as_single (q : Query) : Query :=
  {| from := from q; action := action q; conditions := conditions q;
     order := order q; range := range q; single := true |}.

Record PostgrestError : Type := {
  code : string;
  message : string
}.

(** [data] at run time: [null], one row, or an array of rows. *)
Inductive Payload : Type :=
| PNull
| PRow (u : User)
| PRows (us : list User).

Record Reply : Type := {
  data : Payload;
  error : option PostgrestError;
  count : option Z
}.

(** What the server does not define: the hosted database behind the
    client, and the date parser of the engine ([new Date(string)]). *)
Class Platform : Type := {
  Db : Type;
  request : Query → Db → Reply * Db;
  Date_parse : string → JsDate
}.

(** ** The process: state and effects

    One request is served against the database, the settings held by the
    storage object, and the clock, which every [new Date()] of the request
    reads at the same instant [now].  [issued] records the queries sent, in
    order. *)

Section Process.
Context `{Platform}.

Record World : Type := {
  db : Db;
  settings : JsObject;
  now : Z;
  issued : list Query
}.

Definition M (A : Type) : Type := World → Outcome A * World.

Definition ret {A} (a : A) : M A := fun w => (Returned a, w).

Definition throw {A} (e : Exn) : M A := fun w => (Thrown e, w).

Definition bind {A B} (m : M A) (k : A → M B) : M B :=
  fun w =>
    match m w with
    | (Returned a, w') => k a w'
    | (Thrown e, w') => (Thrown e, w')
    end.

(** A pure computation that may throw. *)
Definition lift {A} (o : Outcome A) : M A := fun w => (o, w).

(** [new Date()] *)
Definition new_Date : M JsDate := fun w => (Returned (Instant (now w)), w).

(** [await query] *)
Definition await (q : Query) : M Reply :=
  fun w =>
    let answer := request q (db w) in
    (Returned (fst answer),
     {| db := snd answer; settings := settings w; now := now w;
        issued := issued w ++ [q] |}).

Definition read_settings : M JsObject := fun w => (Returned (settings w), w).

Definition write_settings (s : JsObject) : M unit :=
  fun w =>
    (Returned tt,
     {| db := db w; settings := s; now := now w; issued := issued w |}).

End Process.

Notation "x <- m ;; k" := (bind m (fun x => k))
  (at level 100, m at next level, right associativity).

(** ** [parseInt] (radix absent): leading blanks, a sign, an optional
    [0x], then the longest prefix of digits; [NaN] when there is none.

    The result is the integer the digits denote, which is the number the
    language returns as long as it is a safe integer (below [2^53] in
    absolute value); whether the result is [NaN] does not depend on that. *)

Definition is_blank (c : ascii) : bool :=
  let n := nat_of_ascii c in
  (Nat.eqb n 32 || Nat.leb 9 n && Nat.leb n 13)%bool.

Fixpoint skip_blanks (s : string) : string :=
  match s with
  | String c s' => if is_blank c then skip_blanks s' else s
  | EmptyString => s
  end.

Definition digit_value (c : ascii) : option Z :=
  let n := Z.of_nat (nat_of_ascii c) in
  if decide (48 ≤ n ≤ 57) then Some (n - 48)
  else if decide (97 ≤ n ≤ 122) then Some (n - 87)
  else if decide (65 ≤ n ≤ 90) then Some (n - 55)
  else None.

Fixpoint digits (radix : Z) (acc : option Z) (s : string) : option Z :=
  match s with
  | String c s' =>
      match digit_value c with
      | Some d =>
          if decide (d < radix)
          then digits radix (Some (default 0 acc * radix + d)) s'
          else acc
      | None => acc
      end
  | EmptyString => acc
  end.

Definition parseInt (s : string) : Number :=
  let s := skip_blanks s in
  let '(negative, s) :=
    match s with
    | String "-"%char s' => (true, s')
    | String "+"%char s' => (false, s')
    | _ => (false, s)
    end in
  let '(radix, s) :=
    match s with
    | String "0"%char (String "x"%char s') => (16, s')
    | String "0"%char (String "X"%char s') => (16, s')
    | _ => (10, s)
    end in
  match digits radix None s with
  | Some n => Int (if negative then - n else n)
  | None => NaN
  end.

(** ** shared/schema.ts: the zod schemas

    A schema checks every key and reports all the issues found. *)

Definition Validation (A : Type) : Type := list ZodIssue + A.

Definition accept {A} (a : A) : Validation A := inr a.

Definition reject {A} (key what : string) : Validation A :=
  inl [ {| path := key; problem := what |} ].

Definition and_key {A B} (f : Validation (A → B)) (a : Validation A)
  : Validation B :=
  match f, a with
  | inr f, inr a => inr (f a)
  | inr _, inl j => inl j
  | inl i, inr _ => inl i
  | inl i, inl j => inl (i ++ j)
  end.

Infix "<*>" := and_key (at level 61, left associativity).

(** [schema.parse(input)] *)
Definition parse {A} (c : Validation A) : Outcome A :=
  match c with
  | inr a => Returned a
  | inl i => Thrown (ZodError i)
  end.

(** [z.string()] *)
Definition z_string (key : string) (v : option Json) : Validation string :=
  match v with
  | Some (JStr s) => accept s
  | Some _ => reject key "Expected string"
  | None => reject key "Required"
  end.

(** [z.string().optional()] *)
Definition z_string_optional (key : string) (v : option Json)
  : Validation (option string) :=
  match v with
  | Some (JStr s) => accept (Some s)
  | Some _ => reject key "Expected string"
  | None => accept None
  end.

(** [z.boolean().optional()] *)
Definition z_boolean_optional (key : string) (v : option Json)
  : Validation (option bool) :=
  match v with
  | Some (JBool b) => accept (Some b)
  | Some _ => reject key "Expected boolean"
  | None => accept None
  end.

Inductive VipFilter : Type := vip_all | vip_only | non_vip.
Inductive BanFilter : Type := ban_all | banned | active.
Inductive SortBy : Type :=
  by_name | by_created_at | by_last_login | by_expired_at.
Inductive SortOrder : Type := asc | desc.

#[global] Instance SortOrder_eq_dec : EqDecision SortOrder.
Proof. solve_decision. Defined.

(** The column a [sortBy] value names. *)
Definition column_of (s : SortBy) : string :=
  match s with
  | by_name => "name"
  | by_created_at => "created_at"
  | by_last_login => "last_login"
  | by_expired_at => "expired_at"
  end.

Record FilterUserParams : Type := {
  f_name : option string;
  f_phone : option string;
  f_is_vip : VipFilter;
  f_is_banned : BanFilter;
  f_sortBy : SortBy;
  f_sortOrder : SortOrder;
  f_page : Z;
  f_limit : Z
}.

(** The object the list handler hands to [filterUserSchema.parse]: the
    values of the query string as they are, and the two numbers. *)
Record FilterInput : Type := {
  i_name : option QueryValue;
  i_phone : option QueryValue;
  i_is_vip : option QueryValue;
  i_is_banned : option QueryValue;
  i_sortBy : option QueryValue;
  i_sortOrder : option QueryValue;
  i_page : option Number;
  i_limit : option Number
}.

(** [z.string().optional()] on a value of the query string *)
Definition z_query_string (key : string) (v : option QueryValue)
  : Validation (option string) :=
  match v with
  | None => accept None
  | Some (QStr s) => accept (Some s)
  | Some (QArr _) => reject key "Expected string, received array"
  | Some QObj => reject key "Expected string, received object"
  end.

(** [z.enum([...]).optional().default(d)] *)
Definition z_enum {A} (key : string) (values : list (string * A)) (d : A)
    (v : option QueryValue) : Validation A :=
  match v with
  | None => accept d
  | Some (QStr s) =>
      match list_find (fun kv => String.eqb (fst kv) s = true) values with
      | Some (_, kv) => accept (snd kv)
      | None => reject key "Invalid enum value"
      end
  | Some _ => reject key "Invalid enum value"
  end.

(** [z.number().optional().default(d)] *)
Definition z_number (key : string) (d : Z) (v : option Number) : Validation Z :=
  match v with
  | None => accept d
  | Some (Int n) => accept n
  | Some NaN => reject key "Expected number, received nan"
  end.

Definition filterUserSchema (i : FilterInput) : Validation FilterUserParams :=
  accept Build_FilterUserParams
    <*> z_query_string "name" (i_name i)
    <*> z_query_string "phone" (i_phone i)
    <*> z_enum "is_vip"
          [("all", vip_all); ("vip", vip_only); ("non-vip", non_vip)]
          vip_all (i_is_vip i)
    <*> z_enum "is_banned"
          [("all", ban_all); ("banned", banned); ("active", active)]
          ban_all (i_is_banned i)
    <*> z_enum "sortBy"
          [("name", by_name); ("created_at", by_created_at);
           ("last_login", by_last_login); ("expired_at", by_expired_at)]
          by_created_at (i_sortBy i)
    <*> z_enum "sortOrder" [("asc", asc); ("desc", desc)] desc (i_sortOrder i)
    <*> z_number "page" 1 (i_page i)
    <*> z_number "limit" 10 (i_limit i).

Section Schema.
Context `{Platform}.

(** [z.string().nullable().optional().transform(val => ...)] of
    [expired_at]: the transform also runs on an absent key. *)
Definition z_expired_at (key : string) (v : option Json) : Validation ExpiredAt :=
  match v with
  | None => accept ENull
  | Some JNull => accept ENull
  | Some (JStr s) =>
      if decide (s = "") then accept ENull else accept (EDate (Date_parse s))
  | Some _ => reject key "Expected string"
  end.

Definition updateUserSchema (body : JsObject) : Validation UpdateUser :=
  accept (fun n p i v b e =>
            {| u_name := Some n; u_phone := p; u_imei := i; u_is_vip := v;
               u_is_banned := b; u_expired_at := Some e |})
    <*> z_string "name" (body !! "name")
    <*> z_string_optional "phone" (body !! "phone")
    <*> z_string_optional "imei" (body !! "imei")
    <*> z_boolean_optional "is_vip" (body !! "is_vip")
    <*> z_boolean_optional "is_banned" (body !! "is_banned")
    <*> z_expired_at "expired_at" (body !! "expired_at").

End Schema.

(** ** server/storage.ts: [SupabaseStorage] *)

Record UsersResult : Type := {
  result_data : Payload;
  result_count : Z
}.

Record UserStats : Type := {
  totalUsers : Z;
  activeUsers : Z;
  bannedUsers : Z;
  vipUsers : Z;
  newUsers : Z
}.

Record UserActivity : Type := {
  date : DateString;
  userCount : Z
}.

(** [a.date.localeCompare(b.date) <= 0], for dates within the years 0000
    to 9999: there the order of the strings is the order of the days. *)
Definition by_date (a b : UserActivity) : Prop := date a ≤ date b.

#[global] Instance by_date_dec : RelDecision by_date.
Proof. intros a b. unfold by_date. apply _. Defined.

Definition DEFAULT_SETTINGS : JsObject :=
  {[ "allowRegistration" := JBool true;
     "maintenanceMode" := JBool false;
     "vipFeatures" :=
       JArr [JStr "Priority Support"; JStr "Extended Expiration";
             JStr "Premium Content"];
     "appVersion" := JStr "1.0.0";
     "notificationMessage" := JStr "" ]}.

Section SupabaseStorage.
Context `{Platform}.

(** Running a loop body over the elements of a list, left to right. *)
Fixpoint for_each {A S} (body : S → A → M S) (l : list A) (s : S) : M S :=
  match l with
  | [] => ret s
  | a :: l' => s' <- body s a ;; for_each body l' s'
  end.

(** The range is computed on integers, as the code computes it on numbers
    while page, limit and the products are safe integers. *)
Definition getUsers (filters : FilterUserParams) : M UsersResult :=
  let query := table "users2" (select "*" true false) in
  (* Apply name filter *)
  let query :=
    if truthy (f_name filters)
    then where_ (ilike "name" ("%" +:+ default "" (f_name filters) +:+ "%")) query
    else query in
  (* Apply phone filter *)
  let query :=
    if truthy (f_phone filters)
    then where_ (ilike "phone" ("%" +:+ default "" (f_phone filters) +:+ "%")) query
    else query in
  (* Apply VIP filter *)
  let query :=
    match f_is_vip filters with
    | vip_only => where_ (eq_bool "is_vip" true) query
    | non_vip => where_ (eq_bool "is_vip" false) query
    | vip_all => query
    end in
  (* Apply ban filter *)
  let query :=
    match f_is_banned filters with
    | banned => where_ (eq_bool "is_banned" true) query
    | active => where_ (eq_bool "is_banned" false) query
    | ban_all => query
    end in
  (* Apply pagination *)
  let page := or_default (f_page filters) 1 in
  let limit := or_default (f_limit filters) 10 in
  let start := (page - 1) * limit in
  (* Apply sorting: a [sortBy] value is never falsy *)
  let query :=
    order_by (column_of (f_sortBy filters))
      (bool_decide (f_sortOrder filters = asc)) query in
  (* Execute query with pagination *)
  r <- await (in_range start (start + limit - 1) query) ;;
  match error r with
  | Some e => throw (Error ("Failed to get users: " +:+ message e))
  | None => ret {| result_data := data r; result_count := or_zero (count r) |}
  end.

Definition getUser (id : string) : M Payload :=
  r <- await (as_single
                (where_ (eq_text "id" id) (table "users2" (select "*" false false)))) ;;
  match error r with
  | Some e =>
      if decide (code e = "PGRST116") then ret PNull
      else throw (Error ("Failed to get user: " +:+ message e))
  | None => ret (data r)
  end.

Definition updateUser (id : string) (user : UpdateUser) : M Payload :=
  (* Process expired_at date properly *)
  let userData := user in
  userData <-
    match u_expired_at userData with
    | Some (EDate d) =>
        iso <- lift (toISOString d) ;; ret (set_expired_at (EIso iso) userData)
    | Some (EText s) =>
        if decide (s = "") then ret (set_expired_at ENull userData)
        else ret userData
    | _ => ret userData
    end ;;
  r <- await (as_single
                (where_ (eq_text "id" id) (table "users2" (update userData)))) ;;
  match error r with
  | Some e => throw (Error ("Failed to update user: " +:+ message e))
  | None => ret (data r)
  end.

Definition banUser (id : string) : M Payload :=
  updateUser id
    {| u_name := None; u_phone := None; u_imei := None; u_is_vip := None;
       u_is_banned := Some true; u_expired_at := None |}.

Definition unbanUser (id : string) : M Payload :=
  updateUser id
    {| u_name := None; u_phone := None; u_imei := None; u_is_vip := None;
       u_is_banned := Some false; u_expired_at := None |}.

Definition setVipStatus (id : string) (isVip : bool) : M Payload :=
  updateUser id
    {| u_name := None; u_phone := None; u_imei := None; u_is_vip := Some isVip;
       u_is_banned := None; u_expired_at := None |}.

(** The head-only counting query [select('*', { count: 'exact', head: true })]. *)
Definition counting (tbl : string) : Query := table tbl (select "*" true true).

Definition getUserStats : M UserStats :=
  (* Get total users *)
  total <- await (counting "users2") ;;
  (* Get active (non-banned) users *)
  act <- await (where_ (eq_bool "is_banned" false) (counting "users2")) ;;
  (* Get banned users *)
  ban <- await (where_ (eq_bool "is_banned" true) (counting "users2")) ;;
  (* Get VIP users *)
  vip <- await (where_ (eq_bool "is_vip" true) (counting "users2")) ;;
  (* Get new users in last 7 days *)
  sevenDaysAgo <- new_Date ;;
  let sevenDaysAgo := setDate_back sevenDaysAgo (Int 7) in
  since <- lift (toISOString sevenDaysAgo) ;;
  new <- await (where_ (gte "created_at" since) (counting "users2")) ;;
  ret {| totalUsers := or_zero (count total);
         activeUsers := or_zero (count act);
         bannedUsers := or_zero (count ban);
         vipUsers := or_zero (count vip);
         newUsers := or_zero (count new) |}.

(** [new Date(user.created_at)]: [null] converts to the epoch. *)
Definition Date_of_column (c : option Timestamp) : JsDate :=
  match c with
  | Some t => TimeClip t
  | None => Instant 0
  end.

(** [activityByDate.get(dateStr) || 0] *)
Definition get_or_zero (m : gmap Z Z) (k : DateString) : Z :=
  match m !! k with
  | Some n => or_default n 0
  | None => 0
  end.

Definition getUserActivityTrend (days : option Number) : M (list UserActivity) :=
  let days := default (Int 30) days in
  (* Get signups per day for the last 'days' days *)
  daysAgo <- new_Date ;;
  let daysAgo := setDate_back daysAgo days in
  since <- lift (toISOString daysAgo) ;;
  r <- await (where_ (gte "created_at" since)
                (table "users2" (select "created_at" false false))) ;;
  match data r with
  | PNull => ret []
  | data =>
      (* Create a map of dates to count *)
      let activityByDate : gmap Z Z := ∅ in
      (* Initialize all dates in the range *)
      activityByDate <-
        for_each
          (fun (activityByDate : gmap Z Z) i =>
             date <- new_Date ;;
             let date := setDate_back date (Int i) in
             iso <- lift (toISOString date) ;;
             let dateString := date_part iso in
             ret (<[dateString := 0]> activityByDate))
          (match days with Int n => seqZ 0 n | NaN => [] end)
          activityByDate ;;
      (* Count users by date *)
      activityByDate <-
        match data with
        | PRows users =>
            for_each
              (fun (activityByDate : gmap Z Z) user =>
                 iso <- lift (toISOString (Date_of_column (created_at user))) ;;
                 let dateStr := date_part iso in
                 let count := get_or_zero activityByDate dateStr in
                 ret (<[dateStr := count + 1]> activityByDate))
              users activityByDate
        | _ => throw (TypeError "data.forEach is not a function")
        end ;;
      (* Convert to array and sort by date *)
      ret (merge_sort by_date
             ((fun e => {| date := fst e; userCount := snd e |})
                <$> map_to_list activityByDate))
  end.

(** Settings methods *)

Definition getSettings : M JsObject := read_settings.

Definition updateSettings (newSettings : JsObject) : M JsObject :=
  settings <- read_settings ;;
  _ <- write_settings (spread settings newSettings) ;;
  read_settings.

End SupabaseStorage.

(** *** The table-aware variant of the class

    A second version of the storage file gives every method a [table]
    parameter with default ['users2'], reads the table of the list from the
    filter object, and joins the five counting queries of the statistics
    with [Promise.all]; the requests leave in array order. *)
Section TableAware.
Context `{Platform}.

(** [new Date(Date.now() - ms)] *)
Definition new_Date_before (ms : Z) : M JsDate :=
  fun w => (Returned (TimeClip (now w - ms)), w).

(** [filters.table || 'users2'] *)
Definition or_users2 (tbl : option string) : string :=
  if truthy tbl then default "" tbl else "users2".

Definition getUsers_in (tbl : option string) (filters : FilterUserParams)
  : M UsersResult :=
  let tableName := or_users2 tbl in
  let query := table tableName (select "*" true false) in
  (* Apply filters *)
  let query :=
    if truthy (f_name filters)
    then where_ (ilike "name" ("%" +:+ default "" (f_name filters) +:+ "%")) query
    else query in
  let query :=
    if truthy (f_phone filters)
    then where_ (ilike "phone" ("%" +:+ default "" (f_phone filters) +:+ "%")) query
    else query in
  let query :=
    match f_is_vip filters with
    | vip_only => where_ (eq_bool "is_vip" true) query
    | non_vip => where_ (eq_bool "is_vip" false) query
    | vip_all => query
    end in
  let query :=
    match f_is_banned filters with
    | banned => where_ (eq_bool "is_banned" true) query
    | active => where_ (eq_bool "is_banned" false) query
    | ban_all => query
    end in
  (* Apply pagination *)
  let page := or_default (f_page filters) 1 in
  let limit := or_default (f_limit filters) 10 in
  let start := (page - 1) * limit in
  (* Apply sorting *)
  let query :=
    order_by (column_of (f_sortBy filters))
      (bool_decide (f_sortOrder filters = asc)) query in
  (* Execute query with pagination *)
  r <- await (in_range start (start + limit - 1) query) ;;
  match error r with
  | Some e => throw (Error ("Failed to get users: " +:+ message e))
  | None => ret {| result_data := data r; result_count := or_zero (count r) |}
  end.

Definition getUser_in (tbl : option string) (id : string) : M Payload :=
  let tbl := default "users2" tbl in
  r <- await (as_single
                (where_ (eq_text "id" id) (table tbl (select "*" false false)))) ;;
  match error r with
  | Some e =>
      if decide (code e = "PGRST116") then ret PNull
      else throw (Error ("Failed to get user: " +:+ message e))
  | None => ret (data r)
  end.

Definition updateUser_in (tbl : option string) (id : string) (user : UpdateUser)
  : M Payload :=
  let tbl := default "users2" tbl in
  let userData := user in
  userData <-
    match u_expired_at userData with
    | Some (EDate d) =>
        iso <- lift (toISOString d) ;; ret (set_expired_at (EIso iso) userData)
    | Some (EText s) =>
        if decide (s = "") then ret (set_expired_at ENull userData)
        else ret userData
    | _ => ret userData
    end ;;
  r <- await (as_single
                (where_ (eq_text "id" id) (table tbl (update userData)))) ;;
  match error r with
  | Some e => throw (Error ("Failed to update user: " +:+ message e))
  | None => ret (data r)
  end.

Definition banUser_in (tbl : option string) (id : string) : M Payload :=
  updateUser_in (Some (default "users2" tbl)) id
    {| u_name := None; u_phone := None; u_imei := None; u_is_vip := None;
       u_is_banned := Some true; u_expired_at := None |}.

Definition unbanUser_in (tbl : option string) (id : string) : M Payload :=
  updateUser_in (Some (default "users2" tbl)) id
    {| u_name := None; u_phone := None; u_imei := None; u_is_vip := None;
       u_is_banned := Some false; u_expired_at := None |}.

Definition setVipStatus_in (tbl : option string) (id : string) (isVip : bool)
  : M Payload :=
  updateUser_in (Some (default "users2" tbl)) id
    {| u_name := None; u_phone := None; u_imei := None; u_is_vip := Some isVip;
       u_is_banned := None; u_expired_at := None |}.

Definition getUserStats_all (tbl : option string) : M UserStats :=
  let tbl := default "users2" tbl in
  weekAgo <- new_Date_before (7 * 24 * 60 * 60 * 1000) ;;
  since <- lift (toISOString weekAgo) ;;
  total <- await (counting tbl) ;;
  act <- await (where_ (eq_bool "is_banned" false) (counting tbl)) ;;
  ban <- await (where_ (eq_bool "is_banned" true) (counting tbl)) ;;
  vip <- await (where_ (eq_bool "is_vip" true) (counting tbl)) ;;
  new <- await (where_ (gte "created_at" since) (counting tbl)) ;;
  ret {| totalUsers := or_zero (count total);
         activeUsers := or_zero (count act);
         bannedUsers := or_zero (count ban);
         vipUsers := or_zero (count vip);
         newUsers := or_zero (count new) |}.

End TableAware.

(** ** server/routes.ts: the handlers *)

(** A request: the [:id] segment, the parsed query string and the object
    the JSON body parser delivers (empty without a body). *)
Record Request : Type := {
  params_id : string;
  query : gmap string QueryValue;
  body : JsObject
}.

(** What [res.json] can be given. *)
Inductive Body : Type :=
| Message (m : string)
| ValidationMessage (issues : list ZodIssue)
| OfUsers (r : UsersResult)
| OfUser (u : Payload)
| OfStats (s : UserStats)
| OfActivity (a : list UserActivity)
| OfSettings (s : JsObject).

Record Response : Type := {
  status : Z;
  json : Body
}.

(** [res.json(b)] and [res.status(s).json(b)] *)
Definition respond (b : Body) : Response := {| status := 200; json := b |}.
Definition respond_with (s : Z) (b : Body) : Response :=
  {| status := s; json := b |}.

Section Routes.
Context `{Platform}.

Definition Handler : Type := Request → World → Response * World.

(** [try { ... } catch (error) { ... }] around a handler body. *)
Definition try_catch (block : M Response) (catch : Exn → Response)
  : World → Response * World :=
  fun w =>
    match block w with
    | (Returned r, w') => (r, w')
    | (Thrown e, w') => (catch e, w')
    end.

(** [error instanceof z.ZodError ? 400 : 500] *)
Definition validation_or (failure : string) (e : Exn) : Response :=
  match e with
  | ZodError issues => respond_with 400 (ValidationMessage issues)
  | _ => respond_with 500 (Message failure)
  end.

(** [req.query.k ? parseInt(req.query.k) : undefined] *)
Definition optional_int (v : option QueryValue) : option Number :=
  if given v then Some (parseInt (text_of v)) else None.

(** Get all users with filtering and pagination *)
Definition get_users : Handler := fun req =>
  try_catch
    (parsedQuery <- lift (parse (filterUserSchema
       {| i_name := query req !! "name";
          i_phone := query req !! "phone";
          i_is_vip := query req !! "is_vip";
          i_is_banned := query req !! "is_banned";
          i_sortBy := query req !! "sortBy";
          i_sortOrder := query req !! "sortOrder";
          i_page := optional_int (query req !! "page");
          i_limit := optional_int (query req !! "limit") |})) ;;
     result <- getUsers parsedQuery ;;
     ret (respond (OfUsers result)))
    (validation_or "Failed to fetch users").

(** Get user by ID *)
Definition get_user : Handler := fun req =>
  try_catch
    (user <- getUser (params_id req) ;;
     match user with
     | PNull => ret (respond_with 404 (Message "User not found"))
     | _ => ret (respond (OfUser user))
     end)
    (fun _ => respond_with 500 (Message "Failed to fetch user")).

(** Update user *)
Definition put_user : Handler := fun req =>
  try_catch
    (userData <- lift (parse (updateUserSchema (body req))) ;;
     updatedUser <- updateUser (params_id req) userData ;;
     ret (respond (OfUser updatedUser)))
    (validation_or "Failed to update user").

(** Ban user *)
Definition post_ban : Handler := fun req =>
  try_catch
    (updatedUser <- banUser (params_id req) ;;
     ret (respond (OfUser updatedUser)))
    (fun _ => respond_with 500 (Message "Failed to ban user")).

(** Unban user *)
Definition post_unban : Handler := fun req =>
  try_catch
    (updatedUser <- unbanUser (params_id req) ;;
     ret (respond (OfUser updatedUser)))
    (fun _ => respond_with 500 (Message "Failed to unban user")).

(** Set VIP status *)
Definition post_vip : Handler := fun req =>
  try_catch
    (let isVip := body req !! "isVip" in
     match typeof_boolean isVip with
     | None => ret (respond_with 400 (Message "isVip must be a boolean"))
     | Some isVip =>
         updatedUser <- setVipStatus (params_id req) isVip ;;
         ret (respond (OfUser updatedUser))
     end)
    (fun _ => respond_with 500 (Message "Failed to update VIP status")).

(** Analytics routes *)
Definition get_stats : Handler := fun _req =>
  try_catch
    (stats <- getUserStats ;;
     ret (respond (OfStats stats)))
    (fun _ => respond_with 500 (Message "Failed to fetch user statistics")).

Definition get_activity : Handler := fun req =>
  try_catch
    (let days :=
       if given (query req !! "days")
       then parseInt (text_of (query req !! "days"))
       else Int 30 in
     activityData <- getUserActivityTrend (Some days) ;;
     ret (respond (OfActivity activityData)))
    (fun _ => respond_with 500 (Message "Failed to fetch user activity data")).

(** Settings routes *)
Definition get_settings : Handler := fun _req =>
  try_catch
    (settings <- getSettings ;;
     ret (respond (OfSettings settings)))
    (fun _ => respond_with 500 (Message "Failed to fetch application settings")).

Definition put_settings : Handler := fun req =>
  try_catch
    (updatedSettings <- updateSettings (body req) ;;
     ret (respond (OfSettings updatedSettings)))
    (fun _ => respond_with 500 (Message "Failed to update application settings")).

(** The routes [registerRoutes] installs. *)
Inductive Route : Type :=
| GET_users | GET_user | PUT_user | POST_ban | POST_unban | POST_vip
| GET_stats | GET_activity | GET_settings | PUT_settings.

Definition registerRoutes (r : Route) : Handler :=
  match r with
  | GET_users => get_users
  | GET_user => get_user
  | PUT_user => put_user
  | POST_ban => post_ban
  | POST_unban => post_unban
  | POST_vip => post_vip
  | GET_stats => get_stats
  | GET_activity => get_activity
  | GET_settings => get_settings
  | PUT_settings => put_settings
  end.

End Routes.

(** ** A reference database

    The contract of the hosted database as the server relies on it: a table
    is a list of rows; a query keeps the rows that satisfy all its
    conditions, orders them, cuts the requested range out and counts the
    rows kept before the cut; [single] wants exactly one row; an update
    rewrites the rows kept.  It answers with an error when it cannot be
    reached or the table does not exist. *)

Module Pg.

Record State : Type := {
  reachable : bool;
  tables : gmap string (list User)
}.

Definition lower (c : ascii) : ascii :=
  let n := nat_of_ascii c in
  if (Nat.leb 65 n && Nat.leb n 90)%bool then ascii_of_nat (n + 32) else c.

(** [LIKE] with [%] and [_], without regard to case. *)
Fixpoint like (p : list ascii) : list ascii → bool :=
  match p with
  | [] => fun s => match s with [] => true | _ => false end
  | c :: p' =>
      if Ascii.eqb c "%"
      then fix any (s : list ascii) : bool :=
             (like p' s || match s with [] => false | _ :: s' => any s' end)%bool
      else fun s =>
             match s with
             | [] => false
             | d :: s' =>
                 ((Ascii.eqb c "_" || Ascii.eqb (lower c) (lower d))
                  && like p' s')%bool
             end
  end.

Definition text_column (c : string) (u : User) : option string :=
  if decide (c = "id") then Some (id u)
  else if decide (c = "name") then Some (name u)
  else if decide (c = "phone") then Some (phone u)
  else if decide (c = "passcode_hash") then Some (passcode_hash u)
  else if decide (c = "imei") then Some (imei u)
  else if decide (c = "current_device") then current_device u
  else None.

Definition bool_column (c : string) (u : User) : option bool :=
  if decide (c = "is_vip") then is_vip u
  else if decide (c = "is_banned") then is_banned u
  else None.

Definition time_column (c : string) (u : User) : option Timestamp :=
  if decide (c = "created_at") then created_at u
  else if decide (c = "expired_at") then expired_at u
  else if decide (c = "last_login") then last_login u
  else None.

Definition satisfies (u : User) (c : Condition) : bool :=
  match c with
  | ilike col pat =>
      match text_column col u with
      | Some s => like (String.list_ascii_of_string pat) (String.list_ascii_of_string s)
      | None => false
      end
  | eq_bool col b =>
      match bool_column col u with
      | Some v => Bool.eqb v b
      | None => false
      end
  | eq_text col v =>
      match text_column col u with
      | Some s => String.eqb s v
      | None => false
      end
  | gte col t =>
      match time_column col u with
      | Some v => bool_decide (t ≤ v)
      | None => false
      end
  end.

Definition matching (cs : list Condition) (u : User) : bool :=
  forallb (satisfies u) cs.

(** Nulls sort after every value. *)
Definition time_le (a b : option Timestamp) : bool :=
  match a, b with
  | Some x, Some y => bool_decide (x ≤ y)
  | _, None => true
  | None, Some _ => false
  end.

Definition column_le (c : string) (u v : User) : bool :=
  if decide (c = "name") then String.leb (name u) (name v)
  else time_le (time_column c u) (time_column c v).

Definition row_order (o : option (string * bool)) (u v : User) : Prop :=
  match o with
  | Some (c, true) => column_le c u v = true
  | Some (c, false) => column_le c v u = true
  | None => True
  end.

#[global] Instance row_order_dec o : RelDecision (row_order o).
Proof. intros u v. destruct o as [[c []]|]; simpl; apply _. Defined.

(** Rows [lo] to [hi], both included. *)
Definition slice (r : option (Z * Z)) (l : list User) : list User :=
  match r with
  | Some (lo, hi) => take (Z.to_nat (hi - lo + 1)) (drop (Z.to_nat lo) l)
  | None => l
  end.

(** The rows a query selects, before and after the range is cut out. *)
Definition selected (q : Query) (rows : list User) : list User :=
  merge_sort (row_order (order q)) (filter (fun u => matching (conditions q) u = true) rows).

Definition failure (c m : string) : Reply :=
  {| data := PNull; error := Some {| code := c; message := m |}; count := None |}.

Definition two (s : string) : option Z :=
  match s with
  | String a (String b EmptyString) =>
      match digit_value a, digit_value b with
      | Some x, Some y =>
          if decide (x < 10 ∧ y < 10) then Some (10 * x + y) else None
      | _, _ => None
      end
  | _ => None
  end.

Definition four (s : string) : option Z :=
  match two (String.substring 0 2 s), two (String.substring 2 2 s) with
  | Some x, Some y => if decide (String.length s = 4%nat) then Some (100 * x + y) else None
  | _, _ => None
  end.

Definition days_in_month (y m : Z) : Z :=
  if decide (m = 2)
  then if decide (y `mod` 4 = 0 ∧ (y `mod` 100 ≠ 0 ∨ y `mod` 400 = 0)) then 29 else 28
  else if decide (m = 4 ∨ m = 6 ∨ m = 9 ∨ m = 11) then 30 else 31.

(** Day number of a civil date. *)
Definition days_from_civil (y m d : Z) : Z :=
  let y' := if decide (m ≤ 2) then y - 1 else y in
  let era := y' `div` 400 in
  let yoe := y' - era * 400 in
  let doy := (153 * (if decide (m ≤ 2) then m + 9 else m - 3) + 2) `div` 5 + d - 1 in
  era * 146097 + (yoe * 365 + yoe `div` 4 - yoe `div` 100 + doy) - 719468.

(** A strict parser of the date-only ISO form [YYYY-MM-DD] (midnight UTC). *)
Definition parse_date (s : string) : JsDate :=
  match four (String.substring 0 4 s), two (String.substring 5 2 s), two (String.substring 8 2 s) with
  | Some y, Some m, Some d =>
      if decide (String.length s = 10%nat ∧ String.substring 4 1 s = "-"
                 ∧ String.substring 7 1 s = "-" ∧ 1 ≤ m ≤ 12
                 ∧ 1 ≤ d ≤ days_in_month y m)
      then Instant (days_from_civil y m d * msPerDay)
      else InvalidDate
  | _, _, _ => InvalidDate
  end.

(** The value a timestamp column takes from the JSON of an update. *)
Definition column_value (e : ExpiredAt) : option (option Timestamp) :=
  match e with
  | ENull => Some None
  | EIso t => Some (Some t)
  | EDate (Instant t) => Some (Some t)
  | EDate InvalidDate => Some None
  | EText s =>
      match parse_date s with
      | Instant t => Some (Some t)
      | InvalidDate => None
      end
  end.

Definition patch (p : UpdateUser) (u : User) : User :=
  {| id := id u;
     name := default (name u) (u_name p);
     phone := default (phone u) (u_phone p);
     passcode_hash := passcode_hash u;
     imei := default (imei u) (u_imei p);
     is_vip := match u_is_vip p with Some b => Some b | None => is_vip u end;
     created_at := created_at u;
     expired_at :=
       match u_expired_at p ≫= column_value with
       | Some v => v
       | None => expired_at u
       end;
     last_login := last_login u;
     current_device := current_device u;
     is_banned :=
       match u_is_banned p with Some b => Some b | None => is_banned u end |}.

Definition acceptable (p : UpdateUser) : bool :=
  match u_expired_at p with
  | Some e => bool_decide (is_Some (column_value e))
  | None => true
  end.

Definition run (q : Query) (s : State) : Reply * State :=
  if negb (reachable s) then (failure "" "TypeError: fetch failed", s)
  else
    match tables s !! from q with
    | None => (failure "42P01" "relation does not exist", s)
    | Some rows =>
        let kept := selected q rows in
        match action q with
        | select _ count_exact head =>
            let n := if count_exact then Some (Z.of_nat (length kept)) else None in
            if single q then
              match slice (range q) kept with
              | [u] => ({| data := PRow u; error := None; count := n |}, s)
              | _ => (failure "PGRST116"
                        "JSON object requested, multiple (or no) rows returned", s)
              end
            else
              ({| data := if head then PNull else PRows (slice (range q) kept);
                  error := None; count := n |}, s)
        | update p =>
            if negb (acceptable p)
            then (failure "22007" "invalid input syntax for type timestamp", s)
            else
              let changed := {|
                reachable := reachable s;
                tables :=
                  <[from q :=
                      (fun u => if matching (conditions q) u then patch p u else u)
                        <$> rows]> (tables s) |} in
              if single q then
                match kept with
                | [u] => ({| data := PRow (patch p u); error := None; count := None |},
                          changed)
                | _ => (failure "PGRST116"
                          "JSON object requested, multiple (or no) rows returned", s)
                end
              else
                ({| data := PRows (patch p <$> kept); error := None; count := None |},
                 changed)
        end
    end.

#[global] Instance platform : Platform :=
  {| Db := State; request := run; Date_parse := parse_date |}.

End Pg.

(** * Statement vocabulary

    Concrete worlds over the reference database, and the answers of the
    handlers as functions of what the storage layer returns. *)

Definition sample_user (i : string) (created : Z) : User :=
  {| id := i; name := "user " +:+ i; phone := "09" +:+ i; passcode_hash := "";
     imei := ""; is_vip := Some false; created_at := Some created;
     expired_at := None; last_login := None; current_device := None;
     is_banned := Some false |}.

(** 2024-01-15T12:00:00Z *)
Definition noon : Z := 1705320000000.

Definition world_of (rows : list User) : World :=
  {| db := {| Pg.reachable := true; Pg.tables := {[ "users2" := rows ]} |};
     settings := DEFAULT_SETTINGS; now := noon; issued := [] |}.

Definition world_down : World :=
  {| db := {| Pg.reachable := false; Pg.tables := ∅ |};
     settings := DEFAULT_SETTINGS; now := noon; issued := [] |}.

(** A request whose query string gives each parameter once, so that every
    value is a string. *)
Definition request_of (i : string) (q : gmap string string) (b : JsObject)
  : Request :=
  {| params_id := i; query := QStr <$> q; body := b |}.

Section Answers.
Context `{Platform}.

(** What a handler that returns a user answers, given the outcome of the
    storage call it makes. *)
Definition user_answer (failure : string) (o : Outcome Payload * World)
  : Response * World :=
  match o with
  | (Returned u, w') => (respond (OfUser u), w')
  | (Thrown _, w') => (respond_with 500 (Message failure), w')
  end.

(** What the activity handler answers, given the outcome of the storage
    call. *)
Definition activity_answer (o : Outcome (list UserActivity) * World)
  : Response * World :=
  match o with
  | (Returned a, w') => (respond (OfActivity a), w')
  | (Thrown _, w') =>
      (respond_with 500 (Message "Failed to fetch user activity data"), w')
  end.

End Answers.

Section Queries.
Context `{Platform}.

(** The query [getUser] sends. *)
Definition getUser_query (id : string) : Query :=
  as_single (where_ (eq_text "id" id) (table "users2" (select "*" false false))).

End Queries.

Section Counting.
Context `{Platform}.

(** The replies of the database to a sequence of queries. *)
Fixpoint answers (qs : list Query) (d : Db) : list Reply * Db :=
  match qs with
  | [] => ([], d)
  | q :: qs' =>
      let answer := request q d in
      let rest := answers qs' (snd answer) in
      (fst answer :: fst rest, snd rest)
  end.

(** The five counting queries of the statistics: all rows, the rows not
    banned, the banned rows, the VIP rows, the rows created since [since]. *)
Definition stats_queries (tbl : string) (since : Timestamp) : list Query :=
  [ counting tbl;
    where_ (eq_bool "is_banned" false) (counting tbl);
    where_ (eq_bool "is_banned" true) (counting tbl);
    where_ (eq_bool "is_vip" true) (counting tbl);
    where_ (gte "created_at" since) (counting tbl) ].

(** The process after it sent [qs] and the database moved to [d]. *)
Definition after (w : World) (qs : list Query) (d : Db) : World :=
  {| db := d; settings := settings w; now := now w; issued := issued w ++ qs |}.

End Counting.

Section Addressing.
Context `{Platform}.

(** A computation that only sends queries on table "users2": it extends the
    record of queries by such queries, whatever it returns or throws. *)
Definition on_users2 {A} (m : M A) : Prop :=
  ∀ w, ∃ qs, issued (snd (m w)) = issued w ++ qs
             ∧ Forall (fun q => from q = "users2") qs.

End Addressing.

Section Updating.
Context `{Platform}.

(** The query [updateUser] sends once [userData] is ready. *)
Definition update_query (id : string) (userData : UpdateUser) : Query :=
  as_single (where_ (eq_text "id" id) (table "users2" (update userData))).

(** Shapes of a property of a JSON body. *)
Definition absent_or_string (v : option Json) : Prop :=
  v = None ∨ ∃ s, v = Some (JStr s).

Definition absent_or_boolean (v : option Json) : Prop :=
  v = None ∨ ∃ b, v = Some (JBool b).

Definition absent_null_or_string (v : option Json) : Prop :=
  v = None ∨ v = Some JNull ∨ ∃ s, v = Some (JStr s).

Definition as_string (v : option Json) : option string :=
  match v with
  | Some (JStr s) => Some s
  | _ => None
  end.

Definition as_boolean (v : option Json) : option bool :=
  match v with
  | Some (JBool b) => Some b
  | _ => None
  end.

(** The expiration of an accepted body, as the schema hands it on. *)
Definition expiration_of (v : option Json) : ExpiredAt :=
  match v with
  | Some (JStr s) => if decide (s = "") then ENull else EDate (Date_parse s)
  | _ => ENull
  end.

(** The update object of an accepted body with name [n]. *)
Definition accepted_update (n : string) (body : JsObject) : UpdateUser :=
  {| u_name := Some n;
     u_phone := as_string (body !! "phone");
     u_imei := as_string (body !! "imei");
     u_is_vip := as_boolean (body !! "is_vip");
     u_is_banned := as_boolean (body !! "is_banned");
     u_expired_at := Some (expiration_of (body !! "expired_at")) |}.

End Updating.

(** ** client/src/hooks/use-pagination.ts *)

(** [Math.ceil(a / b)] for a positive [b]. *)
Definition ceil_div (a b : Z) : Z := - ((- a) `div` b).

(** [totalPages] of [usePagination]. *)
Definition totalPages (totalItems itemsPerPage : Z) : Z :=
  Z.max 1 (ceil_div totalItems itemsPerPage).

Section Listing.
Context `{Platform}.

(** The conditions a filter object stands for. *)
Definition conditions_of (filters : FilterUserParams) : list Condition :=
  match f_name filters with
  | Some s => if decide (s = "") then [] else [ilike "name" ("%" +:+ s +:+ "%")]
  | None => []
  end
  ++ match f_phone filters with
     | Some s => if decide (s = "") then [] else [ilike "phone" ("%" +:+ s +:+ "%")]
     | None => []
     end
  ++ match f_is_vip filters with
     | vip_only => [eq_bool "is_vip" true]
     | non_vip => [eq_bool "is_vip" false]
     | vip_all => []
     end
  ++ match f_is_banned filters with
     | banned => [eq_bool "is_banned" true]
     | active => [eq_bool "is_banned" false]
     | ban_all => []
     end.

(** The page and the page size in force: zero stands for the default. *)
Definition page_of (filters : FilterUserParams) : Z := or_default (f_page filters) 1.
Definition limit_of (filters : FilterUserParams) : Z := or_default (f_limit filters) 10.

(** The list query of a filter object, with the rows
    [(page-1)*limit .. page*limit-1] requested. *)
Definition users_query (filters : FilterUserParams) : Query :=
  {| from := "users2";
     action := select "*" true false;
     conditions := conditions_of filters;
     order := Some (column_of (f_sortBy filters),
                    bool_decide (f_sortOrder filters = asc));
     range := Some ((page_of filters - 1) * limit_of filters,
                    page_of filters * limit_of filters - 1);
     single := false |}.

Definition with_page (p : Z) (filters : FilterUserParams) : FilterUserParams :=
  {| f_name := f_name filters; f_phone := f_phone filters;
     f_is_vip := f_is_vip filters; f_is_banned := f_is_banned filters;
     f_sortBy := f_sortBy filters; f_sortOrder := f_sortOrder filters;
     f_page := p; f_limit := f_limit filters |}.

(** The rows of a [data] array. *)
Definition rows_of (p : Payload) : list User :=
  match p with
  | PRows us => us
  | _ => []
  end.

(** Walking the list page by page: the first page tells the count, the
    count tells the number of pages, and each page is then requested. *)
Definition walk_pages (filters : FilterUserParams) : M (list User) :=
  first <- getUsers (with_page 1 filters) ;;
  for_each
    (fun seen p =>
       r <- getUsers (with_page p filters) ;;
       ret (seen ++ rows_of (result_data r)))
    (seqZ 1 (totalPages (result_count first) (limit_of filters)))
    [].

End Listing.

(** The rows of a table that satisfy the conditions of a filter object, and
    the same rows in the order requested, on the reference database. *)
Definition matching_rows (filters : FilterUserParams) (rows : list User)
  : list User :=
  filter (fun u => Pg.matching (conditions_of filters) u = true) rows.

Definition listed (filters : FilterUserParams) (rows : list User) : list User :=
  Pg.selected (users_query filters) rows.

(** A table of five users and a request for its second page of two. *)
Definition five_users : list User :=
  [ sample_user "a" (noon - 5); sample_user "b" (noon - 4);
    sample_user "c" (noon - 3); sample_user "d" (noon - 2);
    sample_user "e" (noon - 1) ].

Definition second_page_of_two : FilterUserParams :=
  {| f_name := None; f_phone := Some "09"; f_is_vip := vip_all;
     f_is_banned := active; f_sortBy := by_created_at; f_sortOrder := desc;
     f_page := 2; f_limit := 2 |}.

(** ** Activity trend: the vocabulary of its statement *)

Section Trend.
Context `{Platform}.

(** The calendar day of the process clock. *)
Definition today (w : World) : DateString := date_part (now w).

(** The calendar day of a user's creation, as the trend computes it. *)
Definition signup_day (u : User) : option DateString :=
  match Date_of_column (created_at u) with
  | Instant t => Some (date_part t)
  | InvalidDate => None
  end.

(** The number of the users created on day [d]. *)
Definition signups_on (d : DateString) (users : list User) : Z :=
  Z.of_nat (length (filter (fun u => signup_day u = Some d) users)).

(** One step of the counting loop, as a function on the map. *)
Definition count_signup (m : gmap Z Z) (u : User) : gmap Z Z :=
  match signup_day u with
  | Some d => <[d := get_or_zero m d + 1]> m
  | None => m
  end.

(** The query of the trend: the creation times from [since] on. *)
Definition activity_query (since : Timestamp) : Query :=
  where_ (gte "created_at" since)
    (table "users2" (select "created_at" false false)).

(** One entry per day of the [n] days ending on [last], in ascending
    order, each with the number of users created that day. *)
Definition trend (last : DateString) (n : Z) (users : list User)
  : list UserActivity :=
  (fun d => {| date := d; userCount := signups_on d users |})
    <$> seqZ (last - n + 1) n.

End Trend.

(** ** Requests and answers of the handlers: the vocabulary of their
    statements *)

Section HandlerVocabulary.
Context `{Platform}.

(** A query parameter that is a string when it is given. *)
Definition string_ok (v : option QueryValue) : Prop :=
  match v with
  | None => True
  | Some (QStr _) => True
  | Some _ => False
  end.

(** The string a query parameter gives. *)
Definition string_of_parameter (v : option QueryValue) : option string :=
  match v with
  | Some (QStr s) => Some s
  | _ => None
  end.

(** A query parameter of an enumeration: absent, or one of its values. *)
Definition enum_ok (values : list string) (v : option QueryValue) : Prop :=
  match v with
  | None => True
  | Some (QStr s) => s ∈ values
  | Some _ => False
  end.

(** A numeric query parameter: absent, empty, or converting to a string
    that starts with a number. *)
Definition number_ok (v : option QueryValue) : Prop :=
  given v = true → parseInt (text_of v) ≠ NaN.

(** The query strings the list handler accepts. *)
Definition valid_list_query (q : gmap string QueryValue) : Prop :=
  string_ok (q !! "name")
  ∧ string_ok (q !! "phone")
  ∧ enum_ok ["all"; "vip"; "non-vip"] (q !! "is_vip")
  ∧ enum_ok ["all"; "banned"; "active"] (q !! "is_banned")
  ∧ enum_ok ["name"; "created_at"; "last_login"; "expired_at"] (q !! "sortBy")
  ∧ enum_ok ["asc"; "desc"] (q !! "sortOrder")
  ∧ number_ok (q !! "page")
  ∧ number_ok (q !! "limit").

(** The number a numeric query parameter stands for, [d] when it is absent
    or empty. *)
Definition number_or (d : Z) (v : option QueryValue) : Z :=
  if given v
  then match parseInt (text_of v) with Int n => n | NaN => d end
  else d.

(** What the list handler answers, given the outcome of the storage call. *)
Definition users_answer (o : Outcome UsersResult * World) : Response * World :=
  match o with
  | (Returned r, w') => (respond (OfUsers r), w')
  | (Thrown _, w') => (respond_with 500 (Message "Failed to fetch users"), w')
  end.

(** The message a route sends with status 500. *)
Definition failure_message (r : Route) : string :=
  match r with
  | GET_users => "Failed to fetch users"
  | GET_user => "Failed to fetch user"
  | PUT_user => "Failed to update user"
  | POST_ban => "Failed to ban user"
  | POST_unban => "Failed to unban user"
  | POST_vip => "Failed to update VIP status"
  | GET_stats => "Failed to fetch user statistics"
  | GET_activity => "Failed to fetch user activity data"
  | GET_settings => "Failed to fetch application settings"
  | PUT_settings => "Failed to update application settings"
  end.

(** The window the activity handler asks for. *)
Definition requested_days (req : Request) : Number :=
  if given (query req !! "days")
  then parseInt (text_of (query req !! "days"))
  else Int 30.

(** The object the handler parses. *)
Definition list_input (req : Request) : FilterInput :=
  {| i_name := query req !! "name";
     i_phone := query req !! "phone";
     i_is_vip := query req !! "is_vip";
     i_is_banned := query req !! "is_banned";
     i_sortBy := query req !! "sortBy";
     i_sortOrder := query req !! "sortOrder";
     i_page := optional_int (query req !! "page");
     i_limit := optional_int (query req !! "limit") |}.

(** A rejection reports at least one issue. *)
Definition well_reported {A} (c : Validation A) : Prop :=
  match c with
  | inl [] => False
  | _ => True
  end.

End HandlerVocabulary.

(** The sum of the counts of a trend. *)
Definition total_count (l : list UserActivity) : Z :=
  foldr (fun e acc => userCount e + acc) 0 l.

(** The entry of a map binding, as the trend lists it. *)
Definition entry_of (e : Z * Z) : UserActivity :=
  {| date := fst e; userCount := snd e |}.

(** ** Rows of the reference database: the vocabulary of the round trips *)

(** The rows of a table with the identifier [i]. *)
Definition rows_with_id (i : string) (rows : list User) : list User :=
  filter (fun v => id v = i) rows.

(** The table with [f] applied to the rows with the identifier [i]. *)
Definition update_row (i : string) (f : User → User) (rows : list User)
  : list User :=
  (fun v => if decide (id v = i) then f v else v) <$> rows.

Definition set_banned (b : bool) (u : User) : User :=
  {| id := id u; name := name u; phone := phone u;
     passcode_hash := passcode_hash u; imei := imei u; is_vip := is_vip u;
     created_at := created_at u; expired_at := expired_at u;
     last_login := last_login u; current_device := current_device u;
     is_banned := Some b |}.

Definition set_vip (b : bool) (u : User) : User :=
  {| id := id u; name := name u; phone := phone u;
     passcode_hash := passcode_hash u; imei := imei u; is_vip := Some b;
     created_at := created_at u; expired_at := expired_at u;
     last_login := last_login u; current_device := current_device u;
     is_banned := is_banned u |}.

(** A process whose database can be reached and holds [rows] in "users2". *)
Definition serving (rows : list User) (w : @World Pg.platform) : Prop :=
  Pg.reachable (db w) = true ∧ Pg.tables (db w) !! "users2" = Some rows.

(** The filter of the list of banned users. *)
Definition banned_only : FilterUserParams :=
  {| f_name := None; f_phone := None; f_is_vip := vip_all;
     f_is_banned := banned; f_sortBy := by_created_at; f_sortOrder := desc;
     f_page := 1; f_limit := 10 |}.

(** An update object whose expiration needs no conversion: absent, [null]
    or an ISO timestamp. *)
Definition plain_update (p : UpdateUser) : Prop :=
  match u_expired_at p with
  | Some (EDate _) | Some (EText _) => False
  | _ => True
  end.

(** ** server/storage.ts, first version

    The first version of the storage file has the user operations only,
    and its [updateUser] hands the update object to the client as it is. *)
Section FirstVersion.
Context `{Platform}.

Definition updateUser_plain (id : string) (user : UpdateUser) : M Payload :=
  r <- await (as_single
                (where_ (eq_text "id" id) (table "users2" (update user)))) ;;
  match error r with
  | Some e => throw (Error ("Failed to update user: " +:+ message e))
  | None => ret (data r)
  end.

(** A computation that only sends queries on table [t]. *)
Definition on_table {A} (t : string) (m : M A) : Prop :=
  ∀ w, ∃ qs, issued (snd (m w)) = issued w ++ qs
             ∧ Forall (fun q => from q = t) qs.

End FirstVersion.

(** ** client/src/hooks/use-pagination.ts: the rest of the hook

    The hook keeps the current page as state; its functions are given here
    by the page they set. *)

(** [goToPage(page)] *)
Definition goToPage (totalItems itemsPerPage page : Z) : Z :=
  let pageNumber := Z.max 1 (Z.min page (totalPages totalItems itemsPerPage)) in
  pageNumber.

(** [nextPage()] *)
Definition nextPage (totalItems itemsPerPage currentPage : Z) : Z :=
  if decide (currentPage < totalPages totalItems itemsPerPage)
  then currentPage + 1
  else currentPage.

(** [prevPage()] *)
Definition prevPage (currentPage : Z) : Z :=
  if decide (currentPage > 1) then currentPage - 1 else currentPage.

(** An item of the page range: a page number or ["..."]. *)
Inductive PageItem : Type :=
| Page (n : Z)
| Dots.

(** [getPageRange()], with [maxVisiblePages = 5]. *)
Definition getPageRange (totalPages currentPage : Z) : list PageItem :=
  let range := [Page 1] in
  if decide (totalPages ≤ 5)
  then range ++ (Page <$> seqZ 2 (totalPages - 1))
  else if decide (currentPage ≤ 3)
  then range ++ [Page 2; Page 3] ++ [Dots] ++ [Page totalPages]
  else if decide (currentPage >= totalPages - 2)
  then range ++ [Dots]
         ++ [Page (totalPages - 2); Page (totalPages - 1); Page totalPages]
  else range ++ [Dots]
         ++ [Page (currentPage - 1); Page currentPage; Page (currentPage + 1)]
         ++ [Dots] ++ [Page totalPages].

Definition startIndex (itemsPerPage currentPage : Z) : Z :=
  (currentPage - 1) * itemsPerPage.

Definition endIndex (totalItems itemsPerPage currentPage : Z) : Z :=
  Z.min (currentPage * itemsPerPage - 1) (totalItems - 1).

(** The page numbers among the items of a range. *)
Definition page_numbers (l : list PageItem) : list Z :=
  omap (fun x => match x with Page n => Some n | Dots => None end) l.

(** ** client/src/pages/dashboard.tsx *)

(** [Number.prototype.toString] on an integer: a sign and the decimal
    digits, as the language prints integers of absolute value below
    [10^21]. *)
Definition digit_char (d : Z) : ascii := ascii_of_nat (Z.to_nat (48 + d)).

Fixpoint decimal (fuel : nat) (n : Z) (rest : string) : string :=
  match fuel with
  | O => rest
  | S fuel =>
      let rest := String (digit_char (n mod 10)) rest in
      if decide (n < 10) then rest else decimal fuel (n / 10) rest
  end.

Definition toString (n : Z) : string :=
  if decide (n < 0)
  then String "-" (decimal (S (Z.to_nat (Z.log2 (- n)))) (- n) "")
  else decimal (S (Z.to_nat (Z.log2 n))) n "".

(** The integers a number holds exactly. *)
Definition safe_integer (n : Z) : Prop := Z.abs n < 2 ^ 53.

(** The values of the enumerations, as strings. *)
Definition vip_name (v : VipFilter) : string :=
  match v with
  | vip_all => "all"
  | vip_only => "vip"
  | non_vip => "non-vip"
  end.

Definition ban_name (b : BanFilter) : string :=
  match b with
  | ban_all => "all"
  | banned => "banned"
  | active => "active"
  end.

Definition order_name (o : SortOrder) : string :=
  match o with
  | asc => "asc"
  | desc => "desc"
  end.

(** The filter state of the page: [FilterUserParams] with its [table]. *)
Record DashboardFilters : Type := {
  d_params : FilterUserParams;
  d_table : string
}.

(** [useState<FilterUserParams>({ ... })] *)
Definition initial_filters : DashboardFilters :=
  {| d_params :=
       {| f_name := Some ""; f_phone := Some "";
          f_is_vip := vip_all; f_is_banned := ban_all;
          f_sortBy := by_created_at; f_sortOrder := desc;
          f_page := 1; f_limit := 10 |};
     d_table := "users2" |}.

#[global] Instance VipFilter_eq_dec : EqDecision VipFilter.
Proof. solve_decision. Defined.

#[global] Instance BanFilter_eq_dec : EqDecision BanFilter.
Proof. solve_decision. Defined.

(** [if (c) queryParams.append(k, v)]; the keys differ, so the server
    reads the parameters back as a map. *)
Definition append_if (c : bool) (k v : string) (q : gmap string string)
  : gmap string string :=
  if c then <[k := v]> q else q.

(** The query parameters [queryFn] sends. *)
Definition queryParams (filters : DashboardFilters) : gmap string string :=
  let p := d_params filters in
  let q : gmap string string := ∅ in
  let q := append_if (truthy (f_name p)) "name" (default "" (f_name p)) q in
  let q := append_if (truthy (f_phone p)) "phone" (default "" (f_phone p)) q in
  let q := append_if (negb (bool_decide (f_is_vip p = vip_all)))
             "is_vip" (vip_name (f_is_vip p)) q in
  let q := append_if (negb (bool_decide (f_is_banned p = ban_all)))
             "is_banned" (ban_name (f_is_banned p)) q in
  let q := append_if (truthy (Some (column_of (f_sortBy p))))
             "sortBy" (column_of (f_sortBy p)) q in
  let q := append_if (truthy (Some (order_name (f_sortOrder p))))
             "sortOrder" (order_name (f_sortOrder p)) q in
  let q := append_if (negb (bool_decide (f_page p = 0)))
             "page" (toString (f_page p)) q in
  let q := append_if (negb (bool_decide (f_limit p = 0)))
             "limit" (toString (f_limit p)) q in
  append_if true "table" (d_table filters) q.

(** The filters the storage acts on: a falsy name or phone as none, a
    zero page or limit as the default. *)
Definition effective (p : FilterUserParams) : FilterUserParams :=
  {| f_name := if truthy (f_name p) then Some (default "" (f_name p))
               else None;
     f_phone := if truthy (f_phone p) then Some (default "" (f_phone p))
                else None;
     f_is_vip := f_is_vip p;
     f_is_banned := f_is_banned p;
     f_sortBy := f_sortBy p;
     f_sortOrder := f_sortOrder p;
     f_page := or_default (f_page p) 1;
     f_limit := or_default (f_limit p) 10 |}.

(** [Partial<FilterUserParams>]: [None] is a key that is absent. *)
Record FilterChange : Type := {
  c_name : option string;
  c_phone : option string;
  c_is_vip : option VipFilter;
  c_is_banned : option BanFilter;
  c_sortBy : option SortBy;
  c_sortOrder : option SortOrder;
  c_page : option Z;
  c_limit : option Z;
  c_table : option string
}.

(** [handleFilterChange(newFilters)], as the state it sets from the
    previous one. *)
Definition handleFilterChange (newFilters : FilterChange)
    (prevFilters : DashboardFilters) : DashboardFilters :=
  let p := d_params prevFilters in
  {| d_params :=
       {| f_name := match c_name newFilters with
                    | Some s => Some s
                    | None => f_name p
                    end;
          f_phone := match c_phone newFilters with
                     | Some s => Some s
                     | None => f_phone p
                     end;
          f_is_vip := default (f_is_vip p) (c_is_vip newFilters);
          f_is_banned := default (f_is_banned p) (c_is_banned newFilters);
          f_sortBy := default (f_sortBy p) (c_sortBy newFilters);
          f_sortOrder := default (f_sortOrder p) (c_sortOrder newFilters);
          (* Reset page to 1 when changing filters except for page changes *)
          f_page := match c_page newFilters with
                    | Some page => or_default page 1
                    | None => 1
                    end;
          f_limit := default (f_limit p) (c_limit newFilters) |};
     d_table := default (d_table prevFilters) (c_table newFilters) |}.

(** [handlePageChange(page)] *)
Definition handlePageChange (page : Z) (prev : DashboardFilters)
  : DashboardFilters :=
  let p := d_params prev in
  {| d_params :=
       {| f_name := f_name p; f_phone := f_phone p;
          f_is_vip := f_is_vip p; f_is_banned := f_is_banned p;
          f_sortBy := f_sortBy p; f_sortOrder := f_sortOrder p;
          f_page := page; f_limit := f_limit p |};
     d_table := d_table prev |}.

(** ** client/src/components/user-filters.tsx: what the filter bar hands
    to [onFilterChange] *)
Definition filter_bar (debouncedName debouncedPhone : string)
    (vipStatus : VipFilter) (banStatus : BanFilter) (sortBy : SortBy)
  : FilterChange :=
  {| c_name := Some debouncedName;
     c_phone := Some debouncedPhone;
     c_is_vip := Some vipStatus;
     c_is_banned := Some banStatus;
     c_sortBy := Some sortBy;
     c_sortOrder := None;
     c_page := Some 1; (* Reset to first page on filter change *)
     c_limit := None;
     c_table := None |}.

(** A string of decimal digits. *)
Definition is_digit (c : ascii) : bool :=
  let n := nat_of_ascii c in (Nat.leb 48 n && Nat.leb n 57)%bool.

Fixpoint all_digits (s : string) : bool :=
  match s with
  | String c s' => (is_digit c && all_digits s')%bool
  | EmptyString => true
  end.

(** ** client/src/lib/utils.ts

    Strings are taken as ASCII text, on which [toUpperCase] maps the
    letters [a] to [z] and [trim] removes the blanks [parseInt] skips. *)

Definition ascii_only (s : string) : Prop :=
  Forall (fun c => (nat_of_ascii c < 128)%nat) (String.list_ascii_of_string s).

(** [s.split(" ")] *)
Fixpoint split_spaces (s : string) : list string :=
  match s with
  | EmptyString => [""]
  | String c s' =>
      if Ascii.eqb c " " then "" :: split_spaces s'
      else match split_spaces s' with
           | part :: parts => String c part :: parts
           | [] => [String c ""]
           end
  end.

(** [s.charAt(0)] *)
Definition charAt0 (s : string) : string :=
  match s with
  | String c _ => String c ""
  | EmptyString => ""
  end.

Definition is_lower (c : ascii) : bool :=
  let n := nat_of_ascii c in (Nat.leb 97 n && Nat.leb n 122)%bool.

Definition upper (c : ascii) : ascii :=
  if is_lower c then ascii_of_nat (nat_of_ascii c - 32) else c.

(** [s.toUpperCase()] *)
Fixpoint toUpperCase (s : string) : string :=
  match s with
  | String c s' => String (upper c) (toUpperCase s')
  | EmptyString => ""
  end.

Definition getInitials (name : string) : string :=
  if negb (truthy (Some name)) then "U"
  else
    let parts :=
      filter (fun part => (0 < String.length part)%nat) (split_spaces name) in
    match parts with
    | [] => "U"
    | [part] => toUpperCase (charAt0 part)
    | part :: _ => toUpperCase (charAt0 part +:+ charAt0 (default "" (last parts)))
    end.

(** The first character of a name that is not a space. *)
Fixpoint first_letter (s : string) : option ascii :=
  match s with
  | String c s' => if Ascii.eqb c " " then first_letter s' else Some c
  | EmptyString => None
  end.

(** ** client/src/pages/settings.tsx: the list of VIP features *)

(** [s.trimEnd()] and [s.trim()] *)
Fixpoint trimEnd (s : string) : string :=
  match s with
  | String c s' =>
      match trimEnd s' with
      | EmptyString => if is_blank c then "" else String c ""
      | t => String c t
      end
  | EmptyString => ""
  end.

Definition trim (s : string) : string := trimEnd (skip_blanks s).

(** [addFeature()]: the features and the input field it leaves. *)
Definition addFeature (featureInput : string) (currentFeatures : list string)
  : list string * string :=
  if negb (truthy (Some (trim featureInput)))
  then (currentFeatures, featureInput)
  else (currentFeatures ++ [trim featureInput], "").

(** [array.filter((_, i) => keep(i))], from index [i] on. *)
Fixpoint filter_index {A} (keep : nat → bool) (i : nat) (l : list A) : list A :=
  match l with
  | [] => []
  | x :: l' =>
      if keep i then x :: filter_index keep (S i) l'
      else filter_index keep (S i) l'
  end.

(** [removeFeature(index)] *)
Definition removeFeature (index : nat) (currentFeatures : list string)
  : list string :=
  filter_index (fun i => negb (Nat.eqb i index)) 0 currentFeatures.

(** A feature as the page stores it: not empty, no blank at either end. *)
Definition trimmed (feature : string) : Prop :=
  feature ≠ "" ∧ trim feature = feature.

(** ** client/src/components/user-table.tsx: the footer of the table *)

(** "Showing [a] to [b] of [totalCount] results" *)
Definition showing (totalCount itemsPerPage currentPage : Z) : Z * Z :=
  (if decide (totalCount = 0) then 0 else startIndex itemsPerPage currentPage + 1,
   Z.min (endIndex totalCount itemsPerPage currentPage + 1) totalCount).

(** A filter object with another VIP or ban filter. *)
Definition with_vip (v : VipFilter) (filters : FilterUserParams)
  : FilterUserParams :=
  {| f_name := f_name filters; f_phone := f_phone filters;
     f_is_vip := v; f_is_banned := f_is_banned filters;
     f_sortBy := f_sortBy filters; f_sortOrder := f_sortOrder filters;
     f_page := f_page filters; f_limit := f_limit filters |}.

Definition with_ban (b : BanFilter) (filters : FilterUserParams)
  : FilterUserParams :=
  {| f_name := f_name filters; f_phone := f_phone filters;
     f_is_vip := f_is_vip filters; f_is_banned := b;
     f_sortBy := f_sortBy filters; f_sortOrder := f_sortOrder filters;
     f_page := f_page filters; f_limit := f_limit filters |}.

(** The count a call of [getUsers] returns, zero when it throws. *)
Definition count_of {W} (o : Outcome UsersResult * W) : Z :=
  match fst o with
  | Returned r => result_count r
  | Thrown _ => 0
  end.

(** The rows a call of [getUsers] returns, none when it throws. *)
Definition page_rows {W} (o : Outcome UsersResult * W) : list User :=
  match fst o with
  | Returned r => rows_of (result_data r)
  | Thrown _ => []
  end.

(** ** The range of the list query in numbers

    The code computes [(page - 1) * limit] and [start + limit - 1] on
    numbers; the integers here are those numbers as long as page, limit
    and the two products are safe integers. *)
Definition exact_window (page limit : Z) : Prop :=
  safe_integer page ∧ safe_integer limit
  ∧ safe_integer ((page - 1) * limit) ∧ safe_integer (page * limit).

(** A filter object with a limit of zero, which the schema accepts. *)
Definition limit_zero : FilterUserParams :=
  {| f_name := None; f_phone := None; f_is_vip := vip_all;
     f_is_banned := ban_all; f_sortBy := by_created_at; f_sortOrder := desc;
     f_page := 1; f_limit := 0 |}.

(** Two users, the list sorted by name with one user per page, and an
    update that gives a user another name. *)
Definition two_users : list User :=
  [sample_user "a" noon; sample_user "b" noon].

Definition by_name_page (p : Z) : FilterUserParams :=
  {| f_name := None; f_phone := None; f_is_vip := vip_all;
     f_is_banned := ban_all; f_sortBy := by_name; f_sortOrder := asc;
     f_page := p; f_limit := 1 |}.

Definition rename (n : string) : UpdateUser :=
  {| u_name := Some n; u_phone := None; u_imei := None; u_is_vip := None;
     u_is_banned := None; u_expired_at := None |}.

(** * Properties *)

(** ** Settings *)

Section SettingsFacts.
Context `{Platform}.

Lemma lookup_spread (a b : JsObject) (k : string) :
  spread a b !! k = match b !! k with Some v => Some v | None => a !! k end.
Proof.
  unfold spread. rewrite lookup_union.
  destruct (b !! k), (a !! k); reflexivity.
Qed.

(** C3: [updateSettings] stores and returns the shallow merge of the
    partial object into the current settings: a key of the partial object
    takes its new value, every other key keeps its value (updating
    [maintenanceMode] alone leaves [appVersion] as it was), nothing else
    of the process changes, and [getSettings] returns the current record.
    The two handlers answer 200 with these records. *)
Theorem updateSettings_shallow_merge (w : World) (newSettings : JsObject) :
  let w' := snd (updateSettings newSettings w) in
  fst (updateSettings newSettings w) = Returned (settings w')
  ∧ (∀ k v, newSettings !! k = Some v → settings w' !! k = Some v)
  ∧ (∀ k, newSettings !! k = None → settings w' !! k = settings w !! k)
  ∧ (∀ v, newSettings = {[ "maintenanceMode" := v ]} →
       settings w' !! "appVersion" = settings w !! "appVersion")
  ∧ (db w' = db w ∧ now w' = now w ∧ issued w' = issued w)
  ∧ getSettings w = (Returned (settings w), w)
  ∧ getSettings w' = (Returned (settings w'), w')
  ∧ (∀ req, body req = newSettings →
       put_settings req w = (respond (OfSettings (settings w')), w'))
  ∧ (∀ req, get_settings req w = (respond (OfSettings (settings w)), w)).
Proof.
  cbn. repeat split.
  - intros k v Hk. rewrite lookup_spread, Hk. reflexivity.
  - intros k Hk. rewrite lookup_spread, Hk. reflexivity.
  - intros v ->. rewrite lookup_spread. reflexivity.
  - intros req <-. reflexivity.
Qed.

End SettingsFacts.

(** On the default settings, switching maintenance mode on keeps the
    version string. *)
Lemma updateSettings_shallow_merge_witness :
  settings (snd (updateSettings {[ "maintenanceMode" := JBool true ]}
                   (world_of []))) !! "appVersion" = Some (JStr "1.0.0")
  ∧ settings (snd (updateSettings {[ "maintenanceMode" := JBool true ]}
                     (world_of []))) !! "maintenanceMode" = Some (JBool true).
Proof.
  pose proof (updateSettings_shallow_merge (world_of [])
                {[ "maintenanceMode" := JBool true ]}) as (_ & Hnew & _ & Hkeep & _).
  split.
  - rewrite (Hkeep (JBool true) eq_refl). reflexivity.
  - apply Hnew. reflexivity.
Defined.

(** ** Handlers and what they pass on *)

Section HandlerFacts.
Context `{Platform}.

(** C10: without a [days] query parameter the activity handler asks the
    storage layer for a window of 30 days, which is also the window the
    storage method takes when it is given none. *)
Theorem get_activity_default_window (req : Request) (w : World) :
  query req !! "days" = None →
  get_activity req w = activity_answer (getUserActivityTrend (Some (Int 30)) w)
  ∧ getUserActivityTrend None w = getUserActivityTrend (Some (Int 30)) w.
Proof.
  intros Hdays. split; [|reflexivity].
  unfold get_activity, try_catch, activity_answer, bind. rewrite Hdays. simpl.
  destruct (getUserActivityTrend (Some (Int 30)) w) as [[a|e] w']; reflexivity.
Qed.

(** C6: when the [isVip] property of the body is not a boolean, the VIP
    handler answers 400 "isVip must be a boolean" and leaves the process as
    it was: no query is sent and the database is untouched.  When it is the
    boolean [b], the handler calls [setVipStatus id b] and answers with the
    user it returns (500 when it throws). *)
Theorem post_vip_requires_boolean (req : Request) (w : World) :
  ((∀ b, body req !! "isVip" ≠ Some (JBool b)) →
     post_vip req w
     = (respond_with 400 (Message "isVip must be a boolean"), w))
  ∧ (∀ b, body req !! "isVip" = Some (JBool b) →
       post_vip req w
       = user_answer "Failed to update VIP status"
           (setVipStatus (params_id req) b w)).
Proof.
  split.
  - intros Hnot. unfold post_vip, try_catch.
    destruct (body req !! "isVip") as [[]|] eqn:E; try reflexivity.
    exfalso. eapply Hnot. reflexivity.
  - intros b Hb. unfold post_vip, try_catch, user_answer, bind. rewrite Hb. simpl.
    destruct (setVipStatus (params_id req) b w) as [[u|e] w']; reflexivity.
Qed.

End HandlerFacts.

Lemma get_activity_default_window_witness :
  query (request_of "" ∅ ∅) !! "days" = None
  ∧ get_activity (request_of "" ∅ ∅) (world_of [])
    = activity_answer (getUserActivityTrend (Some (Int 30)) (world_of [])).
Proof.
  split; [reflexivity|].
  apply (get_activity_default_window (request_of "" ∅ ∅) (world_of [])).
  reflexivity.
Defined.

Lemma post_vip_requires_boolean_witness :
  post_vip (request_of "u1" ∅ {[ "isVip" := JStr "yes" ]})
    (world_of [sample_user "u1" noon])
  = (respond_with 400 (Message "isVip must be a boolean"),
     world_of [sample_user "u1" noon]).
Proof.
  apply (post_vip_requires_boolean
           (request_of "u1" ∅ {[ "isVip" := JStr "yes" ]})
           (world_of [sample_user "u1" noon])).
  intros b. vm_compute. discriminate.
Defined.

(** ** Fetching one user *)

Section FetchFacts.
Context `{Platform}.

(** C7: [getUser] returns [null], not an exception, when the database
    reports the no-row code PGRST116, and the handler answers 404 then;
    every other database error is thrown and answered with 500; a row is
    answered with 200.  For a reply that carries either an error or a row,
    [null] and 404 arise exactly from PGRST116, and 500 exactly from the
    other errors. *)
Theorem getUser_not_found_is_not_an_error (req : Request) (w : World) :
  let r := fst (request (getUser_query (params_id req)) (db w)) in
  (error r = None → data r ≠ PNull) →
  (fst (getUser (params_id req) w) = Returned PNull
     ↔ ∃ e, error r = Some e ∧ code e = "PGRST116")
  ∧ (status (fst (get_user req w)) = 404
     ↔ ∃ e, error r = Some e ∧ code e = "PGRST116")
  ∧ (status (fst (get_user req w)) = 500
     ↔ ∃ e, error r = Some e ∧ code e ≠ "PGRST116")
  ∧ (∀ e, error r = Some e → code e ≠ "PGRST116" →
       fst (getUser (params_id req) w)
       = Thrown (Error ("Failed to get user: " +:+ message e))
       ∧ fst (get_user req w)
         = respond_with 500 (Message "Failed to fetch user"))
  ∧ (∀ e, error r = Some e → code e = "PGRST116" →
       fst (get_user req w) = respond_with 404 (Message "User not found"))
  ∧ (error r = None → fst (get_user req w) = respond (OfUser (data r))).
Proof.
  intros r Hwf. subst r.
  unfold get_user, try_catch, getUser, bind, await. fold (getUser_query (params_id req)).
  destruct (request (getUser_query (params_id req)) (db w)) as [r d] eqn:Hr.
  simpl in *.
  destruct (error r) as [e|] eqn:He.
  - destruct (decide (code e = "PGRST116")) as [Hc|Hc]; simpl.
    + repeat split; try (intros; eauto; congruence).
      all: try (intros [e' [[= <-] Hne]]; contradiction).
      all: try discriminate.
    + repeat split; try (intros; eauto; congruence).
      all: try (intros [e' [[= <-] Hne]]; contradiction).
      all: try discriminate.
      all: intros e' [= <-] ?; try contradiction.
      all: destruct (decide (code e = "PGRST116")); [contradiction|reflexivity].
  - specialize (Hwf eq_refl). unfold ret.
    destruct (data r) eqn:Hd; [contradiction| |]; simpl.
    all: repeat split; try discriminate; try (intros [e' [[=] _]]).
    all: try (intros e' [=]).
    all: intros; congruence.
Qed.

End FetchFacts.

Lemma getUser_not_found_is_not_an_error_witness :
  fst (getUser "nobody" (world_of [sample_user "u1" noon])) = Returned PNull
  ∧ status (fst (get_user (request_of "nobody" ∅ ∅)
                   (world_of [sample_user "u1" noon]))) = 404.
Proof.
  pose proof (getUser_not_found_is_not_an_error
                (request_of "nobody" ∅ ∅) (world_of [sample_user "u1" noon]))
    as Hthm.
  cbv zeta in Hthm.
  destruct Hthm as (Hnull & Hstatus & _).
  - vm_compute. discriminate.
  - split.
    + apply Hnull. vm_compute. eexists. split; reflexivity.
    + apply Hstatus. vm_compute. eexists. split; reflexivity.
Defined.

(** ** Statistics *)

Section StatsFacts.
Context `{Platform}.

Lemma or_zero_count (c : option Z) :
  (∀ n, c = Some n → or_zero c = n) ∧ (c = None → or_zero c = 0).
Proof.
  split.
  - intros n ->. unfold or_zero, or_default. case_decide; congruence.
  - intros ->. reflexivity.
Qed.

(** C8: [getUserStats] sends the five counting queries (all rows, not
    banned, banned, VIP, created in the last seven days), one after the
    other, and returns in each field the count that the reply to the
    corresponding query carries, and zero where that reply carries no
    count; it never throws.  The [Promise.all] variant computes the same
    on the default table. *)
Theorem getUserStats_five_counts (w : World) :
  Z.abs (now w - 7 * msPerDay) ≤ 8640000000000000 →
  let qs := stats_queries "users2" (now w - 7 * msPerDay) in
  ∃ total act ban vip new d stats,
    answers qs (db w) = ([total; act; ban; vip; new], d)
    ∧ getUserStats w = (Returned stats, after w qs d)
    ∧ stats = {| totalUsers := or_zero (count total);
                 activeUsers := or_zero (count act);
                 bannedUsers := or_zero (count ban);
                 vipUsers := or_zero (count vip);
                 newUsers := or_zero (count new) |}
    ∧ (∀ n, count total = Some n → totalUsers stats = n)
    ∧ (∀ n, count act = Some n → activeUsers stats = n)
    ∧ (∀ n, count ban = Some n → bannedUsers stats = n)
    ∧ (∀ n, count vip = Some n → vipUsers stats = n)
    ∧ (∀ n, count new = Some n → newUsers stats = n)
    ∧ (count total = None → totalUsers stats = 0)
    ∧ (count act = None → activeUsers stats = 0)
    ∧ (count ban = None → bannedUsers stats = 0)
    ∧ (count vip = None → vipUsers stats = 0)
    ∧ (count new = None → newUsers stats = 0)
    ∧ getUserStats_all None w = getUserStats w.
Proof.
  intros Hclock qs. subst qs.
  unfold getUserStats, getUserStats_all, new_Date, new_Date_before, bind, await,
    lift, ret, after, stats_queries, setDate_back.
  replace (7 * 24 * 60 * 60 * 1000) with (7 * msPerDay) by reflexivity.
  cbn [answers db settings now issued fst snd].
  unfold TimeClip. rewrite !decide_True by exact Hclock.
  cbn [toISOString db settings now issued fst snd].
  rewrite <- !app_assoc. cbn [app].
  do 7 eexists.
  split; [reflexivity|]. split; [reflexivity|]. split; [reflexivity|].
  cbn [totalUsers activeUsers bannedUsers vipUsers newUsers].
  repeat split; try reflexivity;
    first [apply (proj1 (or_zero_count _)) | apply (proj2 (or_zero_count _))].
Qed.

End StatsFacts.

Lemma getUserStats_five_counts_witness :
  fst (getUserStats
         (world_of [ sample_user "a" (noon - 9 * msPerDay);
                     set_banned true (sample_user "b" (noon - 8 * msPerDay));
                     set_vip true (sample_user "c" (noon - msPerDay)) ]))
  = Returned {| totalUsers := 3; activeUsers := 2; bannedUsers := 1;
                vipUsers := 1; newUsers := 1 |}
  ∧ fst (getUserStats world_down)
    = Returned {| totalUsers := 0; activeUsers := 0; bannedUsers := 0;
                  vipUsers := 0; newUsers := 0 |}.
Proof.
  split.
  - destruct (getUserStats_five_counts
                (world_of [ sample_user "a" (noon - 9 * msPerDay);
                            set_banned true
                              (sample_user "b" (noon - 8 * msPerDay));
                            set_vip true (sample_user "c" (noon - msPerDay)) ]))
      as (total & act & ban & vip & new & d & stats & Hans & Hrun & _
          & Htotal & Hact & Hban & Hvip & Hnew & _).
    + vm_compute. discriminate.
    + rewrite Hrun. cbn [fst].
      injection Hans as <- <- <- <- <- _.
      destruct stats as [t a b v n]. cbn in *.
      rewrite (Htotal 3 eq_refl), (Hact 2 eq_refl), (Hban 1 eq_refl),
        (Hvip 1 eq_refl), (Hnew 1 eq_refl).
      reflexivity.
  - destruct (getUserStats_five_counts world_down)
      as (total & act & ban & vip & new & d & stats & Hans & Hrun & Hstats & _).
    + vm_compute. discriminate.
    + rewrite Hrun. simpl. rewrite Hstats.
      vm_compute in Hans. injection Hans as <- <- <- <- <- _. reflexivity.
Defined.

(** ** The table every operation addresses *)

Section TableFacts.
Context `{Platform}.

Lemma on_users2_ret {A} (a : A) : on_users2 (ret a).
Proof. intros w. exists []. rewrite app_nil_r. split; [reflexivity|constructor]. Qed.

Lemma on_users2_throw {A} (e : Exn) : on_users2 (throw (A:=A) e).
Proof. intros w. exists []. rewrite app_nil_r. split; [reflexivity|constructor]. Qed.

Lemma on_users2_lift {A} (o : Outcome A) : on_users2 (lift o).
Proof. intros w. exists []. rewrite app_nil_r. split; [reflexivity|constructor]. Qed.

Lemma on_users2_new_Date : on_users2 new_Date.
Proof. intros w. exists []. rewrite app_nil_r. split; [reflexivity|constructor]. Qed.

Lemma on_users2_read_settings : on_users2 read_settings.
Proof. intros w. exists []. rewrite app_nil_r. split; [reflexivity|constructor]. Qed.

Lemma on_users2_write_settings s : on_users2 (write_settings s).
Proof. intros w. exists []. rewrite app_nil_r. split; [reflexivity|constructor]. Qed.

Lemma on_users2_await (q : Query) : from q = "users2" → on_users2 (await q).
Proof.
  intros Hq w. exists [q]. split; [reflexivity|]. constructor; [exact Hq|constructor].
Qed.

Lemma on_users2_bind {A B} (m : M A) (k : A → M B) :
  on_users2 m → (∀ a, on_users2 (k a)) → on_users2 (bind m k).
Proof.
  intros Hm Hk w. unfold bind.
  destruct (Hm w) as (qs & Hqs & Hall).
  destruct (m w) as [[a|e] w1]; simpl in *.
  - destruct (Hk a w1) as (qs' & Hqs' & Hall').
    exists (qs ++ qs'). rewrite Hqs', Hqs, app_assoc. split; [reflexivity|].
    apply Forall_app. split; assumption.
  - exists qs. split; assumption.
Qed.

Lemma on_users2_for_each {A S} (body : S → A → M S) (l : list A) (s : S) :
  (∀ s a, on_users2 (body s a)) → on_users2 (for_each body l s).
Proof.
  intros Hbody. revert s. induction l as [|a l IH]; intros s; simpl.
  - apply on_users2_ret.
  - apply on_users2_bind; [apply Hbody|]. intros s'. apply IH.
Qed.

Lemma on_users2_try_catch (block : M Response) (catch : Exn → Response) (w : World) :
  on_users2 block →
  ∃ qs, issued (snd (try_catch block catch w)) = issued w ++ qs
        ∧ Forall (fun q => from q = "users2") qs.
Proof.
  intros Hb. unfold try_catch. destruct (Hb w) as (qs & Hqs & Hall).
  destruct (block w) as [[r|e] w1]; exists qs; split; assumption.
Qed.

Ltac users2 :=
  repeat first
    [ apply on_users2_ret | apply on_users2_throw | apply on_users2_lift
    | apply on_users2_new_Date | apply on_users2_read_settings
    | apply on_users2_write_settings
    | apply on_users2_await; reflexivity
    | apply on_users2_for_each; intros
    | apply on_users2_bind; [|intros]
    | match goal with
      | |- on_users2 (match ?x with _ => _ end) => destruct x
      | |- on_users2 (if ?x then _ else _) => destruct x
      end ].

Lemma from_where_ c q : from (where_ c q) = from q.
Proof. reflexivity. Qed.

Lemma on_users2_getUsers filters : on_users2 (getUsers filters).
Proof.
  unfold getUsers. apply on_users2_bind.
  - apply on_users2_await. cbn.
    destruct (truthy (f_name filters)), (truthy (f_phone filters)),
      (f_is_vip filters), (f_is_banned filters); reflexivity.
  - intros r. users2.
Qed.

Lemma on_users2_getUser id : on_users2 (getUser id).
Proof. unfold getUser. users2. Qed.

Lemma on_users2_updateUser id user : on_users2 (updateUser id user).
Proof. unfold updateUser. users2. Qed.

Lemma on_users2_getUserStats : on_users2 getUserStats.
Proof. unfold getUserStats. users2. Qed.

Lemma on_users2_getUserActivityTrend days : on_users2 (getUserActivityTrend days).
Proof. unfold getUserActivityTrend. users2. Qed.

Lemma on_users2_getUsers_in tbl filters :
  or_users2 tbl = "users2" → on_users2 (getUsers_in tbl filters).
Proof.
  intros Htbl. unfold getUsers_in. rewrite Htbl. apply on_users2_bind.
  - apply on_users2_await. cbn.
    destruct (truthy (f_name filters)), (truthy (f_phone filters)),
      (f_is_vip filters), (f_is_banned filters); reflexivity.
  - intros r. users2.
Qed.

Lemma on_users2_getUser_in tbl id :
  default "users2" tbl = "users2" → on_users2 (getUser_in tbl id).
Proof. intros Htbl. unfold getUser_in. rewrite Htbl. users2. Qed.

Lemma on_users2_updateUser_in tbl id user :
  default "users2" tbl = "users2" → on_users2 (updateUser_in tbl id user).
Proof. intros Htbl. unfold updateUser_in. rewrite Htbl. users2. Qed.

(** C9: every user operation of the storage layer, and every handler on
    every request, sends its queries to table "users2" only: the queries
    added to the record all have [from = "users2"], so none addresses the
    legacy table "users".  Nothing of the request reaches the table name;
    the methods of the table-aware variant, called without a table as the
    handlers call the storage, address "users2" as well. *)
Theorem only_table_users2 :
  (∀ filters, on_users2 (getUsers filters))
  ∧ (∀ id, on_users2 (getUser id))
  ∧ (∀ id user, on_users2 (updateUser id user))
  ∧ (∀ id, on_users2 (banUser id))
  ∧ (∀ id, on_users2 (unbanUser id))
  ∧ (∀ id isVip, on_users2 (setVipStatus id isVip))
  ∧ (∀ route req w,
       ∃ qs, issued (snd (registerRoutes route req w)) = issued w ++ qs
             ∧ Forall (fun q => from q = "users2" ∧ from q ≠ "users") qs)
  ∧ (∀ filters id user isVip,
       on_users2 (getUsers_in None filters)
       ∧ on_users2 (getUsers_in (Some "users2") filters)
       ∧ on_users2 (getUser_in None id)
       ∧ on_users2 (updateUser_in None id user)
       ∧ on_users2 (banUser_in None id)
       ∧ on_users2 (unbanUser_in None id)
       ∧ on_users2 (setVipStatus_in None id isVip)).
Proof.
  repeat split.
  - apply on_users2_getUsers.
  - apply on_users2_getUser.
  - apply on_users2_updateUser.
  - intros. apply on_users2_updateUser.
  - intros. apply on_users2_updateUser.
  - intros. apply on_users2_updateUser.
  - intros route req w.
    assert (∃ qs, issued (snd (registerRoutes route req w)) = issued w ++ qs
                  ∧ Forall (fun q => from q = "users2") qs) as (qs & Hqs & Hall).
    { destruct route; cbn [registerRoutes];
        unfold get_users, get_user, put_user, post_ban, post_unban, post_vip,
          get_stats, get_activity, get_settings, put_settings;
        apply on_users2_try_catch;
        unfold banUser, unbanUser, setVipStatus, getSettings, updateSettings;
        repeat first
          [ apply on_users2_getUsers | apply on_users2_getUser
          | apply on_users2_updateUser | apply on_users2_getUserStats
          | apply on_users2_getUserActivityTrend
          | apply on_users2_ret | apply on_users2_lift
          | apply on_users2_read_settings | apply on_users2_write_settings
          | apply on_users2_bind; [|intros]
          | match goal with
            | |- on_users2 (match ?x with _ => _ end) => destruct x
            end ]. }
    exists qs. split; [exact Hqs|].
    eapply Forall_impl; [exact Hall|]. intros q Hq. split; [exact Hq|].
    rewrite Hq. discriminate.
  - apply on_users2_getUsers_in. reflexivity.
  - apply on_users2_getUsers_in. reflexivity.
  - apply on_users2_getUser_in. reflexivity.
  - apply on_users2_updateUser_in. reflexivity.
  - apply on_users2_updateUser_in. reflexivity.
  - apply on_users2_updateUser_in. reflexivity.
  - apply on_users2_updateUser_in. reflexivity.
Qed.

End TableFacts.

Lemma only_table_users2_witness :
  ∃ qs, issued (snd (registerRoutes POST_ban (request_of "u1" ∅ ∅)
                       (world_of [sample_user "u1" noon]))) = [] ++ qs
        ∧ Forall (fun q => from q = "users2" ∧ from q ≠ "users") qs.
Proof.
  destruct only_table_users2 as (_ & _ & _ & _ & _ & _ & Hroutes & _).
  exact (Hroutes POST_ban (request_of "u1" ∅ ∅) (world_of [sample_user "u1" noon])).
Defined.

(** ** Updating a user *)

Section UpdateFacts.
Context `{Platform}.

Lemma updateUser_throws id user w e :
  fst (updateUser id user w) = Thrown e → ∀ issues, e ≠ ZodError issues.
Proof.
  unfold updateUser, bind, await, lift, ret, throw.
  destruct (u_expired_at user) as [[|[|t]|s|t]|]; cbn;
    try destruct (decide (s = "")); cbn;
    repeat match goal with
           | |- context [error ?r] => destruct (error r); cbn
           end;
    intros [= <-] issues; discriminate.
Qed.

Lemma put_user_accepted req w userData :
  parse (updateUserSchema (body req)) = Returned userData →
  put_user req w
  = user_answer "Failed to update user" (updateUser (params_id req) userData w).
Proof.
  intros Hparse. unfold put_user, try_catch, bind, lift at 1. rewrite Hparse.
  pose proof (updateUser_throws (params_id req) userData w) as Hthrow.
  destruct (updateUser (params_id req) userData w) as [[u|e] w']; cbn in *.
  - reflexivity.
  - destruct e; try reflexivity. exfalso. eapply Hthrow; reflexivity.
Qed.

Lemma put_user_rejected req w issues :
  updateUserSchema (body req) = inl issues →
  put_user req w = (respond_with 400 (ValidationMessage issues), w).
Proof.
  intros Hparse. unfold put_user, try_catch, bind, lift at 1, parse.
  rewrite Hparse. reflexivity.
Qed.

Lemma updateUserSchema_accepts (b : JsObject) (n : string) :
  b !! "name" = Some (JStr n) →
  absent_or_string (b !! "phone") →
  absent_or_string (b !! "imei") →
  absent_or_boolean (b !! "is_vip") →
  absent_or_boolean (b !! "is_banned") →
  absent_null_or_string (b !! "expired_at") →
  updateUserSchema b = accept (accepted_update n b).
Proof.
  intros Hn Hp Hi Hv Hb He. unfold updateUserSchema, accepted_update.
  rewrite Hn.
  destruct Hp as [->|[? ->]], Hi as [->|[? ->]], Hv as [->|[? ->]],
    Hb as [->|[? ->]], He as [->|[->|[s ->]]]; cbn;
    try destruct (decide (s = "")); reflexivity.
Qed.

Lemma and_key_inl_l {A B} (f : Validation (A → B)) (a : Validation A) :
  (∃ i, f = inl i) → ∃ j, and_key f a = inl j.
Proof. intros [i ->]. destruct a; eexists; reflexivity. Qed.

Lemma and_key_inl_r {A B} (f : Validation (A → B)) (a : Validation A) :
  (∃ i, a = inl i) → ∃ j, and_key f a = inl j.
Proof. intros [i ->]. destruct f; eexists; reflexivity. Qed.

Lemma updateUserSchema_needs_name (b : JsObject) :
  (∀ n, b !! "name" ≠ Some (JStr n)) →
  ∃ issues, updateUserSchema b = inl issues.
Proof.
  intros Hn. unfold updateUserSchema.
  do 5 apply and_key_inl_l. apply and_key_inl_r.
  destruct (b !! "name") as [[]|]; try (eexists; reflexivity).
  exfalso. eapply Hn. reflexivity.
Qed.

(** C5 (as amended): the update handler accepts a body whose [name] is a
    string and whose other updatable properties ([phone], [imei], [is_vip],
    [is_banned], [expired_at]) are each absent or of their type; it then
    calls [updateUser] with these properties and answers with the updated
    user (500 when the storage call throws).  A body without a string
    [name] is answered 400 and nothing is sent to the database. *)
Theorem put_user_needs_name (req : Request) (w : World) :
  (∀ n,
     body req !! "name" = Some (JStr n) →
     absent_or_string (body req !! "phone") →
     absent_or_string (body req !! "imei") →
     absent_or_boolean (body req !! "is_vip") →
     absent_or_boolean (body req !! "is_banned") →
     absent_null_or_string (body req !! "expired_at") →
     put_user req w
     = user_answer "Failed to update user"
         (updateUser (params_id req) (accepted_update n (body req)) w)
     ∧ status (fst (put_user req w)) ≠ 400)
  ∧ ((∀ n, body req !! "name" ≠ Some (JStr n)) →
       ∃ issues,
         put_user req w = (respond_with 400 (ValidationMessage issues), w)).
Proof.
  split.
  - intros n Hn Hp Hi Hv Hb He.
    pose proof (updateUserSchema_accepts _ _ Hn Hp Hi Hv Hb He) as Hacc.
    rewrite (put_user_accepted req w (accepted_update n (body req)))
      by (rewrite Hacc; reflexivity).
    split; [reflexivity|].
    destruct (updateUser _ _ w) as [[u|e] w']; cbn; discriminate.
  - intros Hn. destruct (updateUserSchema_needs_name _ Hn) as [issues Hi].
    exists issues. apply put_user_rejected. exact Hi.
Qed.

End UpdateFacts.

(** C5 as stated fails: a body with [is_vip] alone, a subset of the
    updatable properties, is rejected as a validation failure. *)
Lemma put_user_rejects_body_without_name :
  put_user (request_of "u1" ∅ {[ "is_vip" := JBool true ]})
    (world_of [sample_user "u1" noon])
  = (respond_with 400
       (ValidationMessage [ {| path := "name"; problem := "Required" |} ]),
     world_of [sample_user "u1" noon]).
Proof. reflexivity. Qed.

Lemma put_user_needs_name_witness :
  status (fst (put_user
                 (request_of "u1" ∅ {[ "name" := JStr "Aye"; "is_vip" := JBool true ]})
                 (world_of [sample_user "u1" noon]))) ≠ 400.
Proof.
  destruct (put_user_needs_name
              (request_of "u1" ∅ {[ "name" := JStr "Aye"; "is_vip" := JBool true ]})
              (world_of [sample_user "u1" noon])) as [Hacc _].
  apply (Hacc "Aye").
  - reflexivity.
  - left. reflexivity.
  - left. reflexivity.
  - right. exists true. reflexivity.
  - left. reflexivity.
  - left. reflexivity.
Defined.


(** ** Normalizing the expiration *)

Section ExpirationFacts.
Context `{Platform}.

(** [updateUser] on an update object whose expiration needs no conversion
    or converts without throwing: the query carries [userData']. *)
Lemma updateUser_sends id user userData' w :
  match u_expired_at user with
  | Some (EDate d) =>
      ∃ t, d = Instant t ∧ userData' = set_expired_at (EIso t) user
  | Some (EText s) =>
      userData' = if decide (s = "") then set_expired_at ENull user else user
  | _ => userData' = user
  end →
  let r := fst (request (update_query id userData') (db w)) in
  issued (snd (updateUser id user w)) = issued w ++ [update_query id userData']
  ∧ fst (updateUser id user w)
    = match error r with
      | Some e => Thrown (Error ("Failed to update user: " +:+ message e))
      | None => Returned (data r)
      end.
Proof.
  intros Hnorm r. subst r.
  unfold updateUser, bind, await, lift, ret, throw.
  fold (update_query id).
  destruct (u_expired_at user) as [[|d|s|t]|].
  - subst. cbn. destruct (error _); cbn; split; reflexivity.
  - destruct Hnorm as (t & -> & ->). cbn.
    destruct (error _); cbn; split; reflexivity.
  - destruct (decide (s = "")); subst; cbn;
      destruct (error _); cbn; split; reflexivity.
  - subst. cbn. destruct (error _); cbn; split; reflexivity.
  - subst. cbn. destruct (error _); cbn; split; reflexivity.
Qed.

(** C4: for an update request that passes validation, an expiration that
    is absent, [null] or the empty string is sent to the database as
    [null], and a string the engine parses as the date [t] is sent as the
    ISO timestamp of [t].  In both cases the update query is sent, and the
    answer is the updated row, or 500 only when the database reports an
    error.  In the storage method itself, an empty string is replaced by
    [null] as well. *)
Theorem expired_at_normalized (req : Request) (w : World) (userData : UpdateUser) :
  parse (updateUserSchema (body req)) = Returned userData →
  let id := params_id req in
  let outcome (sent : UpdateUser) :=
    let r := fst (request (update_query id sent) (db w)) in
    u_name sent = u_name userData ∧ u_phone sent = u_phone userData
    ∧ u_imei sent = u_imei userData ∧ u_is_vip sent = u_is_vip userData
    ∧ u_is_banned sent = u_is_banned userData
    ∧ issued (snd (put_user req w)) = issued w ++ [update_query id sent]
    ∧ (error r = None → fst (put_user req w) = respond (OfUser (data r)))
    ∧ (error r ≠ None →
         fst (put_user req w)
         = respond_with 500 (Message "Failed to update user")) in
  ((body req !! "expired_at" = None
    ∨ body req !! "expired_at" = Some JNull
    ∨ body req !! "expired_at" = Some (JStr "")) →
     ∃ sent, u_expired_at sent = Some ENull ∧ outcome sent)
  ∧ (∀ s t,
       body req !! "expired_at" = Some (JStr s) → s ≠ "" →
       Date_parse s = Instant t →
       ∃ sent, u_expired_at sent = Some (EIso t) ∧ outcome sent)
  ∧ (∀ user,
       u_expired_at user = Some (EText "") →
       issued (snd (updateUser id user w))
       = issued w ++ [update_query id (set_expired_at ENull user)]).
Proof.
  intros Hparse id outcome.
  assert (∀ sent,
            match u_expired_at userData with
            | Some (EDate d) =>
                ∃ t, d = Instant t ∧ sent = set_expired_at (EIso t) userData
            | Some (EText s) =>
                sent = if decide (s = "") then set_expired_at ENull userData
                       else userData
            | _ => sent = userData
            end →
            u_name sent = u_name userData → u_phone sent = u_phone userData →
            u_imei sent = u_imei userData → u_is_vip sent = u_is_vip userData →
            u_is_banned sent = u_is_banned userData →
            outcome sent) as Hout.
  { intros sent Hnorm ? ? ? ? ?. unfold outcome.
    rewrite (put_user_accepted req w userData Hparse).
    destruct (updateUser_sends id userData sent w Hnorm) as [Hq Hr].
    fold id. unfold user_answer.
    destruct (updateUser id userData w) as [o w'] eqn:Hrun. cbn in Hq, Hr. subst o.
    destruct (error _) as [e|] eqn:Herr; cbn;
      repeat split; try assumption; try reflexivity; try discriminate.
    intros []. reflexivity. }
  assert (u_expired_at userData = Some (expiration_of (body req !! "expired_at")))
    as Hexp.
  { revert Hparse. unfold parse, updateUserSchema.
    destruct (z_string "name" (body req !! "name")) as [|n],
      (z_string_optional "phone" (body req !! "phone")),
      (z_string_optional "imei" (body req !! "imei")),
      (z_boolean_optional "is_vip" (body req !! "is_vip")),
      (z_boolean_optional "is_banned" (body req !! "is_banned"));
      unfold z_expired_at, expiration_of;
      destruct (body req !! "expired_at") as [[| | |s| |]|]; cbn;
      try destruct (decide (s = "")); cbn; try discriminate;
      intros [= <-]; reflexivity. }
  repeat split.
  - intros Hnone. exists userData.
    assert (u_expired_at userData = Some ENull) as He.
    { rewrite Hexp. destruct Hnone as [-> | [-> | ->]]; reflexivity. }
    split; [exact He|]. apply Hout; try reflexivity. rewrite He. reflexivity.
  - intros s t Hs Hne Hdate. exists (set_expired_at (EIso t) userData).
    split; [reflexivity|]. apply Hout; try reflexivity.
    rewrite Hexp, Hs. cbn. rewrite decide_False by exact Hne. rewrite Hdate.
    exists t. split; reflexivity.
  - intros user He.
    apply (updateUser_sends id user (set_expired_at ENull user) w).
    rewrite He. reflexivity.
Qed.

End ExpirationFacts.

Lemma expired_at_normalized_witness :
  issued (snd (put_user
                 (request_of "u1" ∅
                    {[ "name" := JStr "Aye"; "expired_at" := JStr "2024-03-01" ]})
                 (world_of [sample_user "u1" noon])))
  = [ update_query "u1"
        {| u_name := Some "Aye"; u_phone := None; u_imei := None;
           u_is_vip := None; u_is_banned := None;
           u_expired_at := Some (EIso 1709251200000) |} ].
Proof.
  destruct (expired_at_normalized
              (request_of "u1" ∅
                 {[ "name" := JStr "Aye"; "expired_at" := JStr "2024-03-01" ]})
              (world_of [sample_user "u1" noon])
              {| u_name := Some "Aye"; u_phone := None; u_imei := None;
                 u_is_vip := None; u_is_banned := None;
                 u_expired_at := Some (EDate (Instant 1709251200000)) |})
    as (_ & Hdate & _).
  - vm_compute. reflexivity.
  - destruct (Hdate "2024-03-01" 1709251200000) as (sent & He & Hn & Hp & Hi & Hv & Hb & Hq & _).
    + reflexivity.
    + discriminate.
    + vm_compute. reflexivity.
    + rewrite Hq. destruct sent. cbn in *. subst. reflexivity.
Defined.

(** Outside these cases: a string the engine cannot parse becomes an invalid
    date, whose conversion throws; the handler answers 500 and sends
    nothing. *)
Example put_user_unparseable_expiration :
  put_user
    (request_of "u1" ∅ {[ "name" := JStr "Aye"; "expired_at" := JStr "soon" ]})
    (world_of [sample_user "u1" noon])
  = (respond_with 500 (Message "Failed to update user"),
     world_of [sample_user "u1" noon]).
Proof. reflexivity. Qed.

(** ** Listing users *)

Section ListFacts.
Context `{Platform}.

Lemma getUsers_builds filters w :
  getUsers filters w
  = (r <- await (users_query filters) ;;
     match error r with
     | Some e => throw (Error ("Failed to get users: " +:+ message e))
     | None => ret {| result_data := data r; result_count := or_zero (count r) |}
     end) w.
Proof.
  unfold getUsers. f_equal. f_equal.
  unfold users_query, conditions_of, page_of, limit_of, truthy.
  replace ((or_default (f_page filters) 1 - 1) * or_default (f_limit filters) 10
           + or_default (f_limit filters) 10 - 1)
    with (or_default (f_page filters) 1 * or_default (f_limit filters) 10 - 1)
    by ring.
  destruct (f_name filters) as [n|], (f_phone filters) as [p|];
    try destruct (decide (n = "")) as [->|Hn];
    try destruct (decide (p = "")) as [->|Hp];
    try (apply String.eqb_neq in Hn; rewrite Hn);
    try (apply String.eqb_neq in Hp; rewrite Hp);
    destruct (f_is_vip filters), (f_is_banned filters); reflexivity.
Qed.

(** What [getUsers] does on any database, by the reply to its query. *)
Lemma getUsers_by_reply filters w :
  let r := fst (request (users_query filters) (db w)) in
  snd (getUsers filters w)
  = after w [users_query filters] (snd (request (users_query filters) (db w)))
  ∧ fst (getUsers filters w)
    = match error r with
      | Some e => Thrown (Error ("Failed to get users: " +:+ message e))
      | None =>
          Returned {| result_data := data r; result_count := or_zero (count r) |}
      end.
Proof.
  intros r. subst r. rewrite getUsers_builds. unfold bind, await. cbn.
  destruct (error _); split; reflexivity.
Qed.

End ListFacts.

(** Listing on the reference database. *)
Section ListOnPg.

Implicit Types (filters : FilterUserParams) (rows : list User).

Lemma listed_Permutation filters rows :
  listed filters rows ≡ₚ matching_rows filters rows.
Proof. apply merge_sort_Permutation. Qed.

Lemma listed_with_page p filters rows :
  listed (with_page p filters) rows = listed filters rows.
Proof. reflexivity. Qed.

Lemma or_zero_Some n : or_zero (Some n) = n.
Proof.
  unfold or_zero, or_default. destruct (decide (n = 0)) as [->|]; reflexivity.
Qed.

Lemma getUsers_on_Pg filters rows (w : World) :
  Pg.reachable (db w) = true →
  Pg.tables (db w) !! "users2" = Some rows →
  getUsers filters w
  = (Returned
       {| result_data :=
            PRows (take (Z.to_nat (limit_of filters))
                     (drop (Z.to_nat ((page_of filters - 1) * limit_of filters))
                        (listed filters rows)));
          result_count := Z.of_nat (length (listed filters rows)) |},
     after w [users_query filters] (db w)).
Proof.
  intros Hup Hrows.
  destruct (getUsers_by_reply filters w) as [Hw Hr].
  assert (request (users_query filters) (db w)
          = ({| data := PRows (Pg.slice (range (users_query filters))
                                 (listed filters rows));
                error := None;
                count := Some (Z.of_nat (length (listed filters rows))) |},
             db w)) as Hrun.
  { cbn [request Pg.platform]. unfold Pg.run. rewrite Hup. cbn [negb].
    cbn [from users_query]. rewrite Hrows. reflexivity. }
  rewrite Hrun in Hw, Hr. cbn [fst snd error data count] in Hw, Hr.
  rewrite or_zero_Some in Hr.
  destruct (getUsers filters w) as [o w']. cbn in Hw, Hr. subst o w'.
  f_equal. f_equal. f_equal. cbn [Pg.slice range users_query].
  replace (page_of filters * limit_of filters - 1
           - (page_of filters - 1) * limit_of filters + 1)
    with (limit_of filters) by ring.
  reflexivity.
Qed.

Lemma ceil_div_bound a b : 0 < b → a ≤ ceil_div a b * b.
Proof.
  intros Hb. unfold ceil_div.
  pose proof (Z.mul_div_le (- a) b Hb). nia.
Qed.

Lemma walk_from_page filters rows (n : nat) :
  1 ≤ limit_of filters →
  ∀ (k : Z) (seen : list User) (w : World),
    1 ≤ k →
    Pg.reachable (db w) = true →
    Pg.tables (db w) !! "users2" = Some rows →
    ∃ w',
      for_each
        (fun seen p =>
           r <- getUsers (with_page p filters) ;;
           ret (seen ++ rows_of (result_data r)))
        (seqZ k (Z.of_nat n)) seen w
      = (Returned
           (seen ++ take (n * Z.to_nat (limit_of filters))
                      (drop (Z.to_nat ((k - 1) * limit_of filters))
                         (listed filters rows))),
         w')
      ∧ db w' = db w.
Proof.
  intros Hlimit. induction n as [|n IH]; intros k seen w Hk Hup Hrows.
  - exists w. cbn. rewrite app_nil_r. split; reflexivity.
  - rewrite seqZ_cons by lia. cbn [for_each]. unfold bind at 1. unfold bind at 1.
    rewrite (getUsers_on_Pg (with_page k filters) rows w Hup Hrows).
    cbn [ret result_data rows_of].
    replace (Z.pred (Z.of_nat (S n))) with (Z.of_nat n) by lia.
    destruct (IH (Z.succ k)
                (seen ++ take (Z.to_nat (limit_of (with_page k filters)))
                   (drop (Z.to_nat ((page_of (with_page k filters) - 1)
                                    * limit_of (with_page k filters)))
                      (listed (with_page k filters) rows)))
                (after w [users_query (with_page k filters)] (db w)))
      as (w' & Hrun & Hdb); [lia|exact Hup|exact Hrows|].
    exists w'. split; [|exact Hdb].
    rewrite Hrun. f_equal. rewrite <- app_assoc. f_equal.
    rewrite listed_with_page.
    change (limit_of (with_page k filters)) with (limit_of filters).
    assert (page_of (with_page k filters) = k) as ->.
    { unfold page_of, or_default. cbn. rewrite decide_False by lia. reflexivity. }
    set (L := Z.to_nat (limit_of filters)).
    replace (Z.to_nat ((Z.succ k - 1) * limit_of filters))
      with (Z.to_nat ((k - 1) * limit_of filters) + L)%nat by (unfold L; nia).
    rewrite <- drop_drop. rewrite take_take_drop.
    reflexivity.
Qed.

(** C2 (as amended): for a page and a limit whose range arithmetic is
    exact (page, limit and the two products are safe integers), where a
    page or limit of zero stands for the default (1 and 10) as an absent
    one does, [getUsers] requests exactly the rows [(page-1)*limit] to
    [page*limit-1] of the list; without an error it returns the rows of
    the reply and its count, or zero when the reply carries no count.  On
    the reference database, which answers every request from the same
    rows in one fixed order, for a page and a limit of at least one, the
    page has at most [limit] rows, the count is the number of the rows
    that satisfy the filter, and walking the pages up to the number of
    pages that count gives collects every such row exactly once. *)
Theorem getUsers_pages :
  (∀ (P : Platform) filters (w : @World P),
     exact_window (page_of filters) (limit_of filters) →
     let r := fst (request (users_query filters) (db w)) in
     issued (snd (getUsers filters w)) = issued w ++ [users_query filters]
     ∧ range (users_query filters)
       = Some ((page_of filters - 1) * limit_of filters,
               page_of filters * limit_of filters - 1)
     ∧ (f_page filters ≠ 0 → page_of filters = f_page filters)
     ∧ (f_page filters = 0 → page_of filters = 1)
     ∧ (f_limit filters ≠ 0 → limit_of filters = f_limit filters)
     ∧ (f_limit filters = 0 → limit_of filters = 10)
     ∧ (error r = None →
          fst (getUsers filters w)
          = Returned {| result_data := data r;
                        result_count := or_zero (count r) |})
     ∧ (∀ n, error r = None → count r = Some n →
          fst (getUsers filters w)
          = Returned {| result_data := data r; result_count := n |})
     ∧ (error r = None → count r = None →
          fst (getUsers filters w)
          = Returned {| result_data := data r; result_count := 0 |}))
  ∧ (∀ filters rows (w : @World Pg.platform),
       Pg.reachable (db w) = true →
       Pg.tables (db w) !! "users2" = Some rows →
       1 ≤ page_of filters →
       1 ≤ limit_of filters →
       exact_window (page_of filters) (limit_of filters) →
       safe_integer (Z.of_nat (length rows) + limit_of filters) →
       (∃ us,
          fst (getUsers filters w)
          = Returned {| result_data := PRows us;
                        result_count :=
                          Z.of_nat (length (matching_rows filters rows)) |}
          ∧ Z.of_nat (length us) ≤ limit_of filters)
       ∧ ∃ all w',
           walk_pages filters w = (Returned all, w')
           ∧ all ≡ₚ matching_rows filters rows).
Proof.
  split.
  - intros P filters w _ r. subst r.
    destruct (getUsers_by_reply filters w) as [Hw Hr].
    rewrite Hw, Hr. unfold page_of, limit_of, or_default.
    repeat split; try (intros Hz; rewrite ?decide_True, ?decide_False by exact Hz;
                       reflexivity).
    + intros ->. reflexivity.
    + intros n -> ->. cbn [or_zero]. do 2 f_equal.
      unfold or_default. case_decide; congruence.
    + intros -> ->. reflexivity.
  - intros filters rows w Hup Hrows Hpage Hlimit _ _. split.
    + eexists. rewrite (getUsers_on_Pg filters rows w Hup Hrows). cbn [fst].
      rewrite (Permutation_length (listed_Permutation filters rows)).
      split; [reflexivity|]. rewrite length_take. lia.
    + unfold walk_pages, bind at 1.
      rewrite (getUsers_on_Pg (with_page 1 filters) rows w Hup Hrows).
      cbn [result_count]. rewrite listed_with_page.
      set (pages := totalPages _ _).
      assert (1 ≤ pages) as Hpages by (unfold pages, totalPages; lia).
      destruct (walk_from_page filters rows (Z.to_nat pages) Hlimit 1 []
                  (after w [users_query (with_page 1 filters)] (db w)))
        as (w' & Hrun & _); [lia|exact Hup|exact Hrows|].
      rewrite Z2Nat.id in Hrun by lia.
      eexists _, w'. split; [exact Hrun|].
      cbn [app]. replace (Z.to_nat ((1 - 1) * limit_of filters)) with 0%nat by lia.
      rewrite drop_0, take_ge; [apply listed_Permutation|].
      pose proof (ceil_div_bound (Z.of_nat (length (listed filters rows)))
                    (limit_of filters)) as Hceil.
      unfold pages, totalPages in *. nia.
Qed.

End ListOnPg.

Lemma getUsers_pages_witness :
  (∃ us,
     fst (getUsers second_page_of_two (world_of five_users))
     = Returned {| result_data := PRows us;
                   result_count :=
                     Z.of_nat (length (matching_rows second_page_of_two
                                         five_users)) |}
     ∧ Z.of_nat (length us) ≤ 2)
  ∧ ∃ all w',
      walk_pages second_page_of_two (world_of five_users) = (Returned all, w')
      ∧ all ≡ₚ matching_rows second_page_of_two five_users.
Proof.
  destruct getUsers_pages as [_ Hpg].
  apply (Hpg second_page_of_two five_users (world_of five_users)).
  - reflexivity.
  - reflexivity.
  - vm_compute. discriminate.
  - vm_compute. discriminate.
  - vm_compute. repeat split.
  - vm_compute. reflexivity.
Defined.

(** With a limit of zero, which the schema accepts, the list asks for the
    rows 0 to 9, not for the rows [(page-1)*limit] to [page*limit-1] of the
    filter object, and returns more than [limit] users: zero is replaced
    by the default. *)
Lemma getUsers_limit_zero_lists_ten :
  issued (snd (getUsers limit_zero (world_of five_users)))
  = [users_query limit_zero]
  ∧ range (users_query limit_zero) = Some (0, 9)
  ∧ range (users_query limit_zero)
    ≠ Some ((f_page limit_zero - 1) * f_limit limit_zero,
            f_page limit_zero * f_limit limit_zero - 1)
  ∧ ∃ r,
      fst (getUsers limit_zero (world_of five_users)) = Returned r
      ∧ f_limit limit_zero < Z.of_nat (length (rows_of (result_data r))).
Proof.
  split; [|split; [reflexivity|split; [discriminate|]]].
  - rewrite (proj1 (getUsers_by_reply limit_zero (world_of five_users))).
    reflexivity.
  - rewrite (getUsers_on_Pg limit_zero five_users (world_of five_users))
      by reflexivity.
    eexists. split; [reflexivity|]. vm_compute. reflexivity.
Qed.

(** ** Activity trend *)

Section TrendFacts.
Context `{Platform}.

Lemma for_each_pure {A S} (body : S → A → M S) (f : S → A → S) (l : list A)
    (s : S) (w : World) :
  (∀ s a, a ∈ l → body s a w = (Returned (f s a), w)) →
  for_each body l s w = (Returned (foldl f s l), w).
Proof.
  revert s. induction l as [|a l IH]; intros s Hbody; cbn.
  - reflexivity.
  - unfold bind. rewrite Hbody by left. apply IH.
    intros s' a' Ha'. apply Hbody. right. exact Ha'.
Qed.

Lemma bind_new_Date {B} (k : JsDate → M B) w :
  bind new_Date k w = k (Instant (now w)) w.
Proof. reflexivity. Qed.

Lemma bind_lift {A B} (a : A) (k : A → M B) w :
  bind (lift (Returned a)) k w = k a w.
Proof. reflexivity. Qed.

Lemma bind_await {B} (q : Query) (k : Reply → M B) w :
  bind (await q) k w
  = k (fst (request q (db w))) (after w [q] (snd (request q (db w)))).
Proof. reflexivity. Qed.

Lemma bind_returned {A B} (m : M A) (k : A → M B) w a w' :
  m w = (Returned a, w') → bind m k w = k a w'.
Proof. intros Hm. unfold bind. rewrite Hm. reflexivity. Qed.

Lemma date_part_back (t k : Z) : date_part (t - k * msPerDay) = date_part t - k.
Proof.
  unfold date_part.
  replace (t - k * msPerDay) with (t + (- k) * msPerDay) by ring.
  rewrite Z.div_add by discriminate. ring.
Qed.

Lemma date_part_bounds (t : Z) :
  date_part t * msPerDay ≤ t < (date_part t + 1) * msPerDay.
Proof.
  unfold date_part, msPerDay.
  pose proof (Z.mul_div_le t 86400000 eq_refl).
  pose proof (Z.mul_succ_div_gt t 86400000 eq_refl). lia.
Qed.

(** Within the years 0000 to 9999 every time value is a valid date. *)
Lemma TimeClip_in_years (t : Z) :
  first_day ≤ date_part t ≤ last_day → TimeClip t = Instant t.
Proof.
  intros Hd. unfold TimeClip. apply decide_True.
  pose proof (date_part_bounds t). unfold first_day, last_day, msPerDay in *. lia.
Qed.

(** The map after the initialization loop. *)
Lemma lookup_initialized (last : Z) (n : nat) (d : Z) :
  foldl (fun (m : gmap Z Z) i => <[last - i := 0]> m) ∅ (seqZ 0 (Z.of_nat n)) !! d
  = if decide (last - Z.of_nat n < d ≤ last) then Some 0 else None.
Proof.
  induction n as [|n IH].
  - rewrite seqZ_nil by lia. cbn [foldl]. rewrite lookup_empty.
    rewrite decide_False by lia. reflexivity.
  - rewrite seqZ_S, foldl_snoc. rewrite Z.add_0_l.
    destruct (decide (last - Z.of_nat n = d)) as [<-|Hne].
    + rewrite lookup_insert_eq. rewrite decide_True by lia. reflexivity.
    + rewrite lookup_insert_ne by exact Hne. rewrite IH.
      destruct (decide (last - Z.of_nat n < d ≤ last)).
      * rewrite decide_True by lia. reflexivity.
      * rewrite decide_False by lia. reflexivity.
Qed.

Lemma signups_on_cons d u users :
  signups_on d (u :: users)
  = (if decide (signup_day u = Some d) then 1 else 0) + signups_on d users.
Proof.
  unfold signups_on. rewrite filter_cons.
  destruct (decide (signup_day u = Some d)); cbn [length]; lia.
Qed.

Lemma signups_on_nonneg d users : 0 ≤ signups_on d users.
Proof. unfold signups_on. lia. Qed.

(** The map after the counting loop, when every user falls in the days
    [lo < d ≤ hi] the map was initialized on. *)
Lemma lookup_counted (lo hi : Z) (users : list User) :
  Forall (fun u => ∃ d, signup_day u = Some d ∧ lo < d ≤ hi) users →
  ∀ (m : gmap Z Z) (c : Z → Z),
    (∀ d, m !! d = if decide (lo < d ≤ hi) then Some (c d) else None) →
    ∀ d, foldl count_signup m users !! d
         = if decide (lo < d ≤ hi) then Some (c d + signups_on d users) else None.
Proof.
  induction 1 as [|u users (du & Hu & Hin) _ IH]; intros m c Hm d.
  - cbn. rewrite Hm. unfold signups_on. cbn.
    destruct (decide (lo < d ≤ hi)); [f_equal; lia|reflexivity].
  - cbn [foldl].
    rewrite (IH (count_signup m u)
               (fun d => c d + if decide (signup_day u = Some d) then 1 else 0)).
    + rewrite signups_on_cons.
      destruct (decide (lo < d ≤ hi)); [f_equal; lia|reflexivity].
    + intros d'. unfold count_signup. rewrite Hu.
      assert (get_or_zero m du = c du) as ->.
      { unfold get_or_zero. rewrite Hm, decide_True by exact Hin.
        unfold or_default. destruct (decide (c du = 0)) as [->|]; reflexivity. }
      destruct (decide (du = d')) as [<-|Hne].
      * rewrite lookup_insert_eq, decide_True by exact Hin.
        rewrite decide_True by reflexivity. reflexivity.
      * rewrite lookup_insert_ne, Hm by exact Hne.
        destruct (decide (lo < d' ≤ hi)); [|reflexivity].
        rewrite decide_False by congruence. f_equal. lia.
Qed.

#[local] Instance by_date_trans : Transitive by_date.
Proof. intros a b c. unfold by_date. lia. Qed.

#[local] Instance by_date_total : Total by_date.
Proof. intros a b. unfold by_date. lia. Qed.

Lemma Sorted_by_date_seqZ (c : Z → Z) (n : nat) (lo : Z) :
  Sorted by_date
    ((fun d => {| date := d; userCount := c d |}) <$> seqZ lo (Z.of_nat n)).
Proof.
  revert lo. induction n as [|n IH]; intros lo.
  - constructor.
  - rewrite seqZ_cons by lia. cbn [fmap list_fmap].
    replace (Z.pred (Z.of_nat (S n))) with (Z.of_nat n) by lia.
    constructor; [apply IH|].
    destruct n as [|n]; [constructor|].
    rewrite seqZ_cons by lia. constructor. unfold by_date. cbn. lia.
Qed.

(** Sorting the entries of a map defined on the days [lo < d ≤ lo + n]
    lists these days in ascending order. *)
Lemma sorted_entries (m : gmap Z Z) (lo n : Z) (c : Z → Z) :
  0 ≤ n →
  (∀ d, m !! d = if decide (lo < d ≤ lo + n) then Some (c d) else None) →
  merge_sort by_date
    ((fun e => {| date := fst e; userCount := snd e |}) <$> map_to_list m)
  = (fun d => {| date := d; userCount := c d |}) <$> seqZ (lo + 1) n.
Proof.
  intros Hn Hm.
  assert (∀ x : UserActivity,
            x ∈ (fun e => {| date := fst e; userCount := snd e |}) <$> map_to_list m
            ↔ x ∈ (fun d => {| date := d; userCount := c d |}) <$> seqZ (lo + 1) n)
    as Hsame.
  { intros x. rewrite !list_elem_of_fmap. split.
    - intros ([d v] & -> & Hin). apply elem_of_map_to_list in Hin.
      rewrite Hm in Hin. destruct (decide (lo < d ≤ lo + n)); [|discriminate].
      injection Hin as <-. exists d. split; [reflexivity|].
      apply elem_of_seqZ. lia.
    - intros (d & -> & Hin). apply elem_of_seqZ in Hin.
      exists (d, c d). split; [reflexivity|]. apply elem_of_map_to_list.
      rewrite Hm, decide_True by lia. reflexivity. }
  apply (Sorted_unique_strong by_date).
  - intros x1 x2 Hx1 Hx2 H12 H21.
    rewrite merge_sort_Permutation in Hx1. apply Hsame in Hx1.
    apply list_elem_of_fmap in Hx1 as (d1 & -> & _).
    apply list_elem_of_fmap in Hx2 as (d2 & -> & _).
    unfold by_date in *. cbn in *. assert (d1 = d2) as -> by lia. reflexivity.
  - apply Sorted_merge_sort. apply _.
  - rewrite <- (Z2Nat.id n) by exact Hn. apply Sorted_by_date_seqZ.
  - rewrite merge_sort_Permutation. apply NoDup_Permutation.
    + apply NoDup_fmap_2_strong; [|apply NoDup_map_to_list].
      intros [d1 v1] [d2 v2] _ _ [= -> ->]. reflexivity.
    + apply NoDup_fmap_2_strong; [|apply NoDup_seqZ].
      intros d1 d2 _ _ [= ->]. reflexivity.
    + exact Hsame.
Qed.

(** The run of [getUserActivityTrend] when the database returns rows that
    all fall on the days of the window. *)
Lemma getUserActivityTrend_rows (w : World) (n : Z) (users : list User) :
  let q := activity_query (now w - n * msPerDay) in
  0 ≤ n →
  first_day ≤ today w - n →
  today w ≤ last_day →
  data (fst (request q (db w))) = PRows users →
  Forall (fun u => ∃ d, signup_day u = Some d ∧ today w - n < d ≤ today w) users →
  getUserActivityTrend (Some (Int n)) w
  = (Returned (trend (today w) n users), after w [q] (snd (request q (db w)))).
Proof.
  intros q Hn Hlo Hhi Hdata Hin. subst q.
  assert (∀ i, 0 ≤ i ≤ n →
            TimeClip (now w - i * msPerDay) = Instant (now w - i * msPerDay))
    as Hclip.
  { intros i Hi. apply TimeClip_in_years. rewrite date_part_back.
    unfold today in *. lia. }
  unfold getUserActivityTrend. cbn [default from_option Datatypes.id].
  rewrite bind_new_Date. cbn [setDate_back]. rewrite Hclip by lia.
  cbn [toISOString]. rewrite bind_lift.
  fold (activity_query (now w - n * msPerDay)). rewrite bind_await.
  set (q := activity_query (now w - n * msPerDay)) in *.
  set (w2 := after w [q] (snd (request q (db w)))).
  rewrite Hdata.
  erewrite bind_returned; cycle 1.
  { apply (for_each_pure _ (fun (m : gmap Z Z) i => <[today w - i := 0]> m)).
    intros m i Hi. apply elem_of_seqZ in Hi.
    rewrite bind_new_Date. cbn [setDate_back now w2 after].
    rewrite Hclip by lia. cbn [toISOString]. rewrite bind_lift.
    rewrite date_part_back. reflexivity. }
  erewrite bind_returned; cycle 1.
  { apply (for_each_pure _ count_signup).
    intros m u Hu. rewrite Forall_forall in Hin.
    destruct (Hin u Hu) as (d & Hd & _).
    unfold count_signup. rewrite Hd. unfold signup_day in Hd.
    destruct (Date_of_column (created_at u)) as [|t]; [discriminate|].
    injection Hd as <-. reflexivity. }
  unfold ret. f_equal. f_equal.
  rewrite (sorted_entries _ (today w - n) n (fun d => signups_on d users) Hn).
  - reflexivity.
  - intros d.
    rewrite (lookup_counted (today w - n) (today w) users Hin _ (fun _ => 0)).
    + destruct (decide (today w - n < d ≤ today w)).
      * rewrite decide_True by lia. reflexivity.
      * rewrite decide_False by lia. reflexivity.
    + intros d'. rewrite <- (Z2Nat.id n) at 1 by exact Hn.
      rewrite lookup_initialized. rewrite Z2Nat.id by exact Hn. reflexivity.
Qed.

Lemma getUserActivityTrend_null (w : World) (n : Z) :
  let q := activity_query (now w - n * msPerDay) in
  0 ≤ n →
  first_day ≤ today w - n →
  today w ≤ last_day →
  data (fst (request q (db w))) = PNull →
  getUserActivityTrend (Some (Int n)) w
  = (Returned [], after w [q] (snd (request q (db w)))).
Proof.
  intros q Hn Hlo Hhi Hdata. subst q.
  unfold getUserActivityTrend. cbn [default from_option Datatypes.id].
  rewrite bind_new_Date. cbn [setDate_back].
  rewrite TimeClip_in_years
    by (rewrite date_part_back; unfold today in *; lia).
  cbn [toISOString]. rewrite bind_lift.
  fold (activity_query (now w - n * msPerDay)). rewrite bind_await.
  rewrite Hdata. reflexivity.
Qed.

Lemma length_trend last n users : length (trend last n users) = Z.to_nat n.
Proof. unfold trend. rewrite length_fmap. apply length_seqZ. Qed.

Lemma lookup_trend last n users (i : nat) :
  (i < Z.to_nat n)%nat →
  trend last n users !! i
  = Some {| date := last - n + 1 + Z.of_nat i;
            userCount := signups_on (last - n + 1 + Z.of_nat i) users |}.
Proof.
  intros Hi. unfold trend. rewrite list_lookup_fmap.
  rewrite lookup_seqZ_lt by lia. reflexivity.
Qed.

Lemma signups_on_none d users :
  Forall (fun u => signup_day u ≠ Some d) users → signups_on d users = 0.
Proof.
  induction 1 as [|u users Hu _ IH]; [reflexivity|].
  rewrite signups_on_cons, IH, decide_False by exact Hu. reflexivity.
Qed.

(** C1 (as amended): on a clock within the years 0000 to 9999 and a window
    of [n ≥ 1] days, when the database returns rows and each of them was
    created on one of the [n] calendar days ending today, the trend has
    exactly [n] entries, one per day from [today - n + 1] to [today] in
    ascending order without a gap, each with the number of the rows
    created that day, zero for a day without any; seven days with a single
    row created exactly three days ago give seven entries, all zero but the
    fourth.  When the database returns no data, the trend is empty. *)
Theorem getUserActivityTrend_window (w : World) (n : Z) :
  let r := fst (request (activity_query (now w - n * msPerDay)) (db w)) in
  1 ≤ n →
  first_day ≤ today w - n →
  today w ≤ last_day →
  (∀ users,
     data r = PRows users →
     Forall (fun u => ∃ d, signup_day u = Some d ∧ today w - n < d ≤ today w)
       users →
     ∃ result,
       fst (getUserActivityTrend (Some (Int n)) w) = Returned result
       ∧ length result = Z.to_nat n
       ∧ (∀ i : nat,
            (i < Z.to_nat n)%nat →
            result !! i
            = Some {| date := today w - n + 1 + Z.of_nat i;
                      userCount :=
                        signups_on (today w - n + 1 + Z.of_nat i) users |})
       ∧ (∀ e, e ∈ result →
            Forall (fun u => signup_day u ≠ Some (date e)) users →
            userCount e = 0))
  ∧ (∀ u,
       n = 7 →
       data r = PRows [u] →
       created_at u = Some (now w - 3 * msPerDay) →
       fst (getUserActivityTrend (Some (Int n)) w)
       = Returned
           [ {| date := today w - 6; userCount := 0 |};
             {| date := today w - 5; userCount := 0 |};
             {| date := today w - 4; userCount := 0 |};
             {| date := today w - 3; userCount := 1 |};
             {| date := today w - 2; userCount := 0 |};
             {| date := today w - 1; userCount := 0 |};
             {| date := today w; userCount := 0 |} ])
  ∧ (data r = PNull →
       fst (getUserActivityTrend (Some (Int n)) w) = Returned []).
Proof.
  intros r Hn Hlo Hhi. subst r. repeat split.
  - intros users Hdata Hin. exists (trend (today w) n users).
    rewrite (getUserActivityTrend_rows w n users) by (assumption || lia).
    split; [reflexivity|]. split; [apply length_trend|].
    split; [intros i Hi; apply lookup_trend; exact Hi|].
    intros e He Hnone. unfold trend in He.
    apply list_elem_of_fmap in He as (d & -> & _). cbn in *.
    apply signups_on_none. exact Hnone.
  - intros u -> Hdata Hcreated.
    assert (signup_day u = Some (today w - 3)) as Hday.
    { unfold signup_day, Date_of_column. rewrite Hcreated.
      rewrite TimeClip_in_years
        by (rewrite date_part_back; unfold today in *; lia).
      rewrite date_part_back. reflexivity. }
    rewrite (getUserActivityTrend_rows w 7 [u]); try assumption; try lia.
    + cbn [fst]. f_equal. unfold trend, seqZ. change (Z.to_nat 7) with 7%nat.
      cbn -[signups_on today Z.add Z.sub Z.of_nat].
      rewrite !signups_on_cons, !Hday.
      change (signups_on _ []) with 0.
      repeat (f_equal; try lia).
      all: destruct (decide _) as [[=]|Hne];
        [lia|try lia; exfalso; apply Hne; f_equal; lia].
    + constructor; [|constructor]. exists (today w - 3). split; [exact Hday|lia].
  - intros Hdata.
    rewrite (getUserActivityTrend_null w n) by (assumption || lia). reflexivity.
Qed.

End TrendFacts.

(** C1 as stated fails: when the database cannot be reached the reply
    carries no data and the trend is empty, whatever the window. *)
Lemma getUserActivityTrend_empty_without_data :
  fst (getUserActivityTrend (Some (Int 7)) world_down) = Returned []
  ∧ length ([] : list UserActivity) ≠ 7%nat.
Proof. split; [reflexivity|discriminate]. Qed.

(** The window of the query starts [n] days before the present instant,
    which falls on the calendar day before the [n] days the map is
    initialized on: a row created later on that day is counted under a key
    of its own, and the trend has [n + 1] entries. *)
Example getUserActivityTrend_day_before_window :
  fst (getUserActivityTrend (Some (Int 7))
         (world_of [sample_user "a" (noon - 7 * msPerDay + 1000)]))
  = Returned
      [ {| date := 19730; userCount := 1 |};
        {| date := 19731; userCount := 0 |};
        {| date := 19732; userCount := 0 |};
        {| date := 19733; userCount := 0 |};
        {| date := 19734; userCount := 0 |};
        {| date := 19735; userCount := 0 |};
        {| date := 19736; userCount := 0 |};
        {| date := 19737; userCount := 0 |} ].
Proof. vm_compute. reflexivity. Qed.

Lemma getUserActivityTrend_window_witness :
  fst (getUserActivityTrend (Some (Int 7))
         (world_of [sample_user "a" (noon - 3 * msPerDay)]))
  = Returned
      [ {| date := 19731; userCount := 0 |};
        {| date := 19732; userCount := 0 |};
        {| date := 19733; userCount := 0 |};
        {| date := 19734; userCount := 1 |};
        {| date := 19735; userCount := 0 |};
        {| date := 19736; userCount := 0 |};
        {| date := 19737; userCount := 0 |} ].
Proof.
  destruct (getUserActivityTrend_window
              (world_of [sample_user "a" (noon - 3 * msPerDay)]) 7)
    as (_ & Hseven & _).
  - vm_compute. discriminate.
  - vm_compute. discriminate.
  - vm_compute. discriminate.
  - apply (Hseven (sample_user "a" (noon - 3 * msPerDay))); reflexivity.
Defined.

(** * Further properties of the server *)

(** ** The list handler and its schema *)

Section ListHandlerFacts.
Context `{Platform}.

Lemma z_enum_accepted {A} key (values : list (string * A)) d v :
  (∃ a, z_enum key values d v = inr a) ↔ enum_ok (values.*1) v.
Proof.
  unfold z_enum, enum_ok. destruct v as [[s|l|]|]; [|split..].
  - destruct (list_find _ values) as [[i kv]|] eqn:Hfind.
    + apply list_find_Some in Hfind as (Hi & Heq & _).
      apply String.eqb_eq in Heq. split; [intros _|eauto].
      apply list_elem_of_fmap. exists kv. split; [congruence|].
      eapply list_elem_of_lookup_2. exact Hi.
    + apply list_find_None in Hfind. split; [intros [a [=]]|].
      intros Hin. apply list_elem_of_fmap in Hin as (kv & -> & Hin).
      rewrite Forall_forall in Hfind. exfalso. apply (Hfind kv Hin).
      apply String.eqb_refl.
  - intros [a [=]].
  - intros [].
  - intros [a [=]].
  - intros [].
  - eauto.
  - eauto.
Qed.

Lemma z_query_string_accepted key v o :
  z_query_string key v = inr o ↔ string_ok v ∧ o = string_of_parameter v.
Proof.
  unfold z_query_string, string_ok, string_of_parameter, accept, reject.
  destruct v as [[s|l|]|]; split;
    try (intros [= <-]; split; [exact I|reflexivity]);
    try (intros [_ ->]; reflexivity);
    try discriminate; intros [[] _].
Qed.

Lemma z_number_accepted key d v :
  (∃ n, z_number key d (optional_int v) = inr n) ↔ number_ok v.
Proof.
  unfold z_number, optional_int, number_ok.
  destruct (given v); [|split; [discriminate|eauto]].
  destruct (parseInt _); split; eauto; try (intros [n [=]]).
  intros Hnan. exfalso. apply Hnan; reflexivity.
Qed.

Lemma z_number_value key d v n :
  z_number key d (optional_int v) = inr n → n = number_or d v.
Proof.
  unfold z_number, optional_int, number_or.
  destruct (given v); [|intros [= <-]; reflexivity].
  destruct (parseInt _); intros [= <-]. reflexivity.
Qed.

Lemma well_reported_and_key {A B} (f : Validation (A → B)) (a : Validation A) :
  well_reported f → well_reported a → well_reported (and_key f a).
Proof. destruct f as [[|]|], a as [[|]|]; cbn; auto. Qed.

Lemma well_reported_z_enum {A} key (values : list (string * A)) d v :
  well_reported (z_enum key values d v).
Proof.
  unfold z_enum. destruct v as [[s|l|]|]; try exact I.
  destruct (list_find _ _) as [[]|]; exact I.
Qed.

Lemma well_reported_z_query_string key v :
  well_reported (z_query_string key v).
Proof. destruct v as [[s|l|]|]; exact I. Qed.

Lemma well_reported_z_number key d v : well_reported (z_number key d v).
Proof. destruct v as [[]|]; exact I. Qed.

Lemma well_reported_filterUserSchema i : well_reported (filterUserSchema i).
Proof.
  unfold filterUserSchema.
  repeat apply well_reported_and_key;
    first [apply well_reported_z_enum | apply well_reported_z_number
          | apply well_reported_z_query_string | exact I].
Qed.

Lemma and_key_inr {A B} (f : Validation (A → B)) (a : Validation A) b :
  and_key f a = inr b → ∃ f' a', f = inr f' ∧ a = inr a' ∧ b = f' a'.
Proof. destruct f, a; cbn; intros [=]; eauto. Qed.

(** What an accepted input gave each key. *)
Lemma filterUserSchema_inr i filters :
  filterUserSchema i = inr filters →
  z_query_string "name" (i_name i) = inr (f_name filters)
  ∧ z_query_string "phone" (i_phone i) = inr (f_phone filters)
  ∧ z_enum "is_vip"
      [("all", vip_all); ("vip", vip_only); ("non-vip", non_vip)]
      vip_all (i_is_vip i) = inr (f_is_vip filters)
  ∧ z_enum "is_banned"
      [("all", ban_all); ("banned", banned); ("active", active)]
      ban_all (i_is_banned i) = inr (f_is_banned filters)
  ∧ z_enum "sortBy"
      [("name", by_name); ("created_at", by_created_at);
       ("last_login", by_last_login); ("expired_at", by_expired_at)]
      by_created_at (i_sortBy i) = inr (f_sortBy filters)
  ∧ z_enum "sortOrder" [("asc", asc); ("desc", desc)] desc (i_sortOrder i)
    = inr (f_sortOrder filters)
  ∧ z_number "page" 1 (i_page i) = inr (f_page filters)
  ∧ z_number "limit" 10 (i_limit i) = inr (f_limit filters).
Proof.
  unfold filterUserSchema. intros H8.
  apply and_key_inr in H8 as (g8 & a8 & H7 & E8 & ->).
  apply and_key_inr in H7 as (g7 & a7 & H6 & E7 & ->).
  apply and_key_inr in H6 as (g6 & a6 & H5 & E6 & ->).
  apply and_key_inr in H5 as (g5 & a5 & H4 & E5 & ->).
  apply and_key_inr in H4 as (g4 & a4 & H3 & E4 & ->).
  apply and_key_inr in H3 as (g3 & a3 & H2 & E3 & ->).
  apply and_key_inr in H2 as (g2 & a2 & H1 & E2 & ->).
  apply and_key_inr in H1 as (g1 & a1 & H0 & E1 & ->).
  injection H0 as <-. cbn. repeat split; assumption.
Qed.

Lemma filterUserSchema_accepts i :
  (∃ n, z_query_string "name" (i_name i) = inr n) →
  (∃ n, z_query_string "phone" (i_phone i) = inr n) →
  (∃ a, z_enum "is_vip"
          [("all", vip_all); ("vip", vip_only); ("non-vip", non_vip)]
          vip_all (i_is_vip i) = inr a) →
  (∃ a, z_enum "is_banned"
          [("all", ban_all); ("banned", banned); ("active", active)]
          ban_all (i_is_banned i) = inr a) →
  (∃ a, z_enum "sortBy"
          [("name", by_name); ("created_at", by_created_at);
           ("last_login", by_last_login); ("expired_at", by_expired_at)]
          by_created_at (i_sortBy i) = inr a) →
  (∃ a, z_enum "sortOrder" [("asc", asc); ("desc", desc)] desc (i_sortOrder i)
        = inr a) →
  (∃ n, z_number "page" 1 (i_page i) = inr n) →
  (∃ n, z_number "limit" 10 (i_limit i) = inr n) →
  ∃ filters, filterUserSchema i = inr filters.
Proof.
  intros [? E1] [? E2] [? E3] [? E4] [? E5] [? E6] [? E7] [? E8].
  unfold filterUserSchema. rewrite E1, E2, E3, E4, E5, E6, E7, E8.
  eexists. reflexivity.
Qed.

Lemma filterUserSchema_cases (req : Request) :
  (valid_list_query (query req)
   ∧ ∃ filters,
       filterUserSchema (list_input req) = inr filters
       ∧ f_name filters = string_of_parameter (query req !! "name")
       ∧ f_phone filters = string_of_parameter (query req !! "phone")
       ∧ f_page filters = number_or 1 (query req !! "page")
       ∧ f_limit filters = number_or 10 (query req !! "limit")
       ∧ z_enum "is_vip"
           [("all", vip_all); ("vip", vip_only); ("non-vip", non_vip)]
           vip_all (query req !! "is_vip") = inr (f_is_vip filters)
       ∧ z_enum "is_banned"
           [("all", ban_all); ("banned", banned); ("active", active)]
           ban_all (query req !! "is_banned") = inr (f_is_banned filters)
       ∧ z_enum "sortBy"
           [("name", by_name); ("created_at", by_created_at);
            ("last_login", by_last_login); ("expired_at", by_expired_at)]
           by_created_at (query req !! "sortBy") = inr (f_sortBy filters)
       ∧ z_enum "sortOrder" [("asc", asc); ("desc", desc)] desc
           (query req !! "sortOrder") = inr (f_sortOrder filters))
  ∨ (¬ valid_list_query (query req)
     ∧ ∃ issue issues, filterUserSchema (list_input req) = inl (issue :: issues)).
Proof.
  pose proof (well_reported_filterUserSchema (list_input req)) as Hwr.
  destruct (filterUserSchema (list_input req)) as [issues|filters] eqn:Hparse.
  - right. split.
    + intros (V1 & V2 & V3 & V4 & V5 & V6 & V7 & V8).
      destruct (filterUserSchema_accepts (list_input req)) as [filters Hok];
        cbn [list_input i_name i_phone i_is_vip i_is_banned i_sortBy
             i_sortOrder i_page i_limit].
      * eexists. apply z_query_string_accepted. split; [exact V1|reflexivity].
      * eexists. apply z_query_string_accepted. split; [exact V2|reflexivity].
      * apply z_enum_accepted. exact V3.
      * apply z_enum_accepted. exact V4.
      * apply z_enum_accepted. exact V5.
      * apply z_enum_accepted. exact V6.
      * apply z_number_accepted. exact V7.
      * apply z_number_accepted. exact V8.
      * congruence.
    + destruct issues as [|issue issues]; [destruct Hwr|eauto].
  - left. apply filterUserSchema_inr in Hparse
      as (E1 & E2 & E3 & E4 & E5 & E6 & E7 & E8).
    cbn [list_input i_name i_phone i_is_vip i_is_banned i_sortBy
         i_sortOrder i_page i_limit] in *.
    split.
    + unfold valid_list_query.
      apply z_query_string_accepted in E1 as [V1 _].
      apply z_query_string_accepted in E2 as [V2 _].
      refine (conj V1 (conj V2 (conj _ (conj _ (conj _ (conj _ (conj _ _))))))).
      * apply (z_enum_accepted "is_vip"
                 [("all", vip_all); ("vip", vip_only); ("non-vip", non_vip)]
                 vip_all). eauto.
      * apply (z_enum_accepted "is_banned"
                 [("all", ban_all); ("banned", banned); ("active", active)]
                 ban_all). eauto.
      * apply (z_enum_accepted "sortBy"
                 [("name", by_name); ("created_at", by_created_at);
                  ("last_login", by_last_login);
                  ("expired_at", by_expired_at)] by_created_at). eauto.
      * apply (z_enum_accepted "sortOrder" [("asc", asc); ("desc", desc)]
                 desc). eauto.
      * apply (z_number_accepted "page" 1). eauto.
      * apply (z_number_accepted "limit" 10). eauto.
    + exists filters. split; [reflexivity|].
      apply z_query_string_accepted in E1 as [_ E1].
      apply z_query_string_accepted in E2 as [_ E2].
      apply z_number_value in E7. apply z_number_value in E8.
      repeat split; assumption.
Qed.

Lemma getUsers_throws filters w e :
  fst (getUsers filters w) = Thrown e → ∀ issues, e ≠ ZodError issues.
Proof.
  unfold getUsers, bind, await, ret, throw. cbn.
  destruct (error _); cbn; intros [= <-] issues; discriminate.
Qed.

Lemma get_users_run (req : Request) (w : World) :
  get_users req w
  = match filterUserSchema (list_input req) with
    | inr filters => users_answer (getUsers filters w)
    | inl i => (respond_with 400 (ValidationMessage i), w)
    end.
Proof.
  unfold get_users, try_catch, bind, lift at 1, parse.
  fold (list_input req).
  destruct (filterUserSchema (list_input req)) as [i|filters]; [reflexivity|].
  pose proof (getUsers_throws filters w) as Hthrow.
  unfold users_answer.
  destruct (getUsers filters w) as [[r|e] w']; [reflexivity|]. cbn in *.
  destruct e; try reflexivity. exfalso. eapply Hthrow; reflexivity.
Qed.

(** X1: the list handler answers 400 exactly when the query string is not
    valid: a name or phone that is not a string (a parameter given twice
    arrives as an array), an enumeration parameter that is not one of its
    values, or a page or limit that is given and does not convert to a
    string starting with a number; it then reports at least one issue and
    sends nothing to the database. *)
Theorem get_users_rejects_invalid_query (req : Request) (w : World) :
  (status (fst (get_users req w)) = 400 ↔ ¬ valid_list_query (query req))
  ∧ (¬ valid_list_query (query req) →
       ∃ issue issues,
         get_users req w
         = (respond_with 400 (ValidationMessage (issue :: issues)), w))
  ∧ (∀ a b, query req !! "name" = Some (QArr [QStr a; QStr b]) →
       status (fst (get_users req w)) = 400)
  ∧ (∀ a b, query req !! "page" = Some (QArr [QStr a; QStr b]) →
       optional_int (query req !! "page") = Some (parseInt (a +:+ "," +:+ b))).
Proof.
  pose proof (get_users_run req w) as Hrun.
  assert (status (fst (get_users req w)) = 400
          ↔ ¬ valid_list_query (query req)) as Hiff.
  { destruct (filterUserSchema_cases req)
      as [(Hvalid & filters & Hparse & _)|(Hinvalid & issue & issues & Hparse)];
      rewrite Hparse in Hrun.
    - split; [|intros Hn; contradiction].
      rewrite Hrun. unfold users_answer.
      destruct (getUsers filters w) as [[r|e] w']; cbn; discriminate.
    - rewrite Hrun. split; [intros _; exact Hinvalid|reflexivity]. }
  refine (conj Hiff (conj _ (conj _ _))).
  - intros Hinvalid.
    destruct (filterUserSchema_cases req)
      as [(Hvalid & _)|(_ & issue & issues & Hparse)]; [contradiction|].
    rewrite Hparse in Hrun. exists issue, issues. exact Hrun.
  - intros a b Hname. apply Hiff. intros (V1 & _).
    rewrite Hname in V1. exact V1.
  - intros a b Hpage. rewrite Hpage. reflexivity.
Qed.

(** X2: on a valid query string whose page and limit are safe integers,
    the list handler calls [getUsers] with the parameters given and the
    defaults for those absent: the name and the phone as given, each
    enumeration parameter as the value it names, no VIP or ban filter,
    sorting by creation time and descending when absent, and page 1 and
    limit 10 when absent or empty; it answers 200 with the result, or 500
    when [getUsers] throws. *)
Theorem get_users_defaults (req : Request) (w : World) :
  valid_list_query (query req) →
  safe_integer (number_or 1 (query req !! "page")) →
  safe_integer (number_or 10 (query req !! "limit")) →
  ∃ filters,
    get_users req w = users_answer (getUsers filters w)
    ∧ f_name filters = string_of_parameter (query req !! "name")
    ∧ f_phone filters = string_of_parameter (query req !! "phone")
    ∧ f_page filters = number_or 1 (query req !! "page")
    ∧ f_limit filters = number_or 10 (query req !! "limit")
    ∧ (given (query req !! "page") = false → f_page filters = 1)
    ∧ (given (query req !! "limit") = false → f_limit filters = 10)
    ∧ (query req !! "is_vip" = None → f_is_vip filters = vip_all)
    ∧ (query req !! "is_banned" = None → f_is_banned filters = ban_all)
    ∧ (query req !! "sortBy" = None → f_sortBy filters = by_created_at)
    ∧ (query req !! "sortOrder" = None → f_sortOrder filters = desc)
    ∧ (∀ v, query req !! "is_vip" = Some (QStr (vip_name v)) →
            f_is_vip filters = v)
    ∧ (∀ b, query req !! "is_banned" = Some (QStr (ban_name b)) →
            f_is_banned filters = b)
    ∧ (∀ c, query req !! "sortBy" = Some (QStr (column_of c)) →
            f_sortBy filters = c)
    ∧ (∀ o, query req !! "sortOrder" = Some (QStr (order_name o)) →
            f_sortOrder filters = o).
Proof.
  intros Hvalid _ _.
  destruct (filterUserSchema_cases req)
    as [(_ & filters & Hparse & Hname & Hphone & Hpage & Hlimit
         & Evip & Eban & Esort & Eorder)|(Hinvalid & _)]; [|contradiction].
  exists filters.
  pose proof (get_users_run req w) as Hrun. rewrite Hparse in Hrun.
  refine (conj Hrun (conj Hname (conj Hphone (conj Hpage (conj Hlimit _))))).
  repeat split.
  - intros Hgiven. rewrite Hpage. unfold number_or. rewrite Hgiven.
    reflexivity.
  - intros Hgiven. rewrite Hlimit. unfold number_or. rewrite Hgiven.
    reflexivity.
  - intros Hnone. rewrite Hnone in Evip. injection Evip as <-. reflexivity.
  - intros Hnone. rewrite Hnone in Eban. injection Eban as <-. reflexivity.
  - intros Hnone. rewrite Hnone in Esort. injection Esort as <-. reflexivity.
  - intros Hnone. rewrite Hnone in Eorder. injection Eorder as <-.
    reflexivity.
  - intros v Hv. rewrite Hv in Evip. destruct v; injection Evip as <-;
      reflexivity.
  - intros b Hb. rewrite Hb in Eban. destruct b; injection Eban as <-;
      reflexivity.
  - intros c Hc. rewrite Hc in Esort. destruct c; injection Esort as <-;
      reflexivity.
  - intros o Ho. rewrite Ho in Eorder. destruct o; injection Eorder as <-;
      reflexivity.
Qed.

End ListHandlerFacts.

Lemma get_users_rejects_invalid_query_witness :
  (∃ issue issues,
     get_users (request_of "" {[ "is_vip" := "yes" ]} ∅) (world_of five_users)
     = (respond_with 400 (ValidationMessage (issue :: issues)),
        world_of five_users))
  ∧ status (fst (get_users
                   {| params_id := "";
                      query := {[ "name" := QArr [QStr "a"; QStr "b"] ]};
                      body := ∅ |} (world_of five_users))) = 400.
Proof.
  split.
  - apply (get_users_rejects_invalid_query
             (request_of "" {[ "is_vip" := "yes" ]} ∅) (world_of five_users)).
    intros (_ & _ & Hvip & _). cbn [query request_of] in Hvip.
    rewrite map_fmap_singleton, lookup_singleton_eq in Hvip.
    cbn [enum_ok] in Hvip.
    repeat (apply elem_of_cons in Hvip as [Hvip|Hvip]; [discriminate|]).
    inversion Hvip.
  - apply (get_users_rejects_invalid_query
             {| params_id := "";
                query := {[ "name" := QArr [QStr "a"; QStr "b"] ]};
                body := ∅ |} (world_of five_users)) with (a := "a") (b := "b").
    apply lookup_singleton_eq.
Defined.

Lemma get_users_defaults_witness :
  ∃ filters,
    get_users (request_of "" {[ "page" := "2"; "is_banned" := "active" ]} ∅)
      (world_of five_users)
    = users_answer (getUsers filters (world_of five_users))
    ∧ f_page filters = 2 ∧ f_limit filters = 10
    ∧ f_is_banned filters = active.
Proof.
  destruct (get_users_defaults
              (request_of "" {[ "page" := "2"; "is_banned" := "active" ]} ∅)
              (world_of five_users))
    as (filters & Hrun & _ & _ & Hpage & Hlimit & _ & _ & _ & _ & _ & _
        & _ & Hban & _).
  - vm_compute. repeat split; try exact I; try (intros; discriminate).
    repeat constructor.
  - vm_compute. reflexivity.
  - vm_compute. reflexivity.
  - exists filters. split; [exact Hrun|]. split; [exact Hpage|].
    split; [exact Hlimit|]. apply Hban. reflexivity.
Defined.

(** ** Statuses and messages of the handlers *)

Section StatusFacts.
Context `{Platform}.

(** X3: every handler answers with status 200, 400, 404 or 500; 404 comes
    from the fetch of one user only, 400 from the three handlers that
    validate their input only, and a 500 carries the fixed message of its
    route, whatever the error was: the message of a database error is
    never sent to the client. *)
Theorem handler_statuses (route : Route) (req : Request) (w : World) :
  let res := fst (registerRoutes route req w) in
  (status res = 200 ∨ status res = 400 ∨ status res = 404 ∨ status res = 500)
  ∧ (status res = 500 → json res = Message (failure_message route))
  ∧ (status res = 404 →
       route = GET_user ∧ json res = Message "User not found")
  ∧ (status res = 400 →
       route = GET_users ∨ route = PUT_user ∨ route = POST_vip).
Proof.
  destruct route; cbn [registerRoutes failure_message];
    unfold get_users, get_user, put_user, post_ban, post_unban, post_vip,
      get_stats, get_activity, get_settings, put_settings, try_catch,
      validation_or, bind, lift, ret, parse, getSettings, updateSettings,
      read_settings, write_settings;
    repeat match goal with
           | |- context [match ?x with _ => _ end] =>
               lazymatch x with
               | context [match _ with _ => _ end] => fail
               | _ => destruct x eqn:?
               end
           end;
    cbn; repeat split; intros; try discriminate; auto 10.
Qed.

End StatusFacts.

(** ** The analytics handlers and database failures *)

Section AnalyticsFacts.
Context `{Platform}.

Lemma getUserStats_run (w : World) :
  Z.abs (now w - 7 * msPerDay) ≤ 8640000000000000 →
  let qs := stats_queries "users2" (now w - 7 * msPerDay) in
  ∃ total act ban vip new d,
    answers qs (db w) = ([total; act; ban; vip; new], d)
    ∧ getUserStats w
      = (Returned {| totalUsers := or_zero (count total);
                     activeUsers := or_zero (count act);
                     bannedUsers := or_zero (count ban);
                     vipUsers := or_zero (count vip);
                     newUsers := or_zero (count new) |},
         after w qs d).
Proof.
  intros Hclock qs. subst qs.
  unfold getUserStats, new_Date, bind, await, lift, ret, after, stats_queries,
    setDate_back.
  cbn [answers db settings now issued fst snd].
  unfold TimeClip. rewrite !decide_True by exact Hclock.
  cbn [toISOString db settings now issued fst snd].
  rewrite <- !app_assoc. cbn [app].
  do 6 eexists. split; reflexivity.
Qed.

(** X4: while the clock is a valid date the statistics handler always
    answers 200: no reply of the database makes it fail.  When none of the
    five replies carries a count, as when the database reports an error to
    each query, it answers 200 with five zeros. *)
Theorem get_stats_hides_failures (req : Request) (w : World) :
  Z.abs (now w - 7 * msPerDay) ≤ 8640000000000000 →
  (∃ stats, fst (get_stats req w) = respond (OfStats stats))
  ∧ (Forall (fun r => count r = None)
       (fst (answers (stats_queries "users2" (now w - 7 * msPerDay)) (db w))) →
     fst (get_stats req w)
     = respond (OfStats {| totalUsers := 0; activeUsers := 0; bannedUsers := 0;
                           vipUsers := 0; newUsers := 0 |})).
Proof.
  intros Hclock.
  destruct (getUserStats_run w Hclock)
    as (total & act & ban & vip & new & d & Hans & Hrun).
  unfold get_stats, try_catch, bind. rewrite Hrun. cbn [ret fst].
  split; [eexists; reflexivity|].
  rewrite Hans. cbn [fst]. intros Hnone.
  repeat match goal with
         | H : Forall _ (_ :: _) |- _ => apply Forall_cons in H as [? H]
         end.
  repeat match goal with H : count _ = None |- _ => rewrite H; clear H end.
  reflexivity.
Qed.

(** X5: the activity handler answers 500, without sending any query, when
    the [days] parameter does not start with a number; and it answers 200
    with an empty list when the reply to its query carries no data, as
    when the database cannot be reached. *)
Theorem get_activity_failures (req : Request) (w : World) :
  (requested_days req = NaN →
     get_activity req w
     = (respond_with 500 (Message "Failed to fetch user activity data"), w))
  ∧ (∀ n,
       requested_days req = Int n →
       0 ≤ n →
       first_day ≤ today w - n →
       today w ≤ last_day →
       let q := activity_query (now w - n * msPerDay) in
       data (fst (request q (db w))) = PNull →
       get_activity req w
       = (respond (OfActivity []), after w [q] (snd (request q (db w))))).
Proof.
  split.
  - intros Hnan. unfold get_activity, try_catch.
    fold (requested_days req). rewrite Hnan. reflexivity.
  - intros n Hdays Hn Hlo Hhi q Hdata.
    unfold get_activity, try_catch. fold (requested_days req). rewrite Hdays.
    unfold bind at 1.
    rewrite (getUserActivityTrend_null w n Hn Hlo Hhi Hdata). reflexivity.
Qed.

End AnalyticsFacts.

Lemma handler_statuses_witness :
  json (fst (registerRoutes POST_ban (request_of "nobody" ∅ ∅)
               (world_of five_users)))
  = Message "Failed to ban user".
Proof.
  apply (handler_statuses POST_ban (request_of "nobody" ∅ ∅)
           (world_of five_users)).
  reflexivity.
Defined.

Lemma get_stats_hides_failures_witness :
  fst (get_stats (request_of "" ∅ ∅) world_down)
  = respond (OfStats {| totalUsers := 0; activeUsers := 0; bannedUsers := 0;
                        vipUsers := 0; newUsers := 0 |}).
Proof.
  apply (get_stats_hides_failures (request_of "" ∅ ∅) world_down).
  - vm_compute. discriminate.
  - repeat constructor.
Defined.

Lemma get_activity_failures_witness :
  get_activity (request_of "" {[ "days" := "week" ]} ∅) (world_of five_users)
  = (respond_with 500 (Message "Failed to fetch user activity data"),
     world_of five_users)
  ∧ fst (get_activity (request_of "" {[ "days" := "7" ]} ∅) world_down)
    = respond (OfActivity []).
Proof.
  split.
  - apply (get_activity_failures
             (request_of "" {[ "days" := "week" ]} ∅) (world_of five_users)).
    reflexivity.
  - pose proof (get_activity_failures
                  (request_of "" {[ "days" := "7" ]} ∅) world_down)
      as [_ Hnull].
    rewrite (Hnull 7); [reflexivity|reflexivity|..].
    + vm_compute. discriminate.
    + vm_compute. discriminate.
    + vm_compute. discriminate.
    + reflexivity.
Defined.

(** ** The activity trend on any rows *)

Section TrendInvariant.
Context `{Platform}.

#[local] Existing Instances by_date_trans by_date_total.

Lemma get_or_zero_lookup (m : gmap Z Z) d :
  get_or_zero m d = default 0 (m !! d).
Proof.
  unfold get_or_zero, or_default. destruct (m !! d) as [c|]; [|reflexivity].
  cbn. destruct (decide (c = 0)) as [->|]; reflexivity.
Qed.

(** The map after the counting loop, from any map. *)
Lemma lookup_counted_any (users : list User) :
  Forall (fun u => is_Some (signup_day u)) users →
  ∀ (m : gmap Z Z) d,
    foldl count_signup m users !! d
    = match m !! d with
      | Some c => Some (c + signups_on d users)
      | None =>
          if decide (signups_on d users = 0) then None
          else Some (signups_on d users)
      end.
Proof.
  induction 1 as [|u users [du Hu] _ IH]; intros m d.
  - cbn. change (signups_on d []) with 0.
    destruct (m !! d); [f_equal; lia|reflexivity].
  - cbn [foldl]. rewrite IH, signups_on_cons. unfold count_signup. rewrite Hu.
    pose proof (signups_on_nonneg d users) as Hk.
    destruct (decide (du = d)) as [->|Hne].
    + rewrite lookup_insert_eq, decide_True by reflexivity.
      rewrite get_or_zero_lookup.
      destruct (m !! d) as [c|]; cbn.
      * f_equal; lia.
      * rewrite decide_False by lia. f_equal; lia.
    + rewrite lookup_insert_ne by exact Hne.
      destruct (decide (Some du = Some d)) as [[= ?]|_]; [contradiction|].
      rewrite Z.add_0_l. reflexivity.
Qed.

Lemma total_count_Permutation l l' : l ≡ₚ l' → total_count l = total_count l'.
Proof.
  unfold total_count. induction 1; cbn; lia.
Qed.

Lemma total_count_insert (m : gmap Z Z) d x :
  m !! d = None →
  total_count (entry_of <$> map_to_list (<[d := x]> m))
  = x + total_count (entry_of <$> map_to_list m).
Proof.
  intros Hnone.
  rewrite (total_count_Permutation _ (entry_of <$> ((d, x) :: map_to_list m))).
  - reflexivity.
  - apply fmap_Permutation. apply map_to_list_insert. exact Hnone.
Qed.

Lemma total_count_signup (m : gmap Z Z) u :
  is_Some (signup_day u) →
  total_count (entry_of <$> map_to_list (count_signup m u))
  = total_count (entry_of <$> map_to_list m) + 1.
Proof.
  intros [d Hd]. unfold count_signup. rewrite Hd, get_or_zero_lookup.
  destruct (m !! d) as [c|] eqn:Hm; cbn.
  - rewrite <- (insert_delete_id m d c Hm) at 2.
    rewrite <- insert_delete_eq.
    rewrite !total_count_insert by apply lookup_delete_eq. lia.
  - rewrite total_count_insert by exact Hm. lia.
Qed.

Lemma total_count_counted (users : list User) :
  Forall (fun u => is_Some (signup_day u)) users →
  ∀ m : gmap Z Z,
    total_count (entry_of <$> map_to_list (foldl count_signup m users))
    = total_count (entry_of <$> map_to_list m) + Z.of_nat (length users).
Proof.
  induction 1 as [|u users Hu _ IH]; intros m; cbn [foldl length].
  - lia.
  - rewrite IH, total_count_signup by exact Hu. lia.
Qed.

Lemma total_count_Forall_zero (l : list UserActivity) :
  Forall (fun e => userCount e = 0) l → total_count l = 0.
Proof.
  unfold total_count. induction 1 as [|e l He _ IH]; cbn; lia.
Qed.

Lemma total_count_zeros (m : gmap Z Z) :
  (∀ d c, m !! d = Some c → c = 0) →
  total_count (entry_of <$> map_to_list m) = 0.
Proof.
  intros Hzero. apply total_count_Forall_zero.
  apply Forall_fmap, Forall_forall. intros [d c] Hin.
  apply elem_of_map_to_list in Hin. cbn. eapply Hzero. exact Hin.
Qed.

Lemma strictly_sorted (l : list UserActivity) :
  Sorted by_date l →
  NoDup (date <$> l) →
  StronglySorted (fun a b => date a < date b) l.
Proof.
  intros Hs Hnd. apply Sorted_StronglySorted in Hs; [|apply _].
  induction Hs as [|a l Hl IH Ha]; [constructor|].
  cbn in Hnd. apply NoDup_cons in Hnd as [Hnotin Hnd].
  constructor; [apply IH; exact Hnd|].
  rewrite Forall_forall in Ha |- *. intros b Hb.
  specialize (Ha b Hb). unfold by_date in Ha.
  assert (date a ≠ date b); [|lia].
  intros Heq. apply Hnotin. rewrite Heq. apply list_elem_of_fmap_2. exact Hb.
Qed.

(** The run of the trend on rows with valid creation times. *)
Lemma getUserActivityTrend_any_rows (w : World) (n : Z) (users : list User) :
  let q := activity_query (now w - n * msPerDay) in
  first_day ≤ today w - n ≤ last_day →
  first_day ≤ today w ≤ last_day →
  data (fst (request q (db w))) = PRows users →
  Forall (fun u => is_Some (signup_day u)) users →
  ∃ m : gmap Z Z,
    (∀ d, m !! d = if decide (today w - n < d ≤ today w) then Some 0 else None)
    ∧ getUserActivityTrend (Some (Int n)) w
      = (Returned
           (merge_sort by_date
              (entry_of <$> map_to_list (foldl count_signup m users))),
         after w [q] (snd (request q (db w)))).
Proof.
  intros q Hsince Hnow Hdata Hsome. subst q.
  assert (∀ i, (0 ≤ i ≤ n ∨ i = 0 ∨ i = n) →
            TimeClip (now w - i * msPerDay) = Instant (now w - i * msPerDay))
    as Hclip.
  { intros i Hi. apply TimeClip_in_years. rewrite date_part_back.
    unfold today in *. lia. }
  exists (foldl (fun (m : gmap Z Z) i => <[today w - i := 0]> m) ∅ (seqZ 0 n)).
  split.
  { intros d. destruct (decide (0 ≤ n)) as [Hn|Hn].
    - rewrite <- (Z2Nat.id n) at 1 by exact Hn.
      rewrite lookup_initialized, Z2Nat.id by exact Hn. reflexivity.
    - rewrite seqZ_nil by lia. cbn [foldl]. rewrite lookup_empty.
      rewrite decide_False by lia. reflexivity. }
  unfold getUserActivityTrend. cbn [default from_option Datatypes.id].
  rewrite bind_new_Date. cbn [setDate_back]. rewrite Hclip by lia.
  cbn [toISOString]. rewrite bind_lift.
  fold (activity_query (now w - n * msPerDay)). rewrite bind_await.
  set (q := activity_query (now w - n * msPerDay)) in *.
  set (w2 := after w [q] (snd (request q (db w)))).
  rewrite Hdata.
  erewrite bind_returned; cycle 1.
  { apply (for_each_pure _ (fun (m : gmap Z Z) i => <[today w - i := 0]> m)).
    intros m i Hi. apply elem_of_seqZ in Hi.
    rewrite bind_new_Date. cbn [setDate_back now w2 after].
    rewrite Hclip by lia. cbn [toISOString]. rewrite bind_lift.
    rewrite date_part_back. reflexivity. }
  erewrite bind_returned; cycle 1.
  { apply (for_each_pure _ count_signup).
    intros m u Hu. rewrite Forall_forall in Hsome.
    destruct (Hsome u Hu) as (d & Hd).
    unfold count_signup. rewrite Hd. unfold signup_day in Hd.
    destruct (Date_of_column (created_at u)) as [|t]; [discriminate|].
    injection Hd as <-. reflexivity. }
  reflexivity.
Qed.

(** X6: whatever rows the database returns, as long as each was created
    within the years 0000 to 9999 (where the order of the date strings is
    the order of the days), and whatever the window, the trend is in
    strictly ascending order of date, has one entry for each day of the
    window and for each other day on which a returned row was created and
    no other entry, gives each day the number of the rows created that
    day, and so counts every returned row exactly once. *)
Theorem getUserActivityTrend_counts_every_row (w : World) (n : Z)
    (users : list User) :
  first_day ≤ today w - n ≤ last_day →
  first_day ≤ today w ≤ last_day →
  data (fst (request (activity_query (now w - n * msPerDay)) (db w)))
  = PRows users →
  Forall (fun u => ∃ d, signup_day u = Some d ∧ first_day ≤ d ≤ last_day)
    users →
  ∃ result,
    fst (getUserActivityTrend (Some (Int n)) w) = Returned result
    ∧ StronglySorted (fun a b => date a < date b) result
    ∧ (∀ e, e ∈ result → userCount e = signups_on (date e) users)
    ∧ (∀ d, (∃ e, e ∈ result ∧ date e = d)
            ↔ today w - n < d ≤ today w ∨ 0 < signups_on d users)
    ∧ total_count result = Z.of_nat (length users).
Proof.
  intros Hsince Hnow Hdata Hyears.
  assert (Forall (fun u => is_Some (signup_day u)) users) as Hsome.
  { eapply Forall_impl; [exact Hyears|]. intros u (d & -> & _). eauto. }
  destruct (getUserActivityTrend_any_rows w n users Hsince Hnow Hdata Hsome)
    as (m0 & Hm0 & Hrun).
  rewrite Hrun. cbn [fst]. eexists. split; [reflexivity|].
  set (m := foldl count_signup m0 users).
  assert (∀ d, m !! d
               = if decide (today w - n < d ≤ today w ∨ 0 < signups_on d users)
                 then Some (signups_on d users) else None) as Hm.
  { intros d. unfold m. rewrite lookup_counted_any by exact Hsome. rewrite Hm0.
    pose proof (signups_on_nonneg d users).
    destruct (decide (today w - n < d ≤ today w)).
    - rewrite decide_True by tauto. reflexivity.
    - destruct (decide (signups_on d users = 0)).
      + rewrite decide_False by lia. reflexivity.
      + rewrite decide_True by lia. reflexivity. }
  assert (∀ e, e ∈ merge_sort by_date (entry_of <$> map_to_list m)
               ↔ m !! date e = Some (userCount e)) as Hin.
  { intros e. rewrite merge_sort_Permutation, list_elem_of_fmap. split.
    - intros ([d c] & -> & Hdc). apply elem_of_map_to_list in Hdc. exact Hdc.
    - intros He. exists (date e, userCount e). split; [destruct e; reflexivity|].
      apply elem_of_map_to_list. exact He. }
  repeat split.
  - apply strictly_sorted; [apply Sorted_merge_sort; apply _|].
    rewrite merge_sort_Permutation, <- list_fmap_compose.
    apply (NoDup_fst_map_to_list m).
  - intros e He. apply Hin in He. rewrite Hm in He.
    destruct (decide _); [congruence|discriminate].
  - intros (e & He & <-). apply Hin in He. rewrite Hm in He.
    destruct (decide _); [assumption|discriminate].
  - intros Hd. exists {| date := d; userCount := signups_on d users |}.
    split; [|reflexivity]. apply Hin. cbn. rewrite Hm, decide_True by exact Hd.
    reflexivity.
  - rewrite (total_count_Permutation _ _ (merge_sort_Permutation _ _)).
    unfold m. rewrite total_count_counted by exact Hsome.
    rewrite total_count_zeros; [lia|].
    intros d c. rewrite Hm0. destruct (decide _); congruence.
Qed.

End TrendInvariant.

Lemma getUserActivityTrend_counts_every_row_witness :
  ∃ result,
    fst (getUserActivityTrend (Some (Int 7))
           (world_of [sample_user "a" (noon - 7 * msPerDay + 1000)]))
    = Returned result
    ∧ total_count result = 1.
Proof.
  destruct (getUserActivityTrend_counts_every_row
              (world_of [sample_user "a" (noon - 7 * msPerDay + 1000)]) 7
              [sample_user "a" (noon - 7 * msPerDay + 1000)])
    as (result & Hrun & _ & _ & _ & Htotal).
  - vm_compute. split; discriminate.
  - vm_compute. split; discriminate.
  - reflexivity.
  - constructor; [|constructor]. eexists. split; [reflexivity|].
    vm_compute. split; discriminate.
  - exists result. split; [exact Hrun|exact Htotal].
Defined.

(** ** Updates on the reference database *)

Section UpdateOnPg.

Implicit Types (rows : list User) (w : @World Pg.platform).

Lemma matching_id i v :
  Pg.matching [eq_text "id" i] v = bool_decide (id v = i).
Proof.
  unfold Pg.matching. cbn [forallb Pg.satisfies].
  change (Pg.text_column "id" v) with (Some (id v)).
  rewrite andb_true_r.
  destruct (String.eqb_spec (id v) i) as [Heq|Hne].
  - rewrite bool_decide_eq_true_2 by exact Heq. reflexivity.
  - rewrite bool_decide_eq_false_2 by exact Hne. reflexivity.
Qed.

Lemma filter_matching_id i rows :
  filter (fun v => Pg.matching [eq_text "id" i] v = true) rows
  = rows_with_id i rows.
Proof.
  unfold rows_with_id. apply list_filter_iff. intros v.
  rewrite matching_id. apply bool_decide_eq_true.
Qed.

Lemma fmap_matching_id i (f : User → User) rows :
  (fun v => if Pg.matching [eq_text "id" i] v then f v else v) <$> rows
  = update_row i f rows.
Proof.
  unfold update_row. apply list_fmap_ext. intros _ v _.
  rewrite matching_id. destruct (decide (id v = i)) as [Heq|Hne].
  - rewrite bool_decide_eq_true_2 by exact Heq. reflexivity.
  - rewrite bool_decide_eq_false_2 by exact Hne. reflexivity.
Qed.

Lemma merge_sort_short {A} (R : relation A) `{∀ x y, Decision (R x y)}
    {B} (l : list A) (none many : B) (f : A → B) :
  match merge_sort R l with
  | [] => none
  | [u] => f u
  | _ => many
  end
  = match l with
    | [] => none
    | [u] => f u
    | _ => many
    end.
Proof.
  pose proof (merge_sort_Permutation R l) as Hperm.
  destruct l as [|u [|u' l]].
  - apply Permutation_nil_r in Hperm. rewrite Hperm. reflexivity.
  - apply Permutation_singleton_r in Hperm. rewrite Hperm. reflexivity.
  - apply Permutation_length in Hperm.
    destruct (merge_sort R (u :: u' :: l)) as [|a [|b k]];
      [discriminate|discriminate|reflexivity].
Qed.

(** The identifier is kept by every update. *)
Lemma id_patch p v : id (Pg.patch p v) = id v.
Proof. reflexivity. Qed.

Lemma rows_with_id_update_row i j (f : User → User) rows :
  (∀ v, id (f v) = id v) →
  rows_with_id j (update_row i f rows) = update_row i f (rows_with_id j rows).
Proof.
  intros Hid. unfold rows_with_id, update_row.
  induction rows as [|v rows IH]; [reflexivity|].
  cbn [fmap list_fmap]. rewrite !filter_cons.
  assert (id (if decide (id v = i) then f v else v) = id v) as Hkeep.
  { destruct (decide (id v = i)); [apply Hid|reflexivity]. }
  rewrite Hkeep. destruct (decide (id v = j)); cbn [fmap list_fmap];
    rewrite <- IH; reflexivity.
Qed.

(** The reply to the single-row update of the rows with identifier [i]. *)
Lemma Pg_update_by_id i p rows (s : Pg.State) :
  Pg.reachable s = true →
  Pg.tables s !! "users2" = Some rows →
  Pg.acceptable p = true →
  Pg.run (update_query i p) s
  = match rows_with_id i rows with
    | [u] =>
        ({| data := PRow (Pg.patch p u); error := None; count := None |},
         {| Pg.reachable := Pg.reachable s;
            Pg.tables :=
              <["users2" := update_row i (Pg.patch p) rows]> (Pg.tables s) |})
    | _ =>
        (Pg.failure "PGRST116"
           "JSON object requested, multiple (or no) rows returned", s)
    end.
Proof.
  intros Hup Hrows Hok. unfold Pg.run. rewrite Hup. cbn [negb].
  cbn [from update_query as_single where_ table action single conditions app].
  rewrite Hrows, Hok. cbn [negb].
  unfold Pg.selected.
  cbn [from update_query as_single where_ table action single conditions app
       order].
  rewrite filter_matching_id, fmap_matching_id.
  rewrite (merge_sort_short (Pg.row_order None) (rows_with_id i rows) _ _
             (fun u => ({| data := PRow (Pg.patch p u); error := None;
                           count := None |}, _))).
  destruct (rows_with_id i rows) as [|u [|u' l]]; reflexivity.
Qed.

(** The reply to the fetch of the row with identifier [i]. *)
Lemma Pg_select_by_id i rows (s : Pg.State) :
  Pg.reachable s = true →
  Pg.tables s !! "users2" = Some rows →
  Pg.run (getUser_query i) s
  = match rows_with_id i rows with
    | [u] => ({| data := PRow u; error := None; count := None |}, s)
    | _ =>
        (Pg.failure "PGRST116"
           "JSON object requested, multiple (or no) rows returned", s)
    end.
Proof.
  intros Hup Hrows. unfold Pg.run. rewrite Hup. cbn [negb].
  cbn [from getUser_query as_single where_ table action single conditions app
       range].
  rewrite Hrows. unfold Pg.selected.
  cbn [from getUser_query as_single where_ table action single conditions app
       order Pg.slice].
  rewrite filter_matching_id.
  rewrite (merge_sort_short (Pg.row_order None) (rows_with_id i rows) _ _
             (fun u => ({| data := PRow u; error := None; count := None |}, _))).
  destruct (rows_with_id i rows) as [|u [|u' l]]; reflexivity.
Qed.

Lemma serving_after rows w qs :
  serving rows w → serving rows (after w qs (db w)).
Proof. intros Hs. exact Hs. Qed.

(** [updateUser] on the reference database, for an update object whose
    expiration needs no conversion. *)
Lemma updateUser_on_Pg i p rows w :
  serving rows w →
  plain_update p →
  updateUser i p w
  = match rows_with_id i rows with
    | [u] =>
        (Returned (PRow (Pg.patch p u)),
         after w [update_query i p]
           {| Pg.reachable := true;
              Pg.tables :=
                <["users2" := update_row i (Pg.patch p) rows]>
                  (Pg.tables (db w)) |})
    | _ =>
        (Thrown (Error ("Failed to update user: "
                        +:+ "JSON object requested, multiple (or no) rows returned")),
         after w [update_query i p] (db w))
    end.
Proof.
  intros [Hup Hrows] Hplain.
  assert (Pg.acceptable p = true) as Hok.
  { unfold Pg.acceptable, plain_update in *.
    destruct (u_expired_at p) as [[]|]; try contradiction; reflexivity. }
  pose proof (Pg_update_by_id i p rows (db w) Hup Hrows Hok) as Hrun.
  rewrite Hup in Hrun.
  unfold updateUser.
  assert (∀ k : UpdateUser → M Payload,
            bind match u_expired_at p with
                 | Some (EDate d) =>
                     iso <- lift (toISOString d) ;;
                     ret (set_expired_at (EIso iso) p)
                 | Some (EText s) =>
                     if decide (s = "") then ret (set_expired_at ENull p)
                     else ret p
                 | _ => ret p
                 end k w = k p w) as ->.
  { intros k. unfold plain_update in Hplain.
    destruct (u_expired_at p) as [[]|]; try contradiction; reflexivity. }
  fold (update_query i p). unfold bind, await.
  change (request (update_query i p) (db w))
    with (Pg.run (update_query i p) (db w)).
  rewrite Hrun.
  destruct (rows_with_id i rows) as [|u [|u' l]]; reflexivity.
Qed.

Lemma getUser_on_Pg i rows w :
  serving rows w →
  getUser i w
  = (match rows_with_id i rows with
     | [u] => Returned (PRow u)
     | _ => Returned PNull
     end,
     after w [getUser_query i] (db w)).
Proof.
  intros [Hup Hrows]. unfold getUser. fold (getUser_query i).
  unfold bind, await.
  change (request (getUser_query i) (db w))
    with (Pg.run (getUser_query i) (db w)).
  rewrite (Pg_select_by_id i rows (db w) Hup Hrows).
  destruct (rows_with_id i rows) as [|u [|u' l]]; reflexivity.
Qed.

Lemma rows_with_id_updated i (f : User → User) rows u :
  (∀ v, id (f v) = id v) →
  rows_with_id i rows = [u] →
  rows_with_id i (update_row i f rows) = [f u].
Proof.
  intros Hid Hu. rewrite rows_with_id_update_row by exact Hid. rewrite Hu.
  unfold update_row. cbn.
  assert (id u = i) as Hi.
  { assert (u ∈ rows_with_id i rows) as Hin by (rewrite Hu; left).
    apply list_elem_of_filter in Hin as [Hi _]. exact Hi. }
  rewrite decide_True by exact Hi. reflexivity.
Qed.

Lemma rows_with_id_others i j (f : User → User) rows :
  (∀ v, id (f v) = id v) →
  j ≠ i →
  rows_with_id j (update_row i f rows) = rows_with_id j rows.
Proof.
  intros Hid Hne. rewrite rows_with_id_update_row by exact Hid.
  unfold update_row, rows_with_id.
  rewrite <- (list_fmap_id (filter _ rows)) at 2.
  apply list_fmap_ext. intros k v Hv.
  apply list_elem_of_lookup_2 in Hv. apply list_elem_of_filter in Hv as [Hj _].
  rewrite decide_False by congruence. reflexivity.
Qed.

Lemma fetch_after_update i p rows u w :
  serving rows w →
  rows_with_id i rows = [u] →
  plain_update p →
  ∃ w1,
    updateUser i p w = (Returned (PRow (Pg.patch p u)), w1)
    ∧ id (Pg.patch p u) = i
    ∧ serving (update_row i (Pg.patch p) rows) w1
    ∧ fst (getUser i w1) = Returned (PRow (Pg.patch p u))
    ∧ (∀ j, j ≠ i →
         rows_with_id j (update_row i (Pg.patch p) rows) = rows_with_id j rows).
Proof.
  intros Hs Hu Hplain.
  rewrite (updateUser_on_Pg i p rows w Hs Hplain), Hu.
  eexists. split; [reflexivity|].
  assert (serving (update_row i (Pg.patch p) rows)
            (after w [update_query i p]
               {| Pg.reachable := true;
                  Pg.tables :=
                    <["users2" := update_row i (Pg.patch p) rows]>
                      (Pg.tables (db w)) |})) as Hs1.
  { split; [reflexivity|]. cbn. apply lookup_insert_eq. }
  split.
  { assert (u ∈ rows_with_id i rows) as Hin by (rewrite Hu; left).
    apply list_elem_of_filter in Hin as [Hi _]. exact Hi. }
  split; [exact Hs1|]. split.
  - rewrite (getUser_on_Pg i _ _ Hs1).
    rewrite (rows_with_id_updated i (Pg.patch p) rows u (id_patch p) Hu).
    reflexivity.
  - intros j Hne. apply rows_with_id_others; [apply id_patch|exact Hne].
Qed.


(** X8: on the reference database, banning a user with a unique
    identifier returns the row with its ban flag set and every other
    column as it was, the fetch of the user and the list of banned users
    then show it, and unbanning it afterwards clears the flag again: a
    user that was not banned is then as before. *)
Theorem ban_then_unban i rows u w :
  serving rows w →
  rows_with_id i rows = [u] →
  ∃ w1 w2,
    banUser i w = (Returned (PRow (set_banned true u)), w1)
    ∧ fst (getUser i w1) = Returned (PRow (set_banned true u))
    ∧ (∃ rows1, serving rows1 w1
                ∧ set_banned true u ∈ matching_rows banned_only rows1)
    ∧ unbanUser i w1 = (Returned (PRow (set_banned false u)), w2)
    ∧ fst (getUser i w2) = Returned (PRow (set_banned false u))
    ∧ (is_banned u = Some false →
         fst (getUser i w2) = fst (getUser i w)).
Proof.
  intros Hs Hu.
  set (ban := {| u_name := None; u_phone := None; u_imei := None;
                 u_is_vip := None; u_is_banned := Some true;
                 u_expired_at := None |}).
  set (unban := {| u_name := None; u_phone := None; u_imei := None;
                   u_is_vip := None; u_is_banned := Some false;
                   u_expired_at := None |}).
  destruct (fetch_after_update i ban rows u w Hs Hu I)
    as (w1 & Hban & _ & Hs1 & Hget1 & _).
  pose proof (rows_with_id_updated i (Pg.patch ban) rows u (id_patch ban) Hu)
    as Hu1.
  destruct (fetch_after_update i unban _ _ w1 Hs1 Hu1 I)
    as (w2 & Hunban & _ & Hs2 & Hget2 & _).
  exists w1, w2. split; [exact Hban|]. split; [exact Hget1|]. split.
  { eexists. split; [exact Hs1|].
    apply list_elem_of_filter. split; [reflexivity|].
    assert (u ∈ rows_with_id i rows) as Hin by (rewrite Hu; left).
    apply list_elem_of_filter in Hin as [Hi Hin].
    unfold update_row. apply list_elem_of_fmap.
    exists u. split; [|exact Hin]. rewrite decide_True by exact Hi. reflexivity. }
  split; [exact Hunban|]. split; [exact Hget2|].
  intros Hnot. rewrite Hget2, (getUser_on_Pg i rows w Hs), Hu. cbn [fst].
  destruct u. cbn in *. subst. reflexivity.
Qed.

(** X9: on the reference database, for an identifier no row has: the fetch
    handler answers 404, while ban, unban and VIP toggle answer 500, since
    the update of no row is reported as an error; the database is left as
    it was. *)
Theorem unknown_user_404_or_500 (req : Request) rows w :
  serving rows w →
  rows_with_id (params_id req) rows = [] →
  fst (get_user req w) = respond_with 404 (Message "User not found")
  ∧ fst (post_ban req w) = respond_with 500 (Message "Failed to ban user")
  ∧ fst (post_unban req w) = respond_with 500 (Message "Failed to unban user")
  ∧ (∀ b, body req !! "isVip" = Some (JBool b) →
       fst (post_vip req w)
       = respond_with 500 (Message "Failed to update VIP status"))
  ∧ db (snd (post_ban req w)) = db w
  ∧ db (snd (post_unban req w)) = db w
  ∧ db (snd (post_vip req w)) = db w.
Proof.
  intros Hs Hnone.
  assert (∀ p, plain_update p →
            updateUser (params_id req) p w
            = (Thrown (Error ("Failed to update user: "
                              +:+ "JSON object requested, multiple (or no) rows returned")),
               after w [update_query (params_id req) p] (db w))) as Hup.
  { intros p Hp. rewrite (updateUser_on_Pg _ p rows w Hs Hp), Hnone.
    reflexivity. }
  repeat split.
  - unfold get_user, try_catch, bind.
    rewrite (getUser_on_Pg _ rows w Hs), Hnone. reflexivity.
  - unfold post_ban, try_catch, bind, banUser. rewrite Hup by exact I.
    reflexivity.
  - unfold post_unban, try_catch, bind, unbanUser. rewrite Hup by exact I.
    reflexivity.
  - intros b Hb. unfold post_vip, try_catch, bind, setVipStatus. rewrite Hb.
    cbn [typeof_boolean]. rewrite Hup by exact I. reflexivity.
  - unfold post_ban, try_catch, bind, banUser. rewrite Hup by exact I.
    reflexivity.
  - unfold post_unban, try_catch, bind, unbanUser. rewrite Hup by exact I.
    reflexivity.
  - unfold post_vip, try_catch, bind, setVipStatus.
    destruct (typeof_boolean (body req !! "isVip")) as [b|]; [|reflexivity].
    rewrite Hup by exact I. reflexivity.
Qed.

Lemma update_row_twice i (f g : User → User) rows :
  (∀ v, id (g v) = id v) →
  update_row i f (update_row i g rows) = update_row i (f ∘ g) rows.
Proof.
  intros Hid. unfold update_row. rewrite <- list_fmap_compose.
  apply list_fmap_ext. intros k v _. cbn.
  destruct (decide (id v = i)) as [Hi|Hi].
  - rewrite decide_True by (rewrite Hid; exact Hi). reflexivity.
  - rewrite decide_False by exact Hi. reflexivity.
Qed.

(** X10: on the reference database, for a user with a unique identifier:
    the VIP toggle keeps the ban flag and the ban keeps the VIP flag, and
    the two in either order leave the same database, with both flags set as
    asked. *)
Theorem vip_and_ban_commute i b rows u w :
  serving rows w →
  rows_with_id i rows = [u] →
  ∃ wa wb,
    (_ <- banUser i ;; setVipStatus i b) w
    = (Returned (PRow (set_vip b (set_banned true u))), wa)
    ∧ (_ <- setVipStatus i b ;; banUser i) w
      = (Returned (PRow (set_vip b (set_banned true u))), wb)
    ∧ db wa = db wb
    ∧ serving (update_row i (fun v => set_vip b (set_banned true v)) rows) wa.
Proof.
  intros Hs Hu.
  set (ban := {| u_name := None; u_phone := None; u_imei := None;
                 u_is_vip := None; u_is_banned := Some true;
                 u_expired_at := None |}).
  set (vip := {| u_name := None; u_phone := None; u_imei := None;
                 u_is_vip := Some b; u_is_banned := None;
                 u_expired_at := None |}).
  pose proof (rows_with_id_updated i (Pg.patch ban) rows u (id_patch ban) Hu)
    as Hu1.
  pose proof (rows_with_id_updated i (Pg.patch vip) rows u (id_patch vip) Hu)
    as Hu2.
  assert (∀ p rows0 w0,
            serving rows0 w0 →
            serving (update_row i (Pg.patch p) rows0)
              (after w0 [update_query i p]
                 {| Pg.reachable := true;
                    Pg.tables :=
                      <["users2" := update_row i (Pg.patch p) rows0]>
                        (Pg.tables (db w0)) |})) as Hserve.
  { intros p rows0 w0 _. split; [reflexivity|]. cbn. apply lookup_insert_eq. }
  eexists _, _. split; [|split; [|split]].
  - unfold bind, banUser, setVipStatus. fold ban. fold vip.
    rewrite (updateUser_on_Pg i ban rows w Hs I), Hu.
    rewrite (updateUser_on_Pg i vip _ _ (Hserve ban rows w Hs) I), Hu1.
    reflexivity.
  - unfold bind, banUser, setVipStatus. fold ban. fold vip.
    rewrite (updateUser_on_Pg i vip rows w Hs I), Hu.
    rewrite (updateUser_on_Pg i ban _ _ (Hserve vip rows w Hs) I), Hu2.
    reflexivity.
  - cbn [db after Pg.tables]. f_equal.
    rewrite !insert_insert_eq. f_equal.
    rewrite !update_row_twice by apply id_patch.
    unfold update_row. apply list_fmap_ext. intros k v _.
    destruct (decide (id v = i)); reflexivity.
  - split; [reflexivity|]. cbn [db after Pg.tables].
    rewrite insert_insert_eq, lookup_insert_eq. f_equal.
    rewrite update_row_twice by apply id_patch.
    unfold update_row. apply list_fmap_ext. intros k v _.
    destruct (decide (id v = i)); reflexivity.
Qed.

End UpdateOnPg.

Lemma serving_five_users : serving five_users (world_of five_users).
Proof. split; reflexivity. Qed.


Lemma ban_then_unban_witness :
  ∃ w1,
    banUser "c" (world_of five_users)
    = (Returned (PRow (set_banned true (sample_user "c" (noon - 3)))), w1).
Proof.
  destruct (ban_then_unban "c" five_users (sample_user "c" (noon - 3))
              (world_of five_users) serving_five_users eq_refl)
    as (w1 & w2 & Hban & _).
  exists w1. exact Hban.
Defined.

Lemma unknown_user_404_or_500_witness :
  fst (get_user (request_of "zz" ∅ ∅) (world_of five_users))
  = respond_with 404 (Message "User not found")
  ∧ fst (post_ban (request_of "zz" ∅ ∅) (world_of five_users))
    = respond_with 500 (Message "Failed to ban user").
Proof.
  destruct (unknown_user_404_or_500 (request_of "zz" ∅ ∅) five_users
              (world_of five_users) serving_five_users eq_refl)
    as (Hget & Hban & _).
  split; [exact Hget|exact Hban].
Defined.

Lemma vip_and_ban_commute_witness :
  ∃ wa wb,
    (_ <- banUser "c" ;; setVipStatus "c" true) (world_of five_users)
    = (Returned (PRow (set_vip true
                         (set_banned true (sample_user "c" (noon - 3))))), wa)
    ∧ (_ <- setVipStatus "c" true ;; banUser "c") (world_of five_users)
      = (Returned (PRow (set_vip true
                           (set_banned true (sample_user "c" (noon - 3))))), wb)
    ∧ db wa = db wb.
Proof.
  destruct (vip_and_ban_commute "c" true five_users
              (sample_user "c" (noon - 3)) (world_of five_users)
              serving_five_users eq_refl)
    as (wa & wb & Ha & Hb & Hdb & _).
  exists wa, wb. split; [exact Ha|]. split; [exact Hb|exact Hdb].
Defined.

(** ** Settings: composing updates *)

Section SettingsAlgebra.
Context `{Platform}.

(** X11: two updates of the settings in a row are one update with the
    second object spread over the first, so the later value of a key wins;
    an update repeated changes nothing more, and the empty object changes
    nothing at all. *)
Theorem updateSettings_compose (a b : JsObject) (w : World) :
  (_ <- updateSettings a ;; updateSettings b) w = updateSettings (spread a b) w
  ∧ (_ <- updateSettings a ;; updateSettings a) w = updateSettings a w
  ∧ updateSettings ∅ w = (Returned (settings w), w).
Proof.
  unfold updateSettings, bind, read_settings, write_settings, spread. cbn.
  repeat split.
  - rewrite (assoc (∪)). reflexivity.
  - rewrite (assoc (∪)), (idemp (∪)). reflexivity.
  - rewrite (left_id ∅ (∪)). destruct w; reflexivity.
Qed.

End SettingsAlgebra.

(** ** The versions of the storage class *)

Section VersionFacts.
Context `{Platform}.

(** X12: the versions of the storage class agree where they overlap: the
    table-aware methods called without a table are the methods with the
    table fixed, and the first version's [updateUser], which does not
    convert the expiration, is the later one on every update object whose
    expiration is absent, [null] or an ISO timestamp, as in ban, unban and
    the VIP toggle. *)
Theorem storage_versions_agree :
  (∀ filters, getUsers_in None filters = getUsers filters)
  ∧ (∀ filters, getUsers_in (Some "users2") filters = getUsers filters)
  ∧ (∀ id, getUser_in None id = getUser id)
  ∧ (∀ id user, updateUser_in None id user = updateUser id user)
  ∧ (∀ id, banUser_in None id = banUser id)
  ∧ (∀ id, unbanUser_in None id = unbanUser id)
  ∧ (∀ id isVip, setVipStatus_in None id isVip = setVipStatus id isVip)
  ∧ (∀ id user w,
       plain_update user → updateUser_plain id user w = updateUser id user w).
Proof.
  repeat split; try reflexivity.
  intros id user w Hplain. unfold updateUser, updateUser_plain, plain_update in *.
  destruct (u_expired_at user) as [[]|]; try contradiction; reflexivity.
Qed.

Lemma on_table_ret {A} t (a : A) : on_table t (ret a).
Proof. intros w. exists []. rewrite app_nil_r. split; [reflexivity|constructor]. Qed.

Lemma on_table_throw {A} t (e : Exn) : on_table t (throw (A:=A) e).
Proof. intros w. exists []. rewrite app_nil_r. split; [reflexivity|constructor]. Qed.

Lemma on_table_lift {A} t (o : Outcome A) : on_table t (lift o).
Proof. intros w. exists []. rewrite app_nil_r. split; [reflexivity|constructor]. Qed.

Lemma on_table_await t (q : Query) : from q = t → on_table t (await q).
Proof.
  intros Hq w. exists [q]. split; [reflexivity|]. constructor; [exact Hq|constructor].
Qed.

Lemma on_table_bind {A B} t (m : M A) (k : A → M B) :
  on_table t m → (∀ a, on_table t (k a)) → on_table t (bind m k).
Proof.
  intros Hm Hk w. unfold bind.
  destruct (Hm w) as (qs & Hqs & Hall).
  destruct (m w) as [[a|e] w1]; simpl in *.
  - destruct (Hk a w1) as (qs' & Hqs' & Hall').
    exists (qs ++ qs'). rewrite Hqs', Hqs, app_assoc. split; [reflexivity|].
    apply Forall_app. split; assumption.
  - exists qs. split; assumption.
Qed.

Ltac on_table :=
  repeat first
    [ apply on_table_ret | apply on_table_throw | apply on_table_lift
    | apply on_table_await; reflexivity
    | apply on_table_bind; [|intros]
    | match goal with
      | |- on_table _ (match ?x with _ => _ end) => destruct x
      | |- on_table _ (if ?x then _ else _) => destruct x
      end ].

Lemma on_table_getUsers_in t filters :
  t ≠ "" → on_table t (getUsers_in (Some t) filters).
Proof.
  intros Ht. unfold getUsers_in.
  assert (or_users2 (Some t) = t) as ->.
  { unfold or_users2, truthy. apply String.eqb_neq in Ht. rewrite Ht.
    reflexivity. }
  apply on_table_bind.
  - apply on_table_await. cbn.
    destruct (truthy (f_name filters)), (truthy (f_phone filters)),
      (f_is_vip filters), (f_is_banned filters); reflexivity.
  - intros r. on_table.
Qed.

Lemma on_table_updateUser_in t id user :
  on_table t (updateUser_in (Some t) id user).
Proof. unfold updateUser_in. cbn [default from_option Datatypes.id]. on_table. Qed.

(** X13: a table-aware method that is given a table addresses that table
    and no other, the legacy table "users" as well as any; the list reads
    an empty table name as "users2", which the other methods do not. *)
Theorem table_aware_addresses_its_table (t : string) :
  (t ≠ "" → ∀ filters, on_table t (getUsers_in (Some t) filters))
  ∧ (∀ filters, on_table "users2" (getUsers_in (Some "") filters))
  ∧ (∀ id, on_table t (getUser_in (Some t) id))
  ∧ (∀ id user, on_table t (updateUser_in (Some t) id user))
  ∧ (∀ id, on_table t (banUser_in (Some t) id))
  ∧ (∀ id, on_table t (unbanUser_in (Some t) id))
  ∧ (∀ id isVip, on_table t (setVipStatus_in (Some t) id isVip)).
Proof.
  repeat split.
  - intros Ht filters. apply on_table_getUsers_in. exact Ht.
  - intros filters. unfold getUsers_in.
    change (or_users2 (Some "")) with "users2".
    apply on_table_bind.
    + apply on_table_await. cbn.
      destruct (truthy (f_name filters)), (truthy (f_phone filters)),
        (f_is_vip filters), (f_is_banned filters); reflexivity.
    + intros r. on_table.
  - intros id. unfold getUser_in. cbn [default from_option Datatypes.id].
    on_table.
  - intros. apply on_table_updateUser_in.
  - intros. apply on_table_updateUser_in.
  - intros. apply on_table_updateUser_in.
  - intros. apply on_table_updateUser_in.
Qed.

End VersionFacts.

Lemma updateSettings_compose_witness :
  settings (snd ((_ <- updateSettings {[ "appVersion" := JStr "1.1.0" ]} ;;
                 updateSettings {[ "appVersion" := JStr "1.2.0" ]})
                  (world_of []))) !! "appVersion"
  = Some (JStr "1.2.0").
Proof.
  destruct (updateSettings_compose {[ "appVersion" := JStr "1.1.0" ]}
              {[ "appVersion" := JStr "1.2.0" ]} (world_of [])) as [Hseq _].
  rewrite Hseq. reflexivity.
Defined.

Lemma storage_versions_agree_witness :
  updateUser_plain "c"
    {| u_name := None; u_phone := None; u_imei := None; u_is_vip := None;
       u_is_banned := Some true; u_expired_at := None |}
    (world_of five_users)
  = banUser "c" (world_of five_users).
Proof.
  destruct storage_versions_agree as (_ & _ & _ & _ & _ & _ & _ & Hplain).
  apply Hplain. exact I.
Defined.

Lemma table_aware_addresses_its_table_witness :
  ∃ qs,
    issued (snd (getUser_in (Some "users") "c" (world_of five_users))) = [] ++ qs
    ∧ Forall (fun q => from q = "users") qs.
Proof.
  destruct (table_aware_addresses_its_table "users") as (_ & _ & Hget & _).
  exact (Hget "c" (world_of five_users)).
Defined.

(** * Properties of the client *)

(** ** Pagination *)

Lemma ceil_div_tight a b : 0 < b → (ceil_div a b - 1) * b < a.
Proof.
  intros Hb. unfold ceil_div.
  pose proof (Z.mul_succ_div_gt (- a) b Hb). nia.
Qed.

(** X14: for a count of at least zero and a page size of at least one,
    the number of pages is at least one and is the least number of pages
    that holds all items; [goToPage] lands within the pages whatever page
    is asked and keeps a page that is within; [nextPage] and [prevPage]
    stay within the pages and undo each other away from the ends. *)
Theorem pagination_stays_in_range (totalItems itemsPerPage : Z) :
  0 ≤ totalItems →
  1 ≤ itemsPerPage →
  let pages := totalPages totalItems itemsPerPage in
  1 ≤ pages
  ∧ totalItems ≤ pages * itemsPerPage
  ∧ (0 < totalItems → (pages - 1) * itemsPerPage < totalItems)
  ∧ (∀ page, 1 ≤ goToPage totalItems itemsPerPage page ≤ pages)
  ∧ (∀ page, 1 ≤ page ≤ pages → goToPage totalItems itemsPerPage page = page)
  ∧ (∀ c, 1 ≤ c ≤ pages →
       1 ≤ nextPage totalItems itemsPerPage c ≤ pages
       ∧ 1 ≤ prevPage c ≤ pages)
  ∧ (∀ c, 1 ≤ c < pages → prevPage (nextPage totalItems itemsPerPage c) = c)
  ∧ (∀ c, 1 < c ≤ pages → nextPage totalItems itemsPerPage (prevPage c) = c).
Proof.
  intros Hitems Hsize pages.
  pose proof (ceil_div_bound totalItems itemsPerPage) as Hup.
  pose proof (ceil_div_tight totalItems itemsPerPage) as Hlow.
  assert (pages = Z.max 1 (ceil_div totalItems itemsPerPage)) as Hpages
    by reflexivity.
  unfold goToPage, nextPage, prevPage. fold pages.
  repeat split; intros; repeat case_decide; try lia; try nia.
Qed.

Lemma page_numbers_small (n : nat) :
  page_numbers (Page <$> seqZ 2 (Z.of_nat n)) = seqZ 2 (Z.of_nat n).
Proof.
  unfold page_numbers. induction (seqZ 2 (Z.of_nat n)) as [|x l IH];
    [reflexivity|]. cbn. rewrite IH. reflexivity.
Qed.

Lemma StronglySorted_seqZ (m : Z) (n : nat) :
  StronglySorted Z.lt (seqZ m (Z.of_nat n)).
Proof.
  revert m. induction n as [|n IH]; intros m; [constructor|].
  rewrite seqZ_cons by lia.
  replace (Z.pred (Z.of_nat (S n))) with (Z.of_nat n) by lia.
  constructor; [apply IH|]. apply Forall_forall. intros x Hx.
  apply elem_of_seqZ in Hx. lia.
Qed.

(** X15: for a current page within the pages, the page range starts with
    page 1, ends with the last page, shows the current page, lists page
    numbers within the pages in strictly ascending order (none twice), and
    has at most seven items; up to five pages are all listed. *)
Theorem page_range_shows_current (pages c : Z) :
  1 ≤ c ≤ pages →
  let range := getPageRange pages c in
  head range = Some (Page 1)
  ∧ last range = Some (Page pages)
  ∧ Page c ∈ range
  ∧ StronglySorted Z.lt (page_numbers range)
  ∧ Forall (fun n => 1 ≤ n ≤ pages) (page_numbers range)
  ∧ (length range ≤ 7)%nat
  ∧ (pages ≤ 5 → range = Page <$> seqZ 1 pages).
Proof.
  intros Hc range. subst range. unfold getPageRange.
  destruct (decide (pages ≤ 5)) as [Hsmall|Hlarge].
  - assert (pages = 1 ∨ pages = 2 ∨ pages = 3 ∨ pages = 4 ∨ pages = 5)
      as Hcases by lia.
    assert (c = 1 ∨ c = 2 ∨ c = 3 ∨ c = 4 ∨ c = 5) as Hc' by lia.
    destruct Hcases as [-> | [-> | [-> | [-> | ->]]]];
      match goal with
      | |- context [[Page 1] ++ ?l] =>
          let v := eval vm_compute in l in change l with v
      end;
      (refine (conj _ (conj _ (conj _ (conj _ (conj _ (conj _ _))))));
       [reflexivity|reflexivity| |cbn; repeat constructor; lia
       |cbn; repeat constructor; lia|cbn; lia|reflexivity]);
      destruct Hc' as [-> | [-> | [-> | [-> | ->]]]]; try lia;
      cbn; repeat first [apply list_elem_of_here | apply list_elem_of_further].
  - destruct (decide (c ≤ 3)); [|destruct (decide (c >= pages - 2))];
      (refine (conj _ (conj _ (conj _ (conj _ (conj _ (conj _ _))))));
       [reflexivity|reflexivity| |cbn; repeat constructor; lia
       |cbn; repeat constructor; lia|cbn; lia|lia]).
    + assert (c = 1 ∨ c = 2 ∨ c = 3) as [-> | [-> | ->]] by lia;
        cbn; repeat first [apply list_elem_of_here | apply list_elem_of_further].
    + assert (c = pages - 2 ∨ c = pages - 1 ∨ c = pages)
        as [-> | [-> | ->]] by lia; cbn; repeat first [apply list_elem_of_here | apply list_elem_of_further].
    + cbn. repeat first [apply list_elem_of_here | apply list_elem_of_further].
Qed.

(** X16: on the reference database, for a page within the pages that the
    count gives, the rows the server returns for the page are as many as
    the index range of the hook holds, from [startIndex] to [endIndex],
    and [startIndex] is the first row the server requests; the footer of
    the table then shows the positions of the first and the last row of
    the page, and "0 to 0" for an empty list. *)
Theorem page_rows_match_index_range filters rows (w : @World Pg.platform) :
  serving rows w →
  1 ≤ limit_of filters →
  let total := Z.of_nat (length (matching_rows filters rows)) in
  1 ≤ page_of filters ≤ totalPages total (limit_of filters) →
  ∃ us,
    fst (getUsers filters w)
    = Returned {| result_data := PRows us; result_count := total |}
    ∧ Z.of_nat (length us)
      = endIndex total (limit_of filters) (page_of filters)
        - startIndex (limit_of filters) (page_of filters) + 1
    ∧ range (users_query filters)
      = Some (startIndex (limit_of filters) (page_of filters),
              startIndex (limit_of filters) (page_of filters)
              + limit_of filters - 1)
    ∧ showing total (limit_of filters) (page_of filters)
      = (if decide (total = 0) then 0
         else startIndex (limit_of filters) (page_of filters) + 1,
         startIndex (limit_of filters) (page_of filters)
         + Z.of_nat (length us)).
Proof.
  intros [Hup Hrows] Hlimit total Hpage.
  rewrite (getUsers_on_Pg filters rows w Hup Hrows). cbn [fst].
  assert (length (listed filters rows) = length (matching_rows filters rows))
    as Hlen by apply Permutation_length, listed_Permutation.
  eexists. split; [rewrite Hlen; reflexivity|].
  assert (Z.of_nat
            (length (take (Z.to_nat (limit_of filters))
                       (drop (Z.to_nat ((page_of filters - 1) * limit_of filters))
                          (listed filters rows))))
          = endIndex total (limit_of filters) (page_of filters)
            - startIndex (limit_of filters) (page_of filters) + 1) as Hrange.
  { rewrite length_take, length_drop, Hlen. unfold endIndex, startIndex.
    fold total.
    pose proof (ceil_div_tight total (limit_of filters)) as Hlow.
    unfold totalPages in Hpage. nia. }
  split; [exact Hrange|]. split.
  - unfold users_query, startIndex. cbn. f_equal. f_equal. ring.
  - unfold showing. rewrite Hrange. f_equal. unfold endIndex. lia.
Qed.

Lemma pagination_stays_in_range_witness :
  totalPages 23 10 = 3 ∧ goToPage 23 10 7 = 3 ∧ goToPage 23 10 (-2) = 1.
Proof.
  pose proof (pagination_stays_in_range 23 10) as Hthm.
  cbv zeta in Hthm.
  destruct Hthm as (_ & Hup & Hlow & Hgo & _); [lia|lia|].
  specialize (Hlow ltac:(lia)).
  pose proof (Hgo 7). pose proof (Hgo (-2)).
  assert (totalPages 23 10 = 3) as Hp by lia.
  rewrite Hp in *. unfold goToPage in *. rewrite Hp in *. lia.
Defined.

Lemma page_range_shows_current_witness :
  getPageRange 9 5
  = [Page 1; Dots; Page 4; Page 5; Page 6; Dots; Page 9]
  ∧ Page 5 ∈ getPageRange 9 5.
Proof.
  split; [reflexivity|].
  apply (page_range_shows_current 9 5). lia.
Defined.

Lemma page_rows_match_index_range_witness :
  ∃ us,
    fst (getUsers second_page_of_two (world_of five_users))
    = Returned {| result_data := PRows us;
                  result_count :=
                    Z.of_nat (length (matching_rows second_page_of_two
                                        five_users)) |}
    ∧ Z.of_nat (length us) = 2.
Proof.
  destruct (page_rows_match_index_range second_page_of_two five_users
              (world_of five_users) serving_five_users)
    as (us & Hrun & Hlen & _).
  - vm_compute. discriminate.
  - vm_compute. split; discriminate.
  - exists us. split; [exact Hrun|]. rewrite Hlen. reflexivity.
Defined.

(** ** The dashboard and the list handler *)

Lemma digit_value_digit_char d :
  0 ≤ d < 10 → digit_value (digit_char d) = Some d.
Proof.
  intros Hd.
  assert (d = 0 ∨ d = 1 ∨ d = 2 ∨ d = 3 ∨ d = 4 ∨ d = 5 ∨ d = 6 ∨ d = 7
          ∨ d = 8 ∨ d = 9) as Hcases by lia.
  repeat destruct Hcases as [-> | Hcases]; try subst d; reflexivity.
Qed.

Lemma is_digit_digit_char d : 0 ≤ d < 10 → is_digit (digit_char d) = true.
Proof.
  intros Hd.
  assert (d = 0 ∨ d = 1 ∨ d = 2 ∨ d = 3 ∨ d = 4 ∨ d = 5 ∨ d = 6 ∨ d = 7
          ∨ d = 8 ∨ d = 9) as Hcases by lia.
  repeat destruct Hcases as [-> | Hcases]; try subst d; reflexivity.
Qed.

Lemma log2_tenth n : 10 ≤ n → Z.log2 (n / 10) < Z.log2 n.
Proof.
  intros Hn.
  assert (0 < n / 10) as Hpos by (apply Z.div_str_pos; lia).
  apply Z.log2_lt_pow2; [exact Hpos|].
  pose proof (Z.log2_spec n ltac:(lia)) as [_ Hhigh].
  rewrite Z.pow_succ_r in Hhigh by apply Z.log2_nonneg.
  pose proof (Z.div_mod n 10 ltac:(lia)) as Hdm.
  pose proof (Z.mod_pos_bound n 10 ltac:(lia)).
  lia.
Qed.

Lemma digits_decimal fuel :
  ∀ n, 0 ≤ n → Z.log2 n < Z.of_nat fuel →
    ∃ k, ∀ acc rest,
      digits 10 acc (decimal fuel n rest)
      = digits 10 (Some (default 0 acc * k + n)) rest.
Proof.
  induction fuel as [|fuel IH]; intros n Hn Hfuel.
  - pose proof (Z.log2_nonneg n). lia.
  - cbn [decimal]. destruct (decide (n < 10)) as [Hsmall|Hlarge].
    + exists 10. intros acc rest. cbn [digits].
      rewrite Z.mod_small by lia.
      rewrite digit_value_digit_char by lia.
      rewrite decide_True by lia. reflexivity.
    + destruct (IH (n / 10)) as [k Hk].
      * apply Z.div_pos; lia.
      * pose proof (log2_tenth n ltac:(lia)). lia.
      * exists (k * 10). intros acc rest. rewrite Hk. cbn [digits].
        pose proof (Z.mod_pos_bound n 10 ltac:(lia)).
        rewrite digit_value_digit_char by lia.
        rewrite decide_True by lia.
        cbn [default from_option Datatypes.id].
        pose proof (Z.div_mod n 10 ltac:(lia)).
        do 2 f_equal. lia.
Qed.

Lemma all_digits_decimal fuel :
  ∀ n rest, 0 ≤ n → all_digits rest = true →
    all_digits (decimal fuel n rest) = true.
Proof.
  induction fuel as [|fuel IH]; intros n rest Hn Hrest; [exact Hrest|].
  cbn [decimal].
  assert (all_digits (String (digit_char (n mod 10)) rest) = true) as Hnext.
  { cbn [all_digits]. rewrite is_digit_digit_char, Hrest; [reflexivity|].
    apply Z.mod_pos_bound. lia. }
  destruct (decide (n < 10)); [exact Hnext|].
  apply IH; [apply Z.div_pos; lia|exact Hnext].
Qed.

Lemma decimal_not_empty fuel :
  ∀ n rest, rest ≠ "" → decimal fuel n rest ≠ "".
Proof.
  induction fuel as [|fuel IH]; intros n rest Hrest; [exact Hrest|].
  cbn [decimal]. destruct (decide (n < 10)); [discriminate|].
  apply IH. discriminate.
Qed.

Lemma decimal_S_not_empty fuel n rest : decimal (S fuel) n rest ≠ "".
Proof.
  cbn [decimal]. destruct (decide (n < 10)); [discriminate|].
  apply decimal_not_empty. discriminate.
Qed.

Ltac digit_cases c H :=
  destruct c as [[] [] [] [] [] [] [] []]; try discriminate H.

Lemma parseInt_all_digits s :
  s ≠ "" → all_digits s = true →
  parseInt s
  = match digits 10 None s with Some n => Int n | None => NaN end
  ∧ parseInt (String "-" s)
    = match digits 10 None s with Some n => Int (- n) | None => NaN end.
Proof.
  intros Hs Hall. destruct s as [|c s]; [congruence|].
  cbn [all_digits] in Hall. apply andb_prop in Hall as [Hc Hall].
  destruct s as [|c' s].
  - digit_cases c Hc; split; reflexivity.
  - cbn [all_digits] in Hall. apply andb_prop in Hall as [Hc' Hall].
    digit_cases c Hc; try (split; reflexivity);
      digit_cases c' Hc'; split; reflexivity.
Qed.

Lemma parseInt_toString n : parseInt (toString n) = Int n.
Proof.
  unfold toString. destruct (decide (n < 0)) as [Hneg|Hpos].
  - destruct (parseInt_all_digits
                (decimal (S (Z.to_nat (Z.log2 (- n)))) (- n) ""))
      as [_ ->].
    + apply decimal_S_not_empty.
    + apply all_digits_decimal; [lia|reflexivity].
    + destruct (digits_decimal (S (Z.to_nat (Z.log2 (- n)))) (- n))
        as [k Hk]; [lia| |].
      * pose proof (Z.log2_nonneg (- n)). lia.
      * rewrite Hk. cbn. f_equal. lia.
  - destruct (parseInt_all_digits
                (decimal (S (Z.to_nat (Z.log2 n))) n ""))
      as [-> _].
    + apply decimal_S_not_empty.
    + apply all_digits_decimal; [lia|reflexivity].
    + destruct (digits_decimal (S (Z.to_nat (Z.log2 n))) n)
        as [k Hk]; [lia| |].
      * pose proof (Z.log2_nonneg n). lia.
      * rewrite Hk. cbn. reflexivity.
Qed.

Lemma truthy_toString n : truthy (Some (toString n)) = true.
Proof.
  unfold toString, truthy. destruct (decide (n < 0)); [reflexivity|].
  pose proof (decimal_S_not_empty (Z.to_nat (Z.log2 n)) n "") as Hne.
  destruct (decimal _ _ _); [congruence|reflexivity].
Qed.

Lemma lookup_append_if_ne c k v q k' :
  k ≠ k' → append_if c k v q !! k' = q !! k'.
Proof.
  intros Hne. unfold append_if. destruct c; [|reflexivity].
  apply lookup_insert_ne. exact Hne.
Qed.

Lemma lookup_append_if c k v q :
  append_if c k v q !! k = if c then Some v else q !! k.
Proof. unfold append_if. destruct c; [apply lookup_insert_eq|reflexivity]. Qed.

Ltac lookup_appended :=
  unfold queryParams; cbv zeta;
  repeat (rewrite lookup_append_if_ne by discriminate);
  rewrite lookup_append_if;
  repeat (rewrite lookup_append_if_ne by discriminate);
  rewrite ?lookup_empty; reflexivity.

Lemma queryParams_name filters :
  queryParams filters !! "name"
  = if truthy (f_name (d_params filters))
    then Some (default "" (f_name (d_params filters))) else None.
Proof. lookup_appended. Qed.

Lemma queryParams_phone filters :
  queryParams filters !! "phone"
  = if truthy (f_phone (d_params filters))
    then Some (default "" (f_phone (d_params filters))) else None.
Proof. lookup_appended. Qed.

Lemma queryParams_is_vip filters :
  queryParams filters !! "is_vip"
  = if negb (bool_decide (f_is_vip (d_params filters) = vip_all))
    then Some (vip_name (f_is_vip (d_params filters))) else None.
Proof. lookup_appended. Qed.

Lemma queryParams_is_banned filters :
  queryParams filters !! "is_banned"
  = if negb (bool_decide (f_is_banned (d_params filters) = ban_all))
    then Some (ban_name (f_is_banned (d_params filters))) else None.
Proof. lookup_appended. Qed.

Lemma queryParams_sortBy filters :
  queryParams filters !! "sortBy"
  = if truthy (Some (column_of (f_sortBy (d_params filters))))
    then Some (column_of (f_sortBy (d_params filters))) else None.
Proof. lookup_appended. Qed.

Lemma queryParams_sortOrder filters :
  queryParams filters !! "sortOrder"
  = if truthy (Some (order_name (f_sortOrder (d_params filters))))
    then Some (order_name (f_sortOrder (d_params filters))) else None.
Proof. lookup_appended. Qed.

Lemma queryParams_page filters :
  queryParams filters !! "page"
  = if negb (bool_decide (f_page (d_params filters) = 0))
    then Some (toString (f_page (d_params filters))) else None.
Proof. lookup_appended. Qed.

Lemma queryParams_limit filters :
  queryParams filters !! "limit"
  = if negb (bool_decide (f_limit (d_params filters) = 0))
    then Some (toString (f_limit (d_params filters))) else None.
Proof. lookup_appended. Qed.

Lemma number_parsed key d n :
  z_number key d
    (optional_int (QStr <$> (if negb (bool_decide (n = 0))
                             then Some (toString n) else None)))
  = inr (or_default n d).
Proof.
  unfold or_default, optional_int. case_bool_decide as Hn; cbn [negb].
  - rewrite decide_True by exact Hn. reflexivity.
  - rewrite decide_False by exact Hn.
    cbn [fmap option_fmap option_map given text_of String_of].
    pose proof (truthy_toString n) as Htruthy. cbn [truthy] in Htruthy.
    rewrite Htruthy, parseInt_toString. reflexivity.
Qed.

Lemma string_parsed key (n : option string) :
  z_query_string key
    (QStr <$> (if truthy n then Some (default "" n) else None))
  = inr (if truthy n then Some (default "" n) else None).
Proof. destruct (truthy n); reflexivity. Qed.

Section DashboardFacts.
Context `{Platform}.

Lemma get_users_accepted req filters w :
  filterUserSchema (list_input req) = inr filters →
  get_users req w = users_answer (getUsers filters w).
Proof.
  intros Hparse.
  unfold get_users, try_catch, bind, lift at 1, parse. fold (list_input req).
  rewrite Hparse.
  pose proof (getUsers_throws filters w) as Hthrow. unfold users_answer.
  destruct (getUsers filters w) as [[r|e] w']; [reflexivity|]. cbn in *.
  destruct e; try reflexivity. exfalso. eapply Hthrow; reflexivity.
Qed.

Lemma getUsers_effective p : getUsers (effective p) = getUsers p.
Proof.
  unfold getUsers, effective.
  cbn [f_name f_phone f_is_vip f_is_banned f_sortBy f_sortOrder f_page f_limit].
  assert (∀ n d, d ≠ 0 → or_default (or_default n d) d = or_default n d)
    as Hor.
  { intros n d Hd. unfold or_default. repeat case_decide; congruence. }
  rewrite !Hor by discriminate.
  destruct (f_name p) as [[|c n]|], (f_phone p) as [[|c' n']|]; reflexivity.
Qed.

Lemma dashboard_query_parsed filters :
  filterUserSchema (list_input (request_of "" (queryParams filters) ∅))
  = inr (effective (d_params filters)).
Proof.
  unfold filterUserSchema, list_input. cbn [query request_of].
  rewrite !lookup_fmap.
  rewrite queryParams_name, queryParams_phone, queryParams_is_vip,
    queryParams_is_banned, queryParams_sortBy, queryParams_sortOrder,
    queryParams_page, queryParams_limit.
  cbn [i_name i_phone i_is_vip i_is_banned i_sortBy i_sortOrder i_page
       i_limit].
  rewrite !number_parsed, !string_parsed.
  unfold effective.
  destruct (f_is_vip (d_params filters)), (f_is_banned (d_params filters)),
    (f_sortBy (d_params filters)), (f_sortOrder (d_params filters));
    reflexivity.
Qed.

(** X17: the list handler accepts what the dashboard sends, whatever
    filters the page holds with a page and a limit that are safe integers
    (which print as decimal digits), and hands the storage filters that act
    as the page's own: the query string the dashboard builds is valid, and
    the answer is the one the storage call gives for the page's filters (an
    empty name or phone and a zero page or limit are left out by the page
    and defaulted by the server to what the storage does with them). *)
Theorem dashboard_query_round_trip (filters : DashboardFilters) (w : World) :
  safe_integer (f_page (d_params filters)) →
  safe_integer (f_limit (d_params filters)) →
  valid_list_query (query (request_of "" (queryParams filters) ∅))
  ∧ get_users (request_of "" (queryParams filters) ∅) w
    = users_answer (getUsers (d_params filters) w).
Proof.
  intros _ _. pose proof (dashboard_query_parsed filters) as Hparse. split.
  - destruct (filterUserSchema_cases
                (request_of "" (queryParams filters) ∅))
      as [[Hvalid _]|(_ & issue & issues & Hrejected)]; [exact Hvalid|].
    rewrite Hparse in Hrejected. discriminate.
  - rewrite (get_users_accepted _ _ w Hparse), getUsers_effective.
    reflexivity.
Qed.

End DashboardFacts.

(** X18: a filter change leaves the dashboard on a page that is not
    zero, on page 1 unless the change names a page; it forgets an earlier
    page change and is idempotent; what the filter bar sends sets name,
    phone, the two status filters and the sort column, puts the page back
    to 1 and keeps sort order, limit and table; a page change touches the
    page only. *)
Theorem filter_change_resets_page (change : FilterChange)
    (prev : DashboardFilters) :
  let next := handleFilterChange change prev in
  f_page (d_params next) ≠ 0
  ∧ (c_page change = None ∨ c_page change = Some 0 →
       f_page (d_params next) = 1)
  ∧ (∀ page, handleFilterChange change (handlePageChange page prev) = next)
  ∧ handleFilterChange change next = next
  ∧ (∀ name phone vip ban sortBy,
       handleFilterChange (filter_bar name phone vip ban sortBy) prev
       = {| d_params :=
              {| f_name := Some name; f_phone := Some phone;
                 f_is_vip := vip; f_is_banned := ban; f_sortBy := sortBy;
                 f_sortOrder := f_sortOrder (d_params prev);
                 f_page := 1;
                 f_limit := f_limit (d_params prev) |};
            d_table := d_table prev |})
  ∧ (∀ page,
       f_page (d_params (handlePageChange page prev)) = page
       ∧ handleFilterChange
           {| c_name := None; c_phone := None; c_is_vip := None;
              c_is_banned := None; c_sortBy := None; c_sortOrder := None;
              c_page := Some (or_default page 1); c_limit := None;
              c_table := None |} prev
         = handlePageChange (or_default page 1) prev).
Proof.
  intros next. subst next.
  destruct change as [n ph v b sb so pg l t], prev as [[] tbl].
  unfold handleFilterChange, handlePageChange. cbn.
  refine (conj _ (conj _ (conj _ (conj _ (conj _ _))))).
  - destruct pg as [page|]; [|discriminate].
    unfold or_default. case_decide; [discriminate|assumption].
  - intros [-> | ->]; reflexivity.
  - reflexivity.
  - destruct n, ph, v, b, sb, so, pg as [page|], l, t; cbn;
      try reflexivity;
      unfold or_default; repeat case_decide; try reflexivity; congruence.
  - reflexivity.
  - intros page. split; [reflexivity|].
    unfold or_default. repeat case_decide; try reflexivity; congruence.
Qed.

Lemma dashboard_query_round_trip_witness :
  queryParams initial_filters
  = {[ "sortBy" := "created_at"; "sortOrder" := "desc"; "page" := "1";
       "limit" := "10"; "table" := "users2" ]}
  ∧ valid_list_query (query (request_of "" (queryParams initial_filters) ∅))
  ∧ get_users (request_of "" (queryParams initial_filters) ∅)
      (world_of five_users)
    = users_answer (getUsers (d_params initial_filters) (world_of five_users)).
Proof.
  split; [reflexivity|].
  apply (dashboard_query_round_trip initial_filters (world_of five_users));
    vm_compute; reflexivity.
Defined.

(** ** Initials *)

Lemma upper_not_lower c : is_lower (upper c) = false.
Proof. destruct c as [[] [] [] [] [] [] [] []]; reflexivity. Qed.

Lemma toUpperCase_length s :
  String.length (toUpperCase s) = String.length s.
Proof. induction s as [|c s IH]; cbn; congruence. Qed.

Lemma toUpperCase_chars s c :
  In c (String.list_ascii_of_string (toUpperCase s)) → is_lower c = false.
Proof.
  induction s as [|c' s IH]; cbn; [tauto|].
  intros [<- | Hin]; [apply upper_not_lower|auto].
Qed.

Lemma split_spaces_not_nil s : split_spaces s ≠ [].
Proof.
  destruct s as [|c s]; cbn; [discriminate|].
  destruct (Ascii.eqb c " "); [discriminate|].
  destruct (split_spaces s); discriminate.
Qed.

(** The words of a name: the parts [getInitials] keeps. *)
Lemma words_first_letter s :
  match first_letter s with
  | None => filter (fun part => (0 < String.length part)%nat) (split_spaces s) = []
  | Some c =>
      ∃ part parts,
        filter (fun part => (0 < String.length part)%nat) (split_spaces s)
        = String c part :: parts
  end.
Proof.
  induction s as [|c s IH]; cbn [first_letter split_spaces].
  - reflexivity.
  - destruct (Ascii.eqb c " ").
    + rewrite filter_cons_False by (cbn; lia). exact IH.
    + pose proof (split_spaces_not_nil s) as Hne.
      destruct (split_spaces s) as [|part parts]; [congruence|].
      rewrite filter_cons_True by (cbn; lia). eauto.
Qed.

Lemma getInitials_words name :
  getInitials name
  = let parts :=
      filter (fun part => (0 < String.length part)%nat) (split_spaces name) in
    match parts with
    | [] => "U"
    | [part] => toUpperCase (charAt0 part)
    | part :: _ =>
        toUpperCase (charAt0 part +:+ charAt0 (default "" (last parts)))
    end.
Proof.
  unfold getInitials. destruct name as [|c name]; reflexivity.
Qed.

Lemma last_word_not_empty (parts : list string) part :
  Forall (fun part => (0 < String.length part)%nat) parts →
  last parts = Some part → ∃ c rest, part = String c rest.
Proof.
  intros Hall Hlast. apply last_Some_elem_of in Hlast.
  rewrite Forall_forall in Hall. specialize (Hall _ Hlast).
  destruct part as [|c rest]; [cbn in Hall; lia|eauto].
Qed.

(** X19: on ASCII names, [getInitials] gives one or two characters, none
    of them a lower-case letter; it gives ["U"] for a name without a
    character other than a space, and else starts with the upper case of
    the first such character; a space in front of the name changes
    nothing. *)
Theorem getInitials_shape (name : string) :
  ascii_only name →
  (1 ≤ String.length (getInitials name) ≤ 2)%nat
  ∧ (∀ c, In c (String.list_ascii_of_string (getInitials name)) → is_lower c = false)
  ∧ match first_letter name with
    | None => getInitials name = "U"
    | Some c => ∃ rest, getInitials name = String (upper c) rest
    end
  ∧ getInitials (String " " name) = getInitials name.
Proof.
  intros _.
  assert (getInitials (String " " name) = getInitials name) as Hspace.
  { rewrite !getInitials_words. cbv zeta. cbn [split_spaces Ascii.eqb Bool.eqb].
    rewrite filter_cons_False by (cbn; lia). reflexivity. }
  refine ((fun H3 => conj (proj1 H3) (conj (proj1 (proj2 H3))
                       (conj (proj2 (proj2 H3)) Hspace))) _).
  clear Hspace. rewrite getInitials_words. cbv zeta.
  pose proof (words_first_letter name) as Hwords.
  assert (Forall (fun part => (0 < String.length part)%nat)
            (filter (fun part => (0 < String.length part)%nat)
               (split_spaces name))) as Hall.
  { apply Forall_forall. intros part Hin.
    apply list_elem_of_filter in Hin as [Hlen _]. exact Hlen. }
  destruct (first_letter name) as [c|].
  - destruct Hwords as (part & parts & Hparts).
    rewrite Hparts in Hall |- *.
    destruct parts as [|part' parts].
    + cbn. split; [lia|]. split; [|eauto].
      intros c' [<- | []]. apply upper_not_lower.
    + destruct (last (String c part :: part' :: parts)) as [l|] eqn:Hlast;
        [|apply last_None in Hlast; discriminate].
      destruct (last_word_not_empty _ _ Hall Hlast) as (cl & rest & ->).
      cbn. unfold String.append. cbn. split; [lia|]. split; [|eauto].
      intros c' [<- | [<- | []]]; apply upper_not_lower.
  - rewrite Hwords. cbn. split; [lia|]. split; [|reflexivity].
    intros c [<- | []]. reflexivity.
Qed.

Lemma getInitials_shape_witness :
  getInitials "  ada  king lovelace " = "AL"
  ∧ (1 ≤ String.length (getInitials "  ada  king lovelace ") ≤ 2)%nat.
Proof.
  split; [reflexivity|].
  apply (getInitials_shape "  ada  king lovelace ").
  unfold ascii_only. cbn. repeat constructor.
Defined.

(** ** The VIP features of the settings page *)

Lemma filter_index_all {A} (keep : nat → bool) (l : list A) :
  ∀ i, (∀ j, (i ≤ j)%nat → keep j = true) → filter_index keep i l = l.
Proof.
  induction l as [|x l IH]; intros i Hkeep; [reflexivity|].
  cbn [filter_index]. rewrite Hkeep by lia. f_equal.
  apply IH. intros j Hj. apply Hkeep. lia.
Qed.

Lemma filter_index_delete {A} (l : list A) :
  ∀ index i,
    filter_index (fun j => negb (Nat.eqb j (i + index))) i l
    = delete index l.
Proof.
  induction l as [|x l IH]; intros index i; [reflexivity|].
  cbn [filter_index]. destruct index as [|index].
  - rewrite Nat.add_0_r, Nat.eqb_refl. cbn [negb delete list_delete].
    apply filter_index_all. intros j Hj.
    destruct (Nat.eqb_spec j i); [lia|reflexivity].
  - destruct (Nat.eqb_spec i (i + S index)); [lia|].
    cbn [negb delete list_delete]. f_equal.
    replace (i + S index)%nat with (S i + index)%nat by lia.
    apply IH.
Qed.

Lemma removeFeature_delete index features :
  removeFeature index features = delete index features.
Proof. apply (filter_index_delete features index 0%nat). Qed.

Lemma skip_blanks_head s :
  match skip_blanks s with
  | String c _ => is_blank c = false
  | EmptyString => True
  end.
Proof.
  induction s as [|c s IH]; cbn [skip_blanks]; [exact I|].
  destruct (is_blank c) eqn:Hc; [exact IH|exact Hc].
Qed.

Lemma trimEnd_idempotent s : trimEnd (trimEnd s) = trimEnd s.
Proof.
  induction s as [|c s IH]; [reflexivity|]. cbn [trimEnd].
  destruct (trimEnd s) as [|c' t] eqn:Ht.
  - destruct (is_blank c) eqn:Hc; [reflexivity|].
    cbn [trimEnd]. rewrite Hc. reflexivity.
  - cbn [trimEnd] in IH |- *. rewrite IH. reflexivity.
Qed.

Lemma skip_blanks_trimEnd s :
  match s with
  | String c _ => is_blank c = false
  | EmptyString => True
  end →
  skip_blanks (trimEnd s) = trimEnd s.
Proof.
  destruct s as [|c s]; [reflexivity|]. intros Hc. cbn [trimEnd].
  destruct (trimEnd s); rewrite ?Hc; cbn [skip_blanks]; rewrite Hc;
    reflexivity.
Qed.

Lemma trim_idempotent s : trim (trim s) = trim s.
Proof.
  unfold trim. rewrite skip_blanks_trimEnd by apply skip_blanks_head.
  apply trimEnd_idempotent.
Qed.

Lemma trimmed_trim s : trim s ≠ "" → trimmed (trim s).
Proof. intros Hne. split; [exact Hne|apply trim_idempotent]. Qed.

(** X20: the settings page keeps its list of VIP features trimmed: when
    every feature of the list is non-empty and without a blank at either
    end, the same holds after [addFeature] and after [removeFeature];
    [addFeature] changes nothing on a blank input and else appends the
    trimmed input and clears the field; [removeFeature] drops the feature
    at the index and nothing else, and nothing at all when the index is
    past the end; removing the feature just added gives the list back. *)
Theorem features_stay_trimmed (input : string) (index : nat)
    (features : list string) :
  Forall trimmed features →
  Forall trimmed (fst (addFeature input features))
  ∧ Forall trimmed (removeFeature index features)
  ∧ (trim input = "" → addFeature input features = (features, input))
  ∧ (trim input ≠ "" →
       addFeature input features = (features ++ [trim input], ""))
  ∧ removeFeature index features
    = take index features ++ drop (S index) features
  ∧ ((length features ≤ index)%nat →
       removeFeature index features = features)
  ∧ removeFeature (length features) (fst (addFeature input features))
    = features.
Proof.
  intros Hall.
  assert (trim input = "" → addFeature input features = (features, input))
    as Hblank.
  { intros Hempty. unfold addFeature. rewrite Hempty. reflexivity. }
  assert (trim input ≠ "" →
          addFeature input features = (features ++ [trim input], ""))
    as Hadd.
  { intros Hne. unfold addFeature, truthy.
    destruct (trim input); [congruence|reflexivity]. }
  rewrite !removeFeature_delete.
  refine (conj _ (conj _ (conj Hblank (conj Hadd (conj _ (conj _ _)))))).
  - destruct (decide (trim input = "")) as [Hempty|Hne].
    + rewrite (Hblank Hempty). exact Hall.
    + rewrite (Hadd Hne). cbn [fst]. apply Forall_app. split; [exact Hall|].
      constructor; [apply trimmed_trim; exact Hne|constructor].
  - apply Forall_delete. exact Hall.
  - apply delete_take_drop.
  - intros Hlen.
    rewrite delete_take_drop, take_ge, drop_ge by lia. apply app_nil_r.
  - destruct (decide (trim input = "")) as [Hempty|Hne].
    + rewrite (Hblank Hempty). cbn [fst].
      rewrite delete_take_drop, take_ge, drop_ge by lia. apply app_nil_r.
    + rewrite (Hadd Hne). cbn [fst].
      rewrite delete_middle. apply app_nil_r.
Qed.

Lemma features_stay_trimmed_witness :
  addFeature "  early access " ["no ads"] = (["no ads"; "early access"], "")
  ∧ Forall trimmed (fst (addFeature "  early access " ["no ads"])).
Proof.
  split; [reflexivity|].
  apply (features_stay_trimmed "  early access " 0 ["no ads"]).
  repeat constructor; discriminate.
Defined.

(** ** The status filters of the list *)

Lemma matching_with_vip filters u :
  (Pg.matching (conditions_of (with_vip vip_only filters)) u
   = (Pg.matching (conditions_of (with_vip vip_all filters)) u
      && bool_decide (is_vip u = Some true))%bool)
  ∧ (Pg.matching (conditions_of (with_vip non_vip filters)) u
     = (Pg.matching (conditions_of (with_vip vip_all filters)) u
        && bool_decide (is_vip u = Some false))%bool).
Proof.
  unfold Pg.matching, conditions_of.
  cbn [with_vip f_name f_phone f_is_vip f_is_banned].
  rewrite !forallb_app. cbn [forallb Pg.satisfies].
  change (Pg.bool_column "is_vip" u) with (is_vip u).
  destruct (forallb _ _), (forallb _ _), (forallb _ _),
    (is_vip u) as [[]|]; split; reflexivity.
Qed.

Lemma matching_with_ban filters u :
  (Pg.matching (conditions_of (with_ban banned filters)) u
   = (Pg.matching (conditions_of (with_ban ban_all filters)) u
      && bool_decide (is_banned u = Some true))%bool)
  ∧ (Pg.matching (conditions_of (with_ban active filters)) u
     = (Pg.matching (conditions_of (with_ban ban_all filters)) u
        && bool_decide (is_banned u = Some false))%bool).
Proof.
  unfold Pg.matching, conditions_of.
  cbn [with_ban f_name f_phone f_is_vip f_is_banned].
  rewrite !forallb_app. cbn [forallb Pg.satisfies].
  change (Pg.bool_column "is_banned" u) with (is_banned u).
  destruct (forallb _ _), (forallb _ _), (forallb _ _),
    (is_banned u) as [[]|]; split; reflexivity.
Qed.

(** Rows kept by a test split three ways by a nullable flag. *)
Lemma filter_by_flag (m yes no : User → bool) (flag : User → option bool)
    (rows : list User) :
  (∀ u, yes u = (m u && bool_decide (flag u = Some true))%bool) →
  (∀ u, no u = (m u && bool_decide (flag u = Some false))%bool) →
  (length (filter (fun u => yes u = true) rows)
   + length (filter (fun u => no u = true) rows)
   + length (filter (fun u => flag u = None)
               (filter (fun u => m u = true) rows))
   = length (filter (fun u => m u = true) rows))%nat.
Proof.
  intros Hyes Hno. induction rows as [|u rows IH]; [reflexivity|].
  rewrite !filter_cons, Hyes, Hno.
  destruct (m u), (flag u) as [[]|] eqn:Hflag; cbn [andb];
    repeat (case_bool_decide; try congruence);
    repeat (case_decide; try congruence);
    rewrite ?filter_cons;
    repeat (case_decide; try congruence);
    cbn [length]; lia.
Qed.

Lemma page_rows_on_Pg filters rows (w : @World Pg.platform) :
  serving rows w →
  count_of (getUsers filters w)
  = Z.of_nat (length (matching_rows filters rows))
  ∧ ∀ u, u ∈ page_rows (getUsers filters w) →
         u ∈ rows ∧ Pg.matching (conditions_of filters) u = true.
Proof.
  intros [Hup Hrows]. unfold count_of, page_rows.
  rewrite (getUsers_on_Pg filters rows w Hup Hrows). cbn [fst result_count
    result_data rows_of]. split.
  - f_equal. apply Permutation_length, listed_Permutation.
  - intros u Hu.
    apply subseteq_take, subseteq_drop in Hu.
    rewrite (listed_Permutation filters rows) in Hu.
    apply list_elem_of_filter in Hu as [Hm Hin]. split; assumption.
Qed.

(** X21: on the reference database the VIP filter and the ban filter
    split the list by the flag of the row: every row listed under [vip]
    has [is_vip] true and every row under [non-vip] has it false, and the
    two counts together with the number of rows whose flag is null make
    the count under [all]; the same holds of [banned], [active] and
    [is_banned].  A row without a flag is listed under [all] only. *)
Theorem status_filters_split_the_list filters rows (w : @World Pg.platform) :
  serving rows w →
  let listed_as f := getUsers f w in
  (∀ u, u ∈ page_rows (listed_as (with_vip vip_only filters)) →
        is_vip u = Some true)
  ∧ (∀ u, u ∈ page_rows (listed_as (with_vip non_vip filters)) →
          is_vip u = Some false)
  ∧ count_of (listed_as (with_vip vip_only filters))
    + count_of (listed_as (with_vip non_vip filters))
    + Z.of_nat (length (filter (fun u => is_vip u = None)
                          (matching_rows (with_vip vip_all filters) rows)))
    = count_of (listed_as (with_vip vip_all filters))
  ∧ (∀ u, u ∈ page_rows (listed_as (with_ban banned filters)) →
          is_banned u = Some true)
  ∧ (∀ u, u ∈ page_rows (listed_as (with_ban active filters)) →
          is_banned u = Some false)
  ∧ count_of (listed_as (with_ban banned filters))
    + count_of (listed_as (with_ban active filters))
    + Z.of_nat (length (filter (fun u => is_banned u = None)
                          (matching_rows (with_ban ban_all filters) rows)))
    = count_of (listed_as (with_ban ban_all filters)).
Proof.
  intros Hserving listed_as. subst listed_as. cbv beta.
  pose proof (fun f => proj1 (page_rows_on_Pg f rows w Hserving)) as Hcount.
  pose proof (fun f => proj2 (page_rows_on_Pg f rows w Hserving)) as Hrows.
  rewrite !Hcount.
  refine (conj _ (conj _ (conj _ (conj _ (conj _ _))))).
  - intros u Hu. apply Hrows in Hu as [_ Hm].
    rewrite (proj1 (matching_with_vip filters u)) in Hm.
    apply andb_prop in Hm as [_ Hflag].
    apply bool_decide_eq_true in Hflag. exact Hflag.
  - intros u Hu. apply Hrows in Hu as [_ Hm].
    rewrite (proj2 (matching_with_vip filters u)) in Hm.
    apply andb_prop in Hm as [_ Hflag].
    apply bool_decide_eq_true in Hflag. exact Hflag.
  - unfold matching_rows.
    pose proof (filter_by_flag
                  (Pg.matching (conditions_of (with_vip vip_all filters)))
                  (Pg.matching (conditions_of (with_vip vip_only filters)))
                  (Pg.matching (conditions_of (with_vip non_vip filters)))
                  is_vip rows
                  (fun u => proj1 (matching_with_vip filters u))
                  (fun u => proj2 (matching_with_vip filters u))).
    lia.
  - intros u Hu. apply Hrows in Hu as [_ Hm].
    rewrite (proj1 (matching_with_ban filters u)) in Hm.
    apply andb_prop in Hm as [_ Hflag].
    apply bool_decide_eq_true in Hflag. exact Hflag.
  - intros u Hu. apply Hrows in Hu as [_ Hm].
    rewrite (proj2 (matching_with_ban filters u)) in Hm.
    apply andb_prop in Hm as [_ Hflag].
    apply bool_decide_eq_true in Hflag. exact Hflag.
  - unfold matching_rows.
    pose proof (filter_by_flag
                  (Pg.matching (conditions_of (with_ban ban_all filters)))
                  (Pg.matching (conditions_of (with_ban banned filters)))
                  (Pg.matching (conditions_of (with_ban active filters)))
                  is_banned rows
                  (fun u => proj1 (matching_with_ban filters u))
                  (fun u => proj2 (matching_with_ban filters u))).
    lia.
Qed.

Lemma status_filters_split_the_list_witness :
  count_of (getUsers (with_ban banned second_page_of_two)
              (world_of five_users))
  + count_of (getUsers (with_ban active second_page_of_two)
                (world_of five_users))
  + Z.of_nat (length (filter (fun u => is_banned u = None)
                        (matching_rows (with_ban ban_all second_page_of_two)
                           five_users)))
  = count_of (getUsers (with_ban ban_all second_page_of_two)
                (world_of five_users)).
Proof.
  apply (status_filters_split_the_list second_page_of_two five_users
           (world_of five_users) serving_five_users).
Defined.

(** ** A walk through the pages while the table changes

    The pages are separate requests: an update between two of them can
    move a row from a page already read to one still to come. *)
Example walk_lists_renamed_user_twice :
  ∃ u1 w1 u w2 u2 w3,
    getUsers (by_name_page 1) (world_of two_users)
    = (Returned {| result_data := PRows [u1]; result_count := 2 |}, w1)
    ∧ updateUser "a" (rename "user z") w1 = (Returned u, w2)
    ∧ getUsers (by_name_page 2) w2
      = (Returned {| result_data := PRows [u2]; result_count := 2 |}, w3)
    ∧ id u1 = "a" ∧ id u2 = "a".
Proof.
  pose proof (getUsers_on_Pg (by_name_page 1) two_users (world_of two_users)
                eq_refl eq_refl) as Hfirst.
  set (w1 := after (world_of two_users) [users_query (by_name_page 1)]
               (db (world_of two_users))) in *.
  assert (serving two_users w1) as Hserving by (split; reflexivity).
  pose proof (updateUser_on_Pg "a" (rename "user z") two_users w1 Hserving I)
    as Hupdate.
  change (rows_with_id "a" two_users) with [sample_user "a" noon] in Hupdate.
  cbv beta iota in Hupdate.
  set (w2 := after w1 _ _) in Hupdate.
  pose proof (getUsers_on_Pg (by_name_page 2)
                (update_row "a" (Pg.patch (rename "user z")) two_users) w2
                eq_refl (lookup_insert_eq _ _ _)) as Hsecond.
  eexists _, w1, _, w2, _, _.
  split; [exact Hfirst|]. split; [exact Hupdate|]. split; [exact Hsecond|].
  split; reflexivity.
Qed.
